(** * Product service: request routing and data access

    A shallow embedding of the two product-service servers of the
    repository:

    - the in-memory server (a global [products] array; routes GET list,
      GET by id and POST), module [Memory];
    - the PostgreSQL server ([ProductService] with its dynamic SQL, full
      CRUD and statistics), module [Persisted], over the [products]
      table of the schema file, module [Pg].

    What the model fixes about its surroundings:

    - Values that reach the handlers are JSON values.  The coercions the
      handlers rely on ([!x], [x <= 0], [x || y], [parseFloat],
      [parseInt], template strings) are written out in module [JS].
      A finite number is the exact rational that its shortest decimal
      rendering denotes, which is also the text the driver sends to the
      storage engine; the rounding of a longer literal to the nearest
      double is not modelled, so the model is exact on decimal literals
      of at most 15 significant digits and on integers up to 2^53.
      Letter case and white space are those of ASCII.
    - A request body is classified by what [JSON.parse] makes of it
      (empty text, a JSON text, a malformed text); the parser itself is
      not modelled.
    - The storage engine is modelled for the statements the service
      sends: typed rows, the column types and constraints of the schema,
      LIKE patterns, ordering, and a connection that may be down.  Each
      statement is kept both as syntax, which the engine executes, and as
      the command text printed from that syntax, which is what the
      service builds.  The driver's text encoding of a non-string value
      bound to a text column is a parameter ([Pg.Driver]). *)

From Stdlib Require Import ZArith QArith Qround Qabs List String Ascii Bool Lia Lqa DecimalString.
From Stdlib Require Import Permutation Sorted DecimalNat.
Import ListNotations.

Local Open Scope string_scope.
Local Open Scope Z_scope.
Local Set Warnings "-register-all".

(** ** JavaScript values and coercions *)

Module JS.

(** A JavaScript number. *)
Inductive num : Type :=
| Fin (q : Q)
| NaN
| PInf
| NInf.

Definition zero : num := Fin 0.
Definition of_Z (z : Z) : num := Fin (inject_Z z).

(** [a <= b] on numbers: false as soon as one side is NaN. *)
Definition num_le (a b : num) : bool :=
  match a, b with
  | NaN, _ | _, NaN => false
  | NInf, _ => true
  | _, PInf => true
  | Fin x, Fin y => Qle_bool x y
  | _, _ => false
  end.

Definition num_ge (a b : num) : bool := num_le b a.

(** [a === b] on numbers. *)
Definition num_eq (a b : num) : bool :=
  match a, b with
  | Fin x, Fin y => Qeq_bool x y
  | PInf, PInf | NInf, NInf => true
  | _, _ => false
  end.

(** [Math.max] of two numbers. *)
Definition num_max (a b : num) : num :=
  match a, b with
  | NaN, _ | _, NaN => NaN
  | PInf, _ | _, PInf => PInf
  | NInf, y => y
  | x, NInf => x
  | Fin x, Fin y => if Qle_bool x y then Fin y else Fin x
  end.

(** [Math.max(...xs)]: minus infinity on the empty list. *)
Definition Math_max (xs : list num) : num := fold_left num_max xs NInf.

(** [a + 1]. *)
Definition num_succ (a : num) : num :=
  match a with
  | Fin x => Fin (Qred (x + 1))
  | other => other
  end.

(** Truthiness of a number: 0 and NaN are falsy. *)
Definition num_truthy (a : num) : bool :=
  match a with
  | Fin x => negb (Qeq_bool x 0)
  | NaN => false
  | PInf | NInf => true
  end.

(** A JSON value, as [JSON.parse] returns it.  An object is the list of
    its own properties. *)
Inductive json : Type :=
| JNull
| JBool (b : bool)
| JNum (n : num)
| JStr (s : string)
| JArr (l : list json)
| JObj (o : list (string * json)).

(** A possibly [undefined] value: [None] is [undefined]. *)
Definition value : Type := option json.

Fixpoint assoc {A : Type} (k : string) (o : list (string * A)) : option A :=
  match o with
  | [] => None
  | (k', v) :: o' => if String.eqb k k' then Some v else assoc k o'
  end.

(** Truthiness ([if (x)], [!x], [x || y], [x && y]). *)
Definition truthy (v : value) : bool :=
  match v with
  | None | Some JNull => false
  | Some (JBool b) => b
  | Some (JNum n) => num_truthy n
  | Some (JStr s) => negb (String.eqb s "")
  | Some (JArr _) | Some (JObj _) => true
  end.

(** *** Characters and strings *)

Definition is_digit (c : ascii) : bool :=
  let n := nat_of_ascii c in (48 <=? n)%nat && (n <=? 57)%nat.

Definition digit_val (c : ascii) : Z := Z.of_nat (nat_of_ascii c) - 48.

(** White space skipped by the numeric parsers (ASCII part). *)
Definition is_space (c : ascii) : bool :=
  let n := nat_of_ascii c in
  (n =? 32)%nat || ((9 <=? n)%nat && (n <=? 13)%nat).

Fixpoint skip_spaces (s : string) : string :=
  match s with
  | String c s' => if is_space c then skip_spaces s' else s
  | EmptyString => s
  end.

(** Longest prefix of decimal digits: its value, its length, the rest. *)
Fixpoint span_digits (acc : Z) (len : nat) (s : string) : Z * nat * string :=
  match s with
  | String c s' =>
      if is_digit c then span_digits (10 * acc + digit_val c) (S len) s'
      else (acc, len, s)
  | EmptyString => (acc, len, s)
  end.

Definition lower_char (c : ascii) : ascii :=
  let n := nat_of_ascii c in
  if (65 <=? n)%nat && (n <=? 90)%nat then ascii_of_nat (n + 32) else c.

(** [s.toLowerCase()] / SQL [LOWER(s)] on the ASCII letters; every
    other character is left as it is, so the definition is the one of
    the code on ASCII texts only. *)
Fixpoint toLowerCase (s : string) : string :=
  match s with
  | String c s' => String (lower_char c) (toLowerCase s')
  | EmptyString => EmptyString
  end.

(** [hay.includes(needle)]. *)
Fixpoint includes (hay needle : string) : bool :=
  String.prefix needle hay ||
  match hay with
  | String _ hay' => includes hay' needle
  | EmptyString => false
  end.

(** Decimal rendering of a natural number, as in [`$${n}`]. *)
Definition show_nat (n : nat) : string := NilZero.string_of_uint (Nat.to_uint n).

(** *** [parseFloat], [parseInt] and [ToNumber] on strings *)

Definition pow10 (e : Z) : Q :=
  if 0 <=? e then inject_Z (10 ^ e) else / inject_Z (10 ^ (- e)).

(** Optional exponent part [e[+-]ddd]; without digits there is none. *)
Definition exponent_part (s : string) : Z * string :=
  match s with
  | String c s1 =>
      if Ascii.eqb c "e" || Ascii.eqb c "E" then
        let '(neg, s2) :=
          match s1 with
          | String "-" t => (true, t)
          | String "+" t => (false, t)
          | _ => (false, s1)
          end in
        let '(e, n, rest) := span_digits 0 0%nat s2 in
        match n with
        | O => (0, s)
        | _ => (if neg then - e else e, rest)
        end
      else (0, s)
  | EmptyString => (0, s)
  end.

(** An unsigned decimal literal at the head of [s]:
    [ddd], [ddd.], [ddd.ddd] or [.ddd], then an optional exponent. *)
Definition unsigned_decimal (s : string) : option (Q * string) :=
  let '(ip, ni, s1) := span_digits 0 0%nat s in
  let '(fp, nf, s2) :=
    match s1 with
    | String "." t => span_digits 0 0%nat t
    | _ => (0, 0%nat, s1)
    end in
  match ni, nf with
  | O, O => None
  | _, _ =>
      (* "ddd." with no fraction digits still consumes the dot *)
      let s2' := match ni, nf, s1 with
                 | S _, O, String "." t => t
                 | _, _, _ => s2
                 end in
      let '(e, rest) := exponent_part s2' in
      let mant := (inject_Z ip + inject_Z fp * pow10 (- Z.of_nat nf))%Q in
      Some (Qred (mant * pow10 e), rest)
  end.

Definition split_sign (s : string) : bool * string :=
  match s with
  | String "-" t => (true, t)
  | String "+" t => (false, t)
  | _ => (false, s)
  end.

(** A signed [StrDecimalLiteral] at the head of [s]. *)
Definition signed_decimal (s : string) : option (num * string) :=
  let '(neg, t) := split_sign s in
  if String.prefix "Infinity" t then
    Some (if neg then NInf else PInf, substring 8 (String.length t - 8) t)
  else
    match unsigned_decimal t with
    | Some (q, rest) => Some (Fin (if neg then Qred (- q) else q), rest)
    | None => None
    end.

(** [parseFloat(s)]: the longest numeric prefix after leading blanks,
    with its exact decimal value (the code rounds it to the nearest
    double, which renders back as the same decimal when the literal has
    at most 15 significant digits). *)
Definition parseFloat_string (s : string) : num :=
  match signed_decimal (skip_spaces s) with
  | Some (n, _) => n
  | None => NaN
  end.

Definition hex_val (c : ascii) : option Z :=
  let n := nat_of_ascii c in
  if is_digit c then Some (digit_val c)
  else if (97 <=? n)%nat && (n <=? 102)%nat then Some (Z.of_nat n - 87)
  else if (65 <=? n)%nat && (n <=? 70)%nat then Some (Z.of_nat n - 55)
  else None.

(** Longest prefix of digits in base [radix] (2, 8 or 16). *)
Fixpoint span_radix (radix acc : Z) (len : nat) (s : string) : Z * nat * string :=
  match s with
  | String c s' =>
      match hex_val c with
      | Some d =>
          if d <? radix then span_radix radix (radix * acc + d) (S len) s'
          else (acc, len, s)
      | None => (acc, len, s)
      end
  | EmptyString => (acc, len, s)
  end.

(** [parseInt(s)] with no radix argument: blanks, sign, an optional
    [0x] prefix, then digits. *)
Definition parseInt_string (s : string) : num :=
  let '(neg, t) := split_sign (skip_spaces s) in
  let '(v, n, _) :=
    match t with
    | String "0" (String x t') =>
        if Ascii.eqb x "x" || Ascii.eqb x "X" then span_radix 16 0 0%nat t'
        else span_digits 0 0%nat t
    | _ => span_digits 0 0%nat t
    end in
  match n with
  | O => NaN
  | _ => of_Z (if neg then - v else v)
  end.

(** [Number(s)]: the whole string, blanks trimmed on both sides, must be
    a numeric literal; the empty string is 0. *)
Definition ToNumber_string (s : string) : num :=
  let t := skip_spaces s in
  let whole (r : Z * nat * string) : num :=
    let '(v, n, rest) := r in
    match n, skip_spaces rest with
    | S _, EmptyString => of_Z v
    | _, _ => NaN
    end in
  match t with
  | EmptyString => zero
  | String "0" (String x t') =>
      if Ascii.eqb x "x" || Ascii.eqb x "X" then whole (span_radix 16 0 0%nat t')
      else if Ascii.eqb x "o" || Ascii.eqb x "O" then whole (span_radix 8 0 0%nat t')
      else if Ascii.eqb x "b" || Ascii.eqb x "B" then whole (span_radix 2 0 0%nat t')
      else
        match signed_decimal t with
        | Some (n, rest) =>
            match skip_spaces rest with EmptyString => n | _ => NaN end
        | None => NaN
        end
  | _ =>
      match signed_decimal t with
      | Some (n, rest) =>
          match skip_spaces rest with EmptyString => n | _ => NaN end
      | None => NaN
      end
  end.

(** *** Coercions of arbitrary values *)

(** The conversion of [v] to a primitive throws a TypeError.  An object
    that carries an own property [toString] has lost the inherited
    method: the property holds a JSON value, which cannot be called, and
    the inherited [valueOf] returns the object itself.  An array is
    rendered by joining the renderings of its elements, so it throws
    when one of them does.  This is the one way in which [x <= 0],
    [parseFloat(x)] and [parseInt(x)] can fail on a JSON value. *)
Fixpoint unprintable (v : json) : bool :=
  match v with
  | JObj o => match assoc "toString" o with Some _ => true | None => false end
  | JArr l => existsb unprintable l
  | _ => false
  end.

(** The same for a possibly [undefined] value. *)
Definition throws (v : value) : bool :=
  match v with
  | Some j => unprintable j
  | None => false
  end.

(** The message of that TypeError. *)
Definition not_primitive : string := "Cannot convert object to primitive value".

(** [String(l)] for a list of strings: [l.join(",")]. *)
Definition join_comma (l : list string) : string := String.concat "," l.

(** [Number(v)], the conversion behind [v <= 0], for a value whose
    rendering does not throw.  An array is first turned into the
    comma-joined string of its elements ([null] elements give the empty
    string), any other object into ["[object Object]"]. *)
Fixpoint ToNumber_json (v : json) : num :=
  match v with
  | JNull => zero
  | JBool b => if b then of_Z 1 else zero
  | JNum n => n
  | JStr s => ToNumber_string s
  | JArr [] => zero
  | JArr [x] =>
      match x with
      | JNull => zero
      | JBool _ => NaN
      | JNum n => n
      | JStr s => ToNumber_string s
      | JArr _ => ToNumber_json x
      | JObj _ => NaN
      end
  | JArr (_ :: _ :: _) => NaN
  | JObj _ => NaN
  end.

Definition ToNumber (v : value) : num :=
  match v with
  | None => NaN
  | Some j => ToNumber_json j
  end.

(** [v <= n] for a number [n]. *)
Definition le_num (v : value) (n : num) : bool := num_le (ToNumber v) n.

(** [parseFloat(v)]: the numeric prefix of [String(v)], for a value
    whose rendering does not throw.  For an array that prefix is the one
    of its first element, since the separating comma ends every numeric
    literal. *)
Fixpoint parseFloat_json (v : json) : num :=
  match v with
  | JNull | JBool _ | JObj _ => NaN
  | JNum n => n
  | JStr s => parseFloat_string s
  | JArr [] => NaN
  | JArr (x :: _) => parseFloat_json x
  end.

Definition parseFloat (v : value) : num :=
  match v with
  | None => NaN
  | Some j => parseFloat_json j
  end.

(** Integer part of a rational, towards zero. *)
Definition trunc (q : Q) : Z := if Qle_bool 0 q then Qfloor q else Qceiling q.

(** The first digit of a positive integer. *)
Fixpoint leading_digit (fuel : nat) (z : Z) : Z :=
  match fuel with
  | O => z
  | S fuel' => if z <? 10 then z else leading_digit fuel' (z / 10)
  end.

(** The first significant digit of a rational between 0 and 1. *)
Fixpoint first_digit (fuel : nat) (q : Q) : Z :=
  match fuel with
  | O => Qfloor q
  | S fuel' => if Qle_bool 1 q then Qfloor q else first_digit fuel' (q * 10)
  end.

(** [parseInt(x)] for a finite number [x]: the integer prefix of
    [String(x)].  Magnitudes in [1e-6, 1e21) are rendered in positional
    notation, whose prefix is the integer part; a magnitude outside that
    range is rendered as [d.ddde+n] or [d.ddde-n], whose integer prefix
    is the single leading digit [d] (so [parseInt(5e-7)] is 5). *)
Definition parseInt_number (q : Q) : Z :=
  let a := Qabs q in
  let signed (z : Z) := if Qle_bool 0 q then z else - z in
  if Qeq_bool q 0 then 0
  else if Qle_bool (inject_Z (10 ^ 21)) a then
    signed (leading_digit (Z.to_nat (Z.log2 (Qfloor a))) (Qfloor a))
  else if Qle_bool (1 # 1000000) a then trunc q
  else signed (first_digit (S (Z.to_nat (Z.log2 (Zpos (Qden a))))) a).

(** [parseInt(v)]: the integer prefix of [String(v)], for a value whose
    rendering does not throw. *)
Fixpoint parseInt_json (v : json) : num :=
  match v with
  | JNull | JBool _ | JObj _ => NaN
  | JNum (Fin q) => of_Z (parseInt_number q)
  | JNum _ => NaN
  | JStr s => parseInt_string s
  | JArr [] => NaN
  | JArr (x :: _) => parseInt_json x
  end.

Definition parseInt (v : value) : num :=
  match v with
  | None => NaN
  | Some j => parseInt_json j
  end.

(** A value bound as a query parameter: [undefined] is sent as
    [null]. *)
Definition to_param (v : value) : json :=
  match v with
  | Some j => j
  | None => JNull
  end.

(** [n || d] on numbers. *)
Definition num_or (n d : num) : num := if num_truthy n then n else d.

(** [v || d]. *)
Definition or_else (v : value) (d : json) : json :=
  match v with
  | Some j => if truthy v then j else d
  | None => d
  end.

End JS.

(** ** Requests and responses *)

Module Http.
Import JS.

(** Time, in milliseconds since the epoch. *)
Definition timestamp : Type := Z.

(** A value of the parsed query string: one string, or the list of the
    values of a repeated key. *)
Inductive qval : Type :=
| QStr (s : string)
| QArr (l : list string).

Definition qtruthy (v : option qval) : bool :=
  match v with
  | None => false
  | Some (QStr s) => negb (String.eqb s "")
  | Some (QArr _) => true
  end.

(** The value of a filter the list operation takes into account: the
    query parameter when it is truthy ([if (query.f)]). *)
Definition supplied (f : string) (q : list (string * qval)) : option qval :=
  match assoc f q with
  | Some v => if qtruthy (Some v) then Some v else None
  | None => None
  end.

(** [String(v)], as in a template string. *)
Definition qstring (v : qval) : string :=
  match v with
  | QStr s => s
  | QArr l => join_comma l
  end.

(** The buffered request body, by what [JSON.parse] makes of it: the
    empty string (never handed to [JSON.parse]), a JSON text denoting
    [v], or a text [JSON.parse] throws on. *)
Inductive raw_body : Type :=
| EmptyText
| JsonText (v : json)
| Malformed.

Record request : Type := {
  method : string;
  pathname : string;
  query : list (string * qval);
  body : raw_body
}.

(** [parseBody]: [body ? JSON.parse(body) : {}]; [None] is the error
    handed to the callback. *)
Definition parseBody (b : raw_body) : option json :=
  match b with
  | EmptyText => Some (JObj [])
  | JsonText v => Some v
  | Malformed => None
  end.

(** [const { f } = body]: throws on [null], reads an own property of an
    object, and is [undefined] on every other JSON value. *)
Definition destructurable (b : json) : bool :=
  match b with JNull => false | _ => true end.

Definition prop (f : string) (b : json) : value :=
  match b with
  | JObj o => assoc f o
  | _ => None
  end.

(** [pathname.match(/^\/api\/products\/(\d+)$/)] followed by
    [parseInt] of the captured digits.  The integer is the exact value
    of the digits, which is what [parseInt] returns up to 2^53; beyond
    that [parseInt] rounds to a double.  No handler tells the two apart:
    such an id is outside the range of the [integer] column and above
    every identifier of the in-memory array. *)
Definition productIdMatch (path : string) : option Z :=
  if String.prefix "/api/products/" path then
    let '(v, n, rest) :=
      span_digits 0 0%nat (substring 14 (String.length path - 14) path) in
    match n, rest with
    | S _, EmptyString => Some v
    | _, _ => None
    end
  else None.

(** The object handed to [JSON.stringify], field by field and in the
    order of the object literal; [P] is the type of product records. *)
Inductive field (P : Type) : Type :=
| FBool (b : bool)
| FStr (s : string)
| FNat (n : nat)
| FTime (t : timestamp)
| FOne (p : P)
| FMany (ps : list P)
| FObj (o : list (string * field P)).

Arguments FBool {P} b.
Arguments FStr {P} s.
Arguments FNat {P} n.
Arguments FTime {P} t.
Arguments FOne {P} p.
Arguments FMany {P} ps.
Arguments FObj {P} o.

Definition envelope (P : Type) : Type := list (string * field P).

Record response (P : Type) : Type := {
  status : nat;
  payload : option (envelope P)      (* [None]: [res.end()] with no body *)
}.

Arguments status {P} r.
Arguments payload {P} r.

(** What a request ends in: a response, or an exception nothing
    catches (no response is written). *)
Inductive outcome (P : Type) : Type :=
| Responded (r : response P)
| Uncaught (what : string).

Arguments Responded {P} r.
Arguments Uncaught {P} what.

Definition reply {P : Type} (code : nat) (e : envelope P) : outcome P :=
  Responded {| status := code; payload := Some e |}.

(** The error envelope [{success: false, error: msg}]. *)
Definition failure {P : Type} (msg : string) : envelope P :=
  [("success", FBool false); ("error", FStr msg)].

(** Shape test: [success] is [false] and [error] is a string. *)
Definition is_error_envelope {P : Type} (e : envelope P) : bool :=
  match assoc "success" e, assoc "error" e with
  | Some (FBool false), Some (FStr _) => true
  | _, _ => false
  end.

End Http.

(** ** The in-memory server *)

Module Memory.
Import JS Http.

(** An element of the [products] array.  [name] and [category] are
    stored as the request gave them, whatever their JSON type. *)
Record product : Type := {
  id : num;
  name : value;
  description : json;
  price : num;
  category : value;
  stock : num;
  createdAt : timestamp
}.

(** The sample data the array starts with; [boot] is the start time. *)
Definition sample_products (boot : timestamp) : list product :=
  [ {| id := of_Z 1;
       name := Some (JStr "Gaming Laptop Pro");
       description := JStr "High-performance gaming laptop with RTX graphics";
       price := Fin 1299.99;
       category := Some (JStr "Electronics");
       stock := of_Z 15;
       createdAt := boot |};
    {| id := of_Z 2;
       name := Some (JStr "Wireless Headphones");
       description := JStr "Premium noise-cancelling wireless headphones";
       price := Fin 249.99;
       category := Some (JStr "Audio");
       stock := of_Z 30;
       createdAt := boot |};
    {| id := of_Z 3;
       name := Some (JStr "Smart Watch");
       description := JStr "Fitness tracking smartwatch with heart rate monitor";
       price := Fin 199.99;
       category := Some (JStr "Wearables");
       stock := of_Z 25;
       createdAt := boot |} ].

(** [xs.filter(f)] for a callback that may throw: [None] as soon as one
    call throws. *)
Fixpoint filter_throwing {A : Type} (f : A -> option bool) (xs : list A)
  : option (list A) :=
  match xs with
  | [] => Some []
  | x :: xs' =>
      match f x with
      | None => None
      | Some keep =>
          match filter_throwing f xs' with
          | None => None
          | Some ys => Some (if keep then x :: ys else ys)
          end
      end
  end.

(** [product.category.toLowerCase().includes(query.category.toLowerCase())]:
    [toLowerCase] exists on strings only. *)
Definition category_matches (wanted : qval) (p : product) : option bool :=
  match category p, wanted with
  | Some (JStr c), QStr w => Some (includes (toLowerCase c) (toLowerCase w))
  | _, _ => None
  end.

Definition price_at_least (wanted : qval) (p : product) : bool :=
  num_ge (price p) (parseFloat_string (qstring wanted)).

Definition price_at_most (wanted : qval) (p : product) : bool :=
  num_le (price p) (parseFloat_string (qstring wanted)).

(** The filtering of GET /api/products: each filter is applied when its
    query parameter is truthy.  [None]: a [TypeError] was thrown. *)
Definition filterProducts (q : list (string * qval)) (products : list product)
  : option (list product) :=
  let filteredProducts := Some products in
  let filteredProducts :=
    match supplied "category" q, filteredProducts with
    | Some w, Some ps => filter_throwing (category_matches w) ps
    | _, r => r
    end in
  let filteredProducts :=
    match supplied "minPrice" q, filteredProducts with
    | Some w, Some ps => Some (filter (price_at_least w) ps)
    | _, r => r
    end in
  match supplied "maxPrice" q, filteredProducts with
  | Some w, Some ps => Some (filter (price_at_most w) ps)
  | _, r => r
  end.

(** [products.find(p => p.id === id)]. *)
Definition findProduct (i : num) (products : list product) : option product :=
  find (fun p => num_eq (id p) i) products.

(** The object literal [newProduct] of the POST handler. *)
Definition newProduct (now : timestamp) (b : json) (products : list product)
  : product :=
  {| id := num_succ (Math_max (map id products));
     name := prop "name" b;
     description := or_else (prop "description" b) (JStr "");
     price := parseFloat (prop "price" b);
     category := prop "category" b;
     stock := num_or (parseInt (prop "stock" b)) zero;
     createdAt := now |}.

(** The callback of the POST handler, given what [parseBody] produced.
    The callback runs inside the [try] block of [parseBody]: when it
    throws (on destructuring [null], or in [parseFloat(price)] or
    [parseInt(stock)] while [newProduct] is being built, before the
    array is touched), the [catch] clause calls it again with the error,
    and that second call answers "Invalid JSON". *)
Definition createHandler (now : timestamp) (parsed : option json)
    (products : list product) : outcome product * list product :=
  match parsed with
  | None => (reply 400 (failure "Invalid JSON"), products)
  | Some b =>
      if negb (destructurable b) then
        (reply 400 (failure "Invalid JSON"), products)
      else if negb (truthy (prop "name" b)) || negb (truthy (prop "price" b))
              || negb (truthy (prop "category" b)) then
        (reply 400 (failure "Name, price, and category are required"), products)
      else if throws (prop "price" b) || throws (prop "stock" b) then
        (reply 400 (failure "Invalid JSON"), products)
      else
        let p := newProduct now b products in
        (reply 201 [("success", FBool true); ("data", FOne p)], (products ++ [p])%list)
  end.

(** The request listener.  [now] is the clock read by [new Date()]. *)
Definition server (now : timestamp) (req : request) (products : list product)
  : outcome product * list product :=
  if String.eqb (method req) "OPTIONS" then
    (Responded {| status := 200; payload := None |}, products)
  else if String.eqb (pathname req) "/health" then
    (reply 200 [("status", FStr "OK"); ("service", FStr "product-service");
                ("timestamp", FTime now); ("version", FStr "1.0.0")], products)
  else if String.eqb (pathname req) "/api/products"
          && String.eqb (method req) "GET" then
    match filterProducts (query req) products with
    | Some ps =>
        (reply 200 [("success", FBool true); ("count", FNat (List.length ps));
                    ("data", FMany ps)], products)
    | None => (Uncaught "TypeError: toLowerCase is not a function", products)
    end
  else
    match productIdMatch (pathname req), String.eqb (method req) "GET" with
    | Some i, true =>
        match findProduct (of_Z i) products with
        | None => (reply 404 (failure "Product not found"), products)
        | Some p => (reply 200 [("success", FBool true); ("data", FOne p)], products)
        end
    | _, _ =>
        if String.eqb (pathname req) "/api/products"
           && String.eqb (method req) "POST" then
          createHandler now (parseBody (body req)) products
        else
          (reply 404 [("error", FStr "Route not found");
                      ("path", FStr (pathname req));
                      ("method", FStr (method req))], products)
    end.

End Memory.

(** ** The storage collaborator: the [products] table behind a pool *)

Module Pg.
Import JS Http.

(** A row of [products], typed after the schema: [name], [price] and
    [category] are NOT NULL, the other columns are nullable. *)
Record row : Type := {
  id : Z;
  name : string;
  description : option string;
  price : num;
  category : string;
  stock : option Z;
  created_at : option timestamp;
  updated_at : option timestamp
}.

(** A row of the statistics query. *)
Record stat_row : Type := {
  stat_category : string;
  total_products : nat;
  avg_price : num;
  total_stock : option Z;
  min_price : num;
  max_price : num
}.

(** The state the service shares across requests. *)
Record database : Type := {
  products : list row;
  products_id_seq : Z;              (* next value of the SERIAL sequence *)
  order_items : list Z;             (* product ids referenced by order_items *)
  outage : option string;           (* [Some msg]: connecting fails with [msg] *)
  server_version : string;          (* text of [version()] *)
  pool_total : nat;
  pool_idle : nat;
  pool_waiting : nat;
  log : list (string * list json)   (* statements sent, oldest first *)
}.

Definition with_products (d : database) (rs : list row) (seq : Z) : database :=
  {| products := rs; products_id_seq := seq; order_items := order_items d;
     outage := outage d; server_version := server_version d;
     pool_total := pool_total d; pool_idle := pool_idle d;
     pool_waiting := pool_waiting d; log := log d |}.

Definition with_log (d : database) (l : list (string * list json)) : database :=
  {| products := products d; products_id_seq := products_id_seq d;
     order_items := order_items d; outage := outage d;
     server_version := server_version d; pool_total := pool_total d;
     pool_idle := pool_idle d; pool_waiting := pool_waiting d; log := l |}.

(** The driver's text encoding of a parameter that is neither a string
    nor [null] (node-postgres [prepareValue]); the library is not part of
    the repository, so its encoding is a parameter of the model. *)
Class Driver : Type := { prepareValue : json -> string }.

(** *** Statements the service sends, as syntax *)

Inductive column : Type := c_name | c_description | c_price | c_category | c_stock.

Definition column_name (c : column) : string :=
  match c with
  | c_name => "name"
  | c_description => "description"
  | c_price => "price"
  | c_category => "category"
  | c_stock => "stock"
  end.

Inductive cond : Type := CategoryLike | PriceAtLeast | PriceAtMost.

(** Placeholders are numbered from 1, as in [$1]. *)
Inductive statement : Type :=
| SelectWhere (conds : list (cond * nat))
| SelectById
| InsertProduct
| UpdateSet (sets : list (column * nat)) (idparam : nat)
| DeleteById
| CategoryStats
| ServerInfo.

Definition nl : string := String (ascii_of_nat 10) EmptyString.

Definition returning : string :=
  "RETURNING id, name, description, price, category, stock, created_at, updated_at".

Definition cond_text (c : cond * nat) : string :=
  match c with
  | (CategoryLike, k) => " AND LOWER(category) LIKE LOWER($" ++ show_nat k ++ ")"
  | (PriceAtLeast, k) => " AND price >= $" ++ show_nat k
  | (PriceAtMost, k) => " AND price <= $" ++ show_nat k
  end.

Definition set_text (s : column * nat) : string :=
  column_name (fst s) ++ " = $" ++ show_nat (snd s).

(** The command text of a statement, character for character what the
    template strings of [ProductService] produce. *)
Definition sql_text (st : statement) : string :=
  match st with
  | SelectWhere conds =>
      nl ++ "      SELECT id, name, description, price, category, stock, "
      ++ nl ++ "             created_at, updated_at "
      ++ nl ++ "      FROM products "
      ++ nl ++ "      WHERE 1=1"
      ++ nl ++ "    "
      ++ String.concat "" (map cond_text conds)
      ++ " ORDER BY created_at DESC"
  | SelectById =>
      nl ++ "      SELECT id, name, description, price, category, stock, "
      ++ nl ++ "             created_at, updated_at "
      ++ nl ++ "      FROM products "
      ++ nl ++ "      WHERE id = $1"
      ++ nl ++ "    "
  | InsertProduct =>
      nl ++ "      INSERT INTO products (name, description, price, category, stock, created_at, updated_at)"
      ++ nl ++ "      VALUES ($1, $2, $3, $4, $5, CURRENT_TIMESTAMP, CURRENT_TIMESTAMP)"
      ++ nl ++ "      " ++ returning
      ++ nl ++ "    "
  | UpdateSet sets idparam =>
      nl ++ "      UPDATE products "
      ++ nl ++ "      SET "
      ++ String.concat ", " (map set_text sets ++ ["updated_at = CURRENT_TIMESTAMP"])
      ++ nl ++ "      WHERE id = $" ++ show_nat idparam
      ++ nl ++ "      " ++ returning
      ++ nl ++ "    "
  | DeleteById =>
      nl ++ "      DELETE FROM products "
      ++ nl ++ "      WHERE id = $1 "
      ++ nl ++ "      " ++ returning
      ++ nl ++ "    "
  | CategoryStats =>
      nl ++ "      SELECT "
      ++ nl ++ "        category,"
      ++ nl ++ "        COUNT(" ++ "*) as total_products,"
      ++ nl ++ "        AVG(price) as avg_price,"
      ++ nl ++ "        SUM(stock) as total_stock,"
      ++ nl ++ "        MIN(price) as min_price,"
      ++ nl ++ "        MAX(price) as max_price"
      ++ nl ++ "      FROM products "
      ++ nl ++ "      GROUP BY category"
      ++ nl ++ "      ORDER BY total_products DESC"
      ++ nl ++ "    "
  | ServerInfo => "SELECT NOW() as server_time, version() as version"
  end.

(** *** Values, comparisons and patterns of the engine *)

(** Order of [numeric]: NaN equals itself and is above every other
    value. *)
Definition pg_le (a b : num) : bool :=
  match a, b with
  | _, NaN => true
  | NaN, _ => false
  | _, _ => num_le a b
  end.

Definition pg_lt (a b : num) : bool := negb (pg_le b a).

Definition backslash : ascii := ascii_of_nat 92.

(** [s LIKE pat], backslash being the escape character. *)
Fixpoint like (pat : string) : string -> bool :=
  match pat with
  | EmptyString => fun s => String.eqb s ""
  | String c pat' =>
      if Ascii.eqb c "%" then
        fix skip (s : string) : bool :=
          like pat' s ||
          match s with
          | String _ s' => skip s'
          | EmptyString => false
          end
      else if Ascii.eqb c "_" then
        fun s => match s with
                 | String _ s' => like pat' s'
                 | EmptyString => false
                 end
      else if Ascii.eqb c backslash then
        match pat' with
        | String e pat'' =>
            fun s => match s with
                     | String x s' => Ascii.eqb e x && like pat'' s'
                     | EmptyString => false
                     end
        | EmptyString => fun _ => false
        end
      else
        fun s => match s with
                 | String x s' => Ascii.eqb c x && like pat' s'
                 | EmptyString => false
                 end
  end.

(** Rounding to two decimals, ties away from zero. *)
Definition round2 (q : Q) : Q :=
  let n := Qfloor (Qabs q * 100 + (1 # 2)) in
  Qred (inject_Z (if Qle_bool 0 q then n else - n) / 100).

(** Assignment to a [DECIMAL(10,2)] column. *)
Definition to_decimal_10_2 (n : num) : option num :=
  match n with
  | Fin q =>
      let r := round2 q in
      if Qle_bool (inject_Z (10 ^ 8)) (Qabs r) then None else Some (Fin r)
  | NaN => Some NaN
  | PInf | NInf => None
  end.

(** A parameter read as a 32-bit [integer]. *)
Definition as_int4 (p : json) : option Z :=
  match p with
  | JNum (Fin q) =>
      let z := Qfloor q in
      if Qeq_bool q (inject_Z z) && (- 2147483648 <=? z) && (z <=? 2147483647)
      then Some z else None
  | _ => None
  end.

(** A parameter read as a [numeric]. *)
Definition as_numeric (p : json) : option num :=
  match p with
  | JNum n => Some n
  | _ => None
  end.

(** A parameter read as text; [None] is SQL NULL. *)
Definition as_text {D : Driver} (p : json) : option string :=
  match p with
  | JNull => None
  | JStr s => Some s
  | other => Some (prepareValue other)
  end.

Definition param (k : nat) (params : list json) : json :=
  nth (k - 1) params JNull.

(** Error codes (SQLSTATE) the model raises. *)
Definition unique_violation : string := "23505".
Definition check_violation : string := "23514".
Definition not_null_violation : string := "23502".
Definition foreign_key_violation : string := "23503".
Definition numeric_value_out_of_range : string := "22003".
Definition string_data_right_truncation : string := "22001".
Definition invalid_text_representation : string := "22P02".
Definition connection_failure : string := "ECONNREFUSED".

(** Assignment to a [VARCHAR(n)] column: a longer string is an error
    unless everything beyond [n] characters is blank, in which case it is
    cut. *)
Fixpoint all_blank (s : string) : bool :=
  match s with
  | String c s' => Ascii.eqb c " " && all_blank s'
  | EmptyString => true
  end.

Definition to_varchar (n : nat) (s : string) : option string :=
  if (String.length s <=? n)%nat then Some s
  else if all_blank (substring n (String.length s - n) s)
       then Some (substring 0 n s) else None.

(** The CHECK constraints of the table: [price > 0] and [stock >= 0]
    (a NULL stock passes). *)
Definition checks_pass (r : row) : bool :=
  pg_lt zero (price r) &&
  match stock r with
  | Some s => 0 <=? s
  | None => true
  end.

(** *** Execution *)

Inductive query_result : Type :=
| Rows (rs : list row)
| StatRows (ss : list stat_row)
| InfoRow (server_time : timestamp) (version : string)
| Failed (code : string) (message : string).

Definition fail (code : string) : query_result := Failed code code.

Section Engine.
Context {D : Driver}.

Definition holds (params : list json) (c : cond * nat) (r : row) : bool :=
  match c with
  | (CategoryLike, k) =>
      match as_text (param k params) with
      | Some pat => like (toLowerCase pat) (toLowerCase (category r))
      | None => false
      end
  | (PriceAtLeast, k) =>
      match as_numeric (param k params) with
      | Some n => pg_le n (price r)
      | None => false
      end
  | (PriceAtMost, k) =>
      match as_numeric (param k params) with
      | Some n => pg_le (price r) n
      | None => false
      end
  end.

(** ORDER BY created_at DESC: NULLs first, equal keys in table order. *)
Definition not_older (a b : row) : bool :=
  match created_at a, created_at b with
  | None, _ => true
  | Some _, None => false
  | Some x, Some y => y <=? x
  end.

Fixpoint insert_by {A : Type} (before : A -> A -> bool) (r : A) (rs : list A)
  : list A :=
  match rs with
  | [] => [r]
  | x :: xs => if before r x then r :: rs else x :: insert_by before r xs
  end.

Definition order_by {A : Type} (before : A -> A -> bool) (rs : list A) : list A :=
  fold_right (insert_by before) [] rs.

(** One assignment of an UPDATE applied to a row; [inl code] is the
    error raised. *)
Definition assign (params : list json) (s : column * nat) (r : row)
  : string + row :=
  let p := param (snd s) params in
  let put (n : string) (d : option string) (pr : num) (c : string) (st : option Z) :=
    inr {| id := id r; name := n; description := d; price := pr; category := c;
           stock := st; created_at := created_at r; updated_at := updated_at r |} in
  match fst s with
  | c_name =>
      match as_text p with
      | None => inl not_null_violation
      | Some t =>
          match to_varchar 255 t with
          | None => inl string_data_right_truncation
          | Some n => put n (description r) (price r) (category r) (stock r)
          end
      end
  | c_description => put (name r) (as_text p) (price r) (category r) (stock r)
  | c_price =>
      match as_numeric p with
      | None => inl invalid_text_representation
      | Some v =>
          match to_decimal_10_2 v with
          | None => inl numeric_value_out_of_range
          | Some pr => put (name r) (description r) pr (category r) (stock r)
          end
      end
  | c_category =>
      match as_text p with
      | None => inl not_null_violation
      | Some t =>
          match to_varchar 100 t with
          | None => inl string_data_right_truncation
          | Some c => put (name r) (description r) (price r) c (stock r)
          end
      end
  | c_stock =>
      match as_int4 p with
      | None => inl invalid_text_representation
      | Some z => put (name r) (description r) (price r) (category r) (Some z)
      end
  end.

Fixpoint assign_all (params : list json) (sets : list (column * nat)) (r : row)
  : string + row :=
  match sets with
  | [] => inr r
  | s :: sets' =>
      match assign params s r with
      | inl code => inl code
      | inr r' => assign_all params sets' r'
      end
  end.

Definition touch (now : timestamp) (r : row) : row :=
  {| id := id r; name := name r; description := description r; price := price r;
     category := category r; stock := stock r; created_at := created_at r;
     updated_at := Some now |}.

(** The new version of one row under an UPDATE. *)
Definition update_row (now : timestamp) (params : list json)
    (sets : list (column * nat)) (r : row) : string + row :=
  match assign_all params sets r with
  | inl code => inl code
  | inr r' => if checks_pass r' then inr (touch now r') else inl check_violation
  end.

(** UPDATE over the table: the new table and the rows returned. *)
Fixpoint update_rows (now : timestamp) (params : list json)
    (sets : list (column * nat)) (i : Z) (rs : list row)
  : string + (list row * list row) :=
  match rs with
  | [] => inr ([], [])
  | r :: rs' =>
      if id r =? i then
        match update_row now params sets r with
        | inl code => inl code
        | inr r' =>
            match update_rows now params sets i rs' with
            | inl code => inl code
            | inr (table, out) => inr (r' :: table, r' :: out)
            end
        end
      else
        match update_rows now params sets i rs' with
        | inl code => inl code
        | inr (table, out) => inr (r :: table, out)
        end
  end.

(** Parameters of integer type are decoded when the statement is bound,
    before any row is looked at. *)
Definition binds (params : list json) (sets : list (column * nat)) : bool :=
  forallb (fun s => match fst s with
                    | c_stock => match as_int4 (param (snd s) params) with
                                 | Some _ => true
                                 | None => false
                                 end
                    | _ => true
                    end) sets.

(** The row an INSERT builds from its five parameters. *)
Definition inserted_row (now : timestamp) (params : list json) (i : Z)
  : string + row :=
  match as_int4 (param 5 params), as_numeric (param 3 params) with
  | Some st, Some v =>
      match as_text (param 1 params), as_text (param 4 params) with
      | Some n, Some c =>
          match to_varchar 255 n, to_varchar 100 c, to_decimal_10_2 v with
          | Some n', Some c', Some pr =>
              let r := {| id := i; name := n';
                          description := as_text (param 2 params);
                          price := pr; category := c'; stock := Some st;
                          created_at := Some now; updated_at := Some now |} in
              if checks_pass r then inr r else inl check_violation
          | _, _, None => inl numeric_value_out_of_range
          | _, _, _ => inl string_data_right_truncation
          end
      | _, _ => inl not_null_violation
      end
  | _, _ => inl invalid_text_representation
  end.

Definition sum_stock (rs : list row) : option Z :=
  fold_left (fun acc r => match acc, stock r with
                          | Some a, Some s => Some (a + s)
                          | None, x => x
                          | a, None => a
                          end) rs None.

Definition sum_price (rs : list row) : num :=
  fold_left (fun acc r => match acc, price r with
                          | Fin a, Fin p => Fin (Qred (a + p))
                          | Fin _, other => other
                          | other, _ => other
                          end) rs zero.

Definition extreme (better : num -> num -> bool) (rs : list row) : num :=
  match rs with
  | [] => NaN
  | r :: rs' =>
      fold_left (fun acc x => if better (price x) acc then price x else acc)
                rs' (price r)
  end.

Definition stats_of (rs : list row) (c : string) : stat_row :=
  let g := filter (fun r => String.eqb (category r) c) rs in
  {| stat_category := c;
     total_products := List.length g;
     avg_price := match sum_price g with
                  | Fin s => Fin (Qred (s / inject_Z (Z.of_nat (List.length g))))
                  | other => other
                  end;
     total_stock := sum_stock g;
     min_price := extreme pg_le g;
     max_price := extreme (fun a b => pg_le b a) g |}.

Definition category_stats (rs : list row) : list stat_row :=
  order_by (fun a b => (total_products b <=? total_products a)%nat)
           (map (stats_of rs) (nodup string_dec (map category rs))).

(** Execution of a statement at time [now]. *)
Definition exec (now : timestamp) (st : statement) (params : list json)
    (d : database) : query_result * database :=
  match st with
  | SelectWhere conds =>
      (Rows (order_by not_older
               (filter (fun r => forallb (fun c => holds params c r) conds)
                       (products d))), d)
  | SelectById =>
      match as_int4 (param 1 params) with
      | None => (fail numeric_value_out_of_range, d)
      | Some i => (Rows (filter (fun r => id r =? i) (products d)), d)
      end
  | InsertProduct =>
      let i := products_id_seq d in
      match inserted_row now params i with
      | inl code =>
          if String.eqb code invalid_text_representation then (fail code, d)
          else (fail code, with_products d (products d) (i + 1))
      | inr r =>
          if negb ((- 2147483648 <=? i) && (i <=? 2147483647))
          then (fail numeric_value_out_of_range, with_products d (products d) (i + 1))
          else if existsb (fun x => id x =? i) (products d)
          then (fail unique_violation, with_products d (products d) (i + 1))
          else (Rows [r], with_products d (products d ++ [r])%list (i + 1))
      end
  | UpdateSet sets idparam =>
      match as_int4 (param idparam params), binds params sets with
      | Some i, true =>
          match update_rows now params sets i (products d) with
          | inl code => (fail code, d)
          | inr (table, out) => (Rows out, with_products d table (products_id_seq d))
          end
      | None, _ => (fail numeric_value_out_of_range, d)
      | _, false => (fail invalid_text_representation, d)
      end
  | DeleteById =>
      match as_int4 (param 1 params) with
      | None => (fail numeric_value_out_of_range, d)
      | Some i =>
          let gone := filter (fun r => id r =? i) (products d) in
          match gone with
          | [] => (Rows [], d)
          | _ =>
              if existsb (Z.eqb i) (order_items d)
              then (fail foreign_key_violation, d)
              else (Rows gone,
                    with_products d (filter (fun r => negb (id r =? i)) (products d))
                                  (products_id_seq d))
          end
      end
  | CategoryStats => (StatRows (category_stats (products d)), d)
  | ServerInfo => (InfoRow now (server_version d), d)
  end.

(** [pool.query(sql, params)] / [client.query(sql)]: fails when no
    connection can be made; otherwise the statement is sent (and
    logged) and executed. *)
Definition pool_query (now : timestamp) (st : statement) (params : list json)
    (d : database) : query_result * database :=
  match outage d with
  | Some msg => (Failed connection_failure msg, d)
  | None =>
      let '(r, d') := exec now st params d in
      (r, with_log d' (log d' ++ [(sql_text st, params)])%list)
  end.

End Engine.

End Pg.

(** ** The PostgreSQL server *)

Module Persisted.
Import JS Http Pg.

(** What a [ProductService] method ends in: a value or a thrown
    [Error(message)]. *)
Inductive result (A : Type) : Type :=
| Ok (a : A)
| Throw (message : string).

Arguments Ok {A} a.
Arguments Throw {A} message.

(** What the envelopes carry in [data]. *)
Inductive item : Type :=
| Product (r : row)
| Stat (s : stat_row).

Record environment : Type := { NODE_ENV : option string }.

(** [sql += ...; params.push(p)] for one filter. *)
Definition push_cond (c : cond) (p : json) (acc : list (cond * nat) * list json)
  : list (cond * nat) * list json :=
  let '(conds, params) := acc in
  ((conds ++ [(c, (List.length params + 1)%nat)])%list, (params ++ [p])%list).

(** The statement and parameter list [getAllProducts] builds. *)
Definition getAllProducts_command (filters : list (string * qval))
  : statement * list json :=
  let acc := ([], []) in
  let acc := match supplied "category" filters with
             | Some c => push_cond CategoryLike (JStr ("%" ++ qstring c ++ "%")) acc
             | None => acc
             end in
  let acc := match supplied "minPrice" filters with
             | Some m => push_cond PriceAtLeast (JNum (parseFloat_string (qstring m))) acc
             | None => acc
             end in
  let acc := match supplied "maxPrice" filters with
             | Some m => push_cond PriceAtMost (JNum (parseFloat_string (qstring m))) acc
             | None => acc
             end in
  (SelectWhere (fst acc), snd acc).

(** [updates.push(`col = $${paramCount++}`); params.push(v)] when the
    field is not [undefined]. *)
Definition push_set (c : column) (v : value) (conv : json -> json)
    (acc : list (column * nat) * list json * nat)
  : list (column * nat) * list json * nat :=
  let '(updates, params, paramCount) := acc in
  match v with
  | Some j => ((updates ++ [(c, paramCount)])%list, (params ++ [conv j])%list,
               S paramCount)
  | None => acc
  end.

(** The assignments, parameters and next placeholder number
    [updateProduct] has built when it reaches the emptiness test. *)
Definition updateProduct_sets (productData : json)
  : list (column * nat) * list json * nat :=
  let acc := ([], [], 1%nat) in
  let acc := push_set c_name (prop "name" productData) (fun j => j) acc in
  let acc := push_set c_description (prop "description" productData) (fun j => j) acc in
  let acc := push_set c_price (prop "price" productData)
                      (fun j => JNum (parseFloat (Some j))) acc in
  let acc := push_set c_category (prop "category" productData) (fun j => j) acc in
  push_set c_stock (prop "stock" productData) (fun j => JNum (parseInt (Some j))) acc.

(** The command text [updateProduct] sends when it has something to
    update. *)
Definition updateProduct_text (productData : json) : string :=
  let '(updates, _, paramCount) := updateProduct_sets productData in
  sql_text (UpdateSet updates paramCount).

Definition null_destructuring : string :=
  "TypeError: Cannot destructure property of null".

Section Service.
Context {D : Driver}.

Definition getAllProducts (now : timestamp) (filters : list (string * qval))
    (d : database) : result (list row) * database :=
  let '(st, params) := getAllProducts_command filters in
  match pool_query now st params d with
  | (Rows rs, d') => (Ok rs, d')
  | (_, d') => (Throw "Failed to fetch products", d')
  end.

(** [result.rows[0] || null]: [None] is [null]. *)
Definition getProductById (now : timestamp) (i : Z) (d : database)
  : result (option row) * database :=
  match pool_query now SelectById [JNum (of_Z i)] d with
  | (Rows rs, d') => (Ok (hd_error rs), d')
  | (_, d') => (Throw "Failed to fetch product", d')
  end.

(** [parseFloat(price)] and [parseInt(stock)] are evaluated while
    [params] is built, before the [try] block: when one of them throws,
    the TypeError leaves the function as it is and no query is sent. *)
Definition createProduct (now : timestamp) (productData : json) (d : database)
  : result (option row) * database :=
  if negb (destructurable productData) then (Throw null_destructuring, d)
  else if throws (prop "price" productData) || throws (prop "stock" productData)
  then (Throw not_primitive, d)
  else
    let params :=
      [ to_param (prop "name" productData);
        or_else (prop "description" productData) (JStr "");
        JNum (parseFloat (prop "price" productData));
        to_param (prop "category" productData);
        JNum (num_or (parseInt (prop "stock" productData)) zero) ] in
    match pool_query now InsertProduct params d with
    | (Rows rs, d') => (Ok (hd_error rs), d')
    | (Failed code _, d') =>
        if String.eqb code unique_violation
        then (Throw "Product with this name already exists", d')
        else (Throw "Failed to create product", d')
    | (_, d') => (Throw "Failed to create product", d')
    end.

(** Here too the two conversions come before the test on
    [updates.length] and before the [try] block. *)
Definition updateProduct (now : timestamp) (i : Z) (productData : json)
    (d : database) : result (option row) * database :=
  if negb (destructurable productData) then (Throw null_destructuring, d)
  else if throws (prop "price" productData) || throws (prop "stock" productData)
  then (Throw not_primitive, d)
  else
    let '(updates, params, paramCount) := updateProduct_sets productData in
    match updates with
    | [] => (Throw "No fields to update", d)
    | _ =>
        match pool_query now (UpdateSet updates paramCount)
                         (params ++ [JNum (of_Z i)])%list d with
        | (Rows rs, d') => (Ok (hd_error rs), d')
        | (_, d') => (Throw "Failed to update product", d')
        end
    end.

Definition deleteProduct (now : timestamp) (i : Z) (d : database)
  : result (option row) * database :=
  match pool_query now DeleteById [JNum (of_Z i)] d with
  | (Rows rs, d') => (Ok (hd_error rs), d')
  | (_, d') => (Throw "Failed to delete product", d')
  end.

Definition getProductStats (now : timestamp) (d : database)
  : result (list stat_row) * database :=
  match pool_query now CategoryStats [] d with
  | (StatRows ss, d') => (Ok ss, d')
  | (_, d') => (Throw "Failed to fetch product statistics", d')
  end.

(** *** The request listener *)

(** The [catch] at the outermost boundary. *)
Definition internal_error (env : environment) (message : string) : outcome item :=
  reply 500 ([("success", FBool false); ("error", FStr "Internal server error")]
             ++ match NODE_ENV env with
                | Some e => if String.eqb e "development"
                            then [("details", FStr message)] else []
                | None => []
                end)%list.

(** [{success: true, data: x}], the key being dropped by
    [JSON.stringify] when [x] is [undefined]. *)
Definition with_data (e : envelope item) (x : option row) : envelope item :=
  match x with
  | Some r => (e ++ [("data", FOne (Product r))])%list
  | None => e
  end.

(** [a.split(' ')[0] + ' ' + a.split(' ')[1]]. *)
Fixpoint first_word (s : string) : string * option string :=
  match s with
  | EmptyString => (EmptyString, None)
  | String c s' =>
      if Ascii.eqb c " " then (EmptyString, Some s')
      else let '(w, rest) := first_word s' in (String c w, rest)
  end.

Definition short_version (v : string) : string :=
  let '(w0, rest) := first_word v in
  w0 ++ " " ++ match rest with
               | Some r => fst (first_word r)
               | None => "undefined"
               end.

Definition healthHandler (env : environment) (now : timestamp) (d : database)
  : outcome item * database :=
  let '(dbStatus, dbInfo, d') :=
    match pool_query now ServerInfo [] d with
    | (InfoRow t v, d') =>
        ("connected",
         [("server_time", FTime t); ("version", FStr (short_version v));
          ("pool_total", FNat (pool_total d)); ("pool_idle", FNat (pool_idle d));
          ("pool_waiting", FNat (pool_waiting d))], d')
    | (Failed _ message, d') => ("disconnected", [("error", FStr message)], d')
    | (_, d') => ("disconnected", [], d')
    end in
  (reply 200
     [("status", FStr "OK"); ("service", FStr "product-service");
      ("timestamp", FTime now); ("version", FStr "2.0.0");
      ("database", FObj (("status", FStr dbStatus) :: dbInfo));
      ("environment",
       FStr (match NODE_ENV env with
             | Some e => if String.eqb e "" then "development" else e
             | None => "development"
             end))], d').

(** The callback of the POST handler.  It is an [async] function: what
    it throws outside its own [try] block (on destructuring [null], or
    in [price <= 0] for a price that has no primitive value) rejects a
    promise that nothing handles, and no response is written. *)
Definition createHandler (now : timestamp) (parsed : option json) (d : database)
  : outcome item * database :=
  match parsed with
  | None => (reply 400 (failure "Invalid JSON"), d)
  | Some b =>
      if negb (destructurable b) then (Uncaught null_destructuring, d)
      else if negb (truthy (prop "name" b)) || negb (truthy (prop "price" b))
              || negb (truthy (prop "category" b)) then
        (reply 400 (failure "Name, price, and category are required"), d)
      else if throws (prop "price" b) then
        (Uncaught ("TypeError: " ++ not_primitive), d)
      else if le_num (prop "price" b) zero then
        (reply 400 (failure "Price must be greater than 0"), d)
      else
        match createProduct now b d with
        | (Ok x, d') => (reply 201 (with_data [("success", FBool true)] x), d')
        | (Throw message, d') => (reply 400 (failure message), d')
        end
  end.

(** The callback of the PUT handler. *)
Definition updateHandler (now : timestamp) (i : Z) (parsed : option json)
    (d : database) : outcome item * database :=
  match parsed with
  | None => (reply 400 (failure "Invalid JSON"), d)
  | Some b =>
      if negb (destructurable b) then (Uncaught "TypeError: price of null", d)
      else if truthy (prop "price" b) && throws (prop "price" b) then
        (Uncaught ("TypeError: " ++ not_primitive), d)
      else if truthy (prop "price" b) && le_num (prop "price" b) zero then
        (reply 400 (failure "Price must be greater than 0"), d)
      else
        match updateProduct now i b d with
        | (Ok None, d') => (reply 404 (failure "Product not found"), d')
        | (Ok (Some r), d') =>
            (reply 200 [("success", FBool true); ("data", FOne (Product r))], d')
        | (Throw message, d') => (reply 400 (failure message), d')
        end
  end.

Definition deleteHandler (now : timestamp) (i : Z) (d : database)
  : outcome item * database :=
  match deleteProduct now i d with
  | (Ok None, d') => (reply 404 (failure "Product not found"), d')
  | (Ok (Some r), d') =>
      (reply 200 [("success", FBool true);
                  ("message", FStr "Product deleted successfully");
                  ("data", FOne (Product r))], d')
  | (Throw message, d') => (reply 400 (failure message), d')
  end.

Definition server (env : environment) (now : timestamp) (req : request)
    (d : database) : outcome item * database :=
  let m := method req in
  let path := pathname req in
  if String.eqb m "OPTIONS" then
    (Responded {| status := 200; payload := None |}, d)
  else if String.eqb path "/health" then healthHandler env now d
  else if String.eqb path "/api/products/stats" && String.eqb m "GET" then
    match getProductStats now d with
    | (Ok ss, d') =>
        (reply 200 [("success", FBool true); ("data", FMany (map Stat ss))], d')
    | (Throw message, d') => (internal_error env message, d')
    end
  else if String.eqb path "/api/products" && String.eqb m "GET" then
    match getAllProducts now (query req) d with
    | (Ok rs, d') =>
        (reply 200 [("success", FBool true); ("count", FNat (List.length rs));
                    ("data", FMany (map Product rs))], d')
    | (Throw message, d') => (internal_error env message, d')
    end
  else
    let productId := productIdMatch path in
    match productId, String.eqb m "GET" with
    | Some i, true =>
        match getProductById now i d with
        | (Ok None, d') => (reply 404 (failure "Product not found"), d')
        | (Ok (Some r), d') =>
            (reply 200 [("success", FBool true); ("data", FOne (Product r))], d')
        | (Throw message, d') => (internal_error env message, d')
        end
    | _, _ =>
        if String.eqb path "/api/products" && String.eqb m "POST" then
          createHandler now (parseBody (body req)) d
        else
          match productId, String.eqb m "PUT", String.eqb m "DELETE" with
          | Some i, true, _ => updateHandler now i (parseBody (body req)) d
          | Some i, false, true => deleteHandler now i d
          | _, _, _ =>
              (reply 404 [("error", FStr "Route not found"); ("path", FStr path);
                          ("method", FStr m)], d)
          end
    end.

End Service.

End Persisted.

(** ** Sample data and the view shared by the two stores *)

Module Samples.
Import JS Http Pg.

Definition seed (i : Z) (n d : string) (p : Q) (c : string) (s : Z)
    (boot : timestamp) : row :=
  {| id := i; name := n; description := Some d; price := Fin p; category := c;
     stock := Some s; created_at := Some boot; updated_at := Some boot |}.

(** The rows the schema file inserts (the degree sign in the
    description of row 6 is spelled out). *)
Definition sample_rows (boot : timestamp) : list row :=
  [ seed 1 "Gaming Laptop Pro"
         "High-performance gaming laptop with RTX 4070 graphics card"
         1299.99 "Electronics" 15 boot;
    seed 2 "Wireless Headphones"
         "Premium noise-cancelling wireless headphones with 30h battery"
         249.99 "Audio" 30 boot;
    seed 3 "Smart Watch Ultra"
         "Advanced fitness tracking smartwatch with heart rate and GPS"
         399.99 "Wearables" 25 boot;
    seed 4 "Mechanical Keyboard"
         "RGB backlit mechanical keyboard with Cherry MX switches"
         129.99 "Accessories" 40 boot;
    seed 5 "4K Webcam"
         "Ultra HD webcam with auto-focus and noise reduction"
         89.99 "Electronics" 20 boot;
    seed 6 "Bluetooth Speaker"
         "Portable waterproof Bluetooth speaker with 360 degree sound"
         79.99 "Audio" 35 boot;
    seed 7 "USB-C Hub"
         "7-in-1 USB-C hub with HDMI, USB ports and SD card reader"
         49.99 "Accessories" 50 boot;
    seed 8 "Wireless Mouse"
         "Ergonomic wireless mouse with precision tracking"
         39.99 "Accessories" 45 boot ].

Definition sample_db (boot : timestamp) : database :=
  {| products := sample_rows boot; products_id_seq := 9; order_items := [];
     outage := None; server_version := "PostgreSQL 15.4 on x86_64-pc-linux-musl";
     pool_total := 1; pool_idle := 1; pool_waiting := 0; log := [] |}.

(** A table whose rows were created one after the other, at times 10,
    20 and 30. *)
Definition staggered_rows : list row :=
  [ seed 1 "Desk Lamp" "LED desk lamp with dimmer" 24.5 "Home" 12 10;
    seed 2 "Notebook" "Ruled notebook, 200 pages" 3.2 "Office" 300 20;
    seed 3 "Backpack" "Water-resistant backpack, 25 litres" 59 "Travel" 8 30 ].

Definition staggered_db : database :=
  {| products := staggered_rows; products_id_seq := 4; order_items := [];
     outage := None; server_version := "PostgreSQL 15.4 on x86_64-pc-linux-musl";
     pool_total := 1; pool_idle := 1; pool_waiting := 0; log := [] |}.

(** A driver for running the examples below; none of them binds a
    text parameter that is not a string. *)
Definition example_driver : Driver := {| prepareValue := fun _ => "" |}.

Definition json_request (m path : string) (v : json) : request :=
  {| method := m; pathname := path; query := []; body := JsonText v |}.

Definition empty_request (m path : string) : request :=
  {| method := m; pathname := path; query := []; body := EmptyText |}.

End Samples.

(** The two timestamps of a product record, when it carries them. *)
Class Timestamped (P : Type) : Type := {
  creation : P -> option Http.timestamp;
  last_update : P -> option Http.timestamp
}.

(** The objects of the in-memory array have a [createdAt] property and
    no [updatedAt]. *)
#[export] Instance memory_timestamps : Timestamped Memory.product :=
  {| creation := fun p => Some (Memory.createdAt p);
     last_update := fun _ => None |}.

#[export] Instance row_timestamps : Timestamped Pg.row :=
  {| creation := Pg.created_at; last_update := Pg.updated_at |}.

Import JS Http Pg Samples.

(** ** Vocabulary of the properties *)

(** The body [{"name": "Mouse", "price": p, "category": "Accessories"}]. *)
Definition mouse (p : num) : json :=
  JObj [("name", JStr "Mouse"); ("price", JNum p); ("category", JStr "Accessories")].

Definition updatable : list string :=
  ["name"; "description"; "price"; "category"; "stock"].

(** The partial input has none of the updatable fields. *)
Definition no_updatable_field (data : json) : bool :=
  forallb (fun f => match prop f data with None => true | Some _ => false end)
          updatable.

Definition filter_names : list string := ["category"; "minPrice"; "maxPrice"].

Definition defined (v : value) : bool :=
  match v with Some _ => true | None => false end.

(** The conditions of the list command, by which filters are truthy. *)
Definition conds_by_shape (c lo hi : bool) : list (cond * nat) :=
  ((if c then [(CategoryLike, 1%nat)] else [])
   ++ (if lo then [(PriceAtLeast, if c then 2%nat else 1%nat)] else [])
   ++ (if hi then [(PriceAtMost,
                    match c, lo with
                    | true, true => 3%nat
                    | false, false => 1%nat
                    | _, _ => 2%nat
                    end)] else []))%list.

(** The assignments of the update command, by which fields are present. *)
Definition sets_by_shape (n de p c s : bool) : list (column * nat) * nat :=
  let add (present : bool) (col : column) (acc : list (column * nat) * nat) :=
    if present then ((fst acc ++ [(col, snd acc)])%list, S (snd acc)) else acc in
  add s c_stock (add c c_category (add p c_price (add de c_description
    (add n c_name ([], 1%nat))))).

Definition is_finite (n : num) : bool :=
  match n with Fin _ => true | _ => false end.

(** Every identifier in the array is a finite number. *)
Definition finite_ids (products : list Memory.product) : bool :=
  forallb (fun p => is_finite (Memory.id p)) products.

Definition column_eqb (a b : column) : bool :=
  match a, b with
  | c_name, c_name | c_description, c_description | c_price, c_price
  | c_category, c_category | c_stock, c_stock => true
  | _, _ => false
  end.

(** The UPDATE assigns column [c]. *)
Definition assigns (c : column) (sets : list (column * nat)) : bool :=
  existsb (fun s => column_eqb (fst s) c) sets.

(** The fallback body for a request. *)
Definition route_not_found {P : Type} (req : request) : envelope P :=
  [("error", FStr "Route not found"); ("path", FStr (pathname req));
   ("method", FStr (method req))].

Ltac split_cases H :=
  repeat match type of H with
         | context [match ?x with _ => _ end] => destruct x eqn:?
         | context [if ?x then _ else _] => destruct x eqn:?
         end.

Ltac close_response H :=
  injection H as <-; cbn in *;
  first [ lia
        | right; reflexivity
        | left; eexists; split; reflexivity ].

(** What the in-memory list operation keeps of a product, all filters
    taken together. *)
Definition memory_keeps (q : list (string * qval)) (p : Memory.product) : bool :=
  match supplied "category" q with
  | Some w => match Memory.category_matches w p with
              | Some true => true
              | _ => false
              end
  | None => true
  end
  && match supplied "minPrice" q with
     | Some w => Memory.price_at_least w p
     | None => true
     end
  && match supplied "maxPrice" q with
     | Some w => Memory.price_at_most w p
     | None => true
     end.

(** The request GET /api/products with query [q]. *)
Definition list_request (q : list (string * qval)) : request :=
  {| method := "GET"; pathname := "/api/products"; query := q; body := EmptyText |}.

(** [process.env.NODE_ENV === 'development']. *)
Definition development (env : Persisted.environment) : bool :=
  match Persisted.NODE_ENV env with
  | Some e => String.eqb e "development"
  | None => false
  end.

(** The characters a LIKE pattern gives a meaning to. *)
Definition is_wildcard (c : ascii) : bool :=
  Ascii.eqb c "%" || Ascii.eqb c "_" || Ascii.eqb c backslash.

(** A text without any of them. *)
Fixpoint literal (s : string) : bool :=
  match s with
  | EmptyString => true
  | String c s' => negb (is_wildcard c) && literal s'
  end.

(** What the outcome of a request says about the table: it is
    unchanged, unless the response has status 200 or 201. *)
Definition changed_with_success (d : database) (res : outcome Persisted.item * database)
  : Prop :=
  products (snd res) = products d
  \/ exists r, fst res = Responded r /\ (status r = 200 \/ status r = 201)%nat.

(** Every stored id is below the next value of the sequence. *)
Definition ids_below_sequence (d : database) : bool :=
  forallb (fun r => id r <? products_id_seq d) (products d).

(** The request for one product by the decimal rendering of its id. *)
Definition fetch_request (i : Z) : request :=
  {| method := "GET"; pathname := "/api/products/" ++ show_nat (Z.to_nat i);
     query := []; body := EmptyText |}.

(** [d'] is [d], or what one [pool.query] at time [now] makes of [d]. *)
Definition one_query {D : Driver} (now : timestamp) (d d' : database) : Prop :=
  d' = d \/ exists st params, d' = snd (pool_query now st params d).

(** The values a query string supplies to the list operation, in the
    order of the filters: the category between two percent signs, and
    the two bounds as [parseFloat] reads them. *)
Definition filter_values (q : list (string * qval)) : list json :=
  ((match supplied "category" q with
    | Some c => [JStr ("%" ++ qstring c ++ "%")]
    | None => []
    end)
   ++ (match supplied "minPrice" q with
       | Some m => [JNum (parseFloat_string (qstring m))]
       | None => []
       end)
   ++ (match supplied "maxPrice" q with
       | Some m => [JNum (parseFloat_string (qstring m))]
       | None => []
       end))%list.

(** The values a partial input supplies to the update operation, in the
    order name, description, price, category, stock: the price as
    [parseFloat] reads it, the stock as [parseInt] reads it, the others
    as they are. *)
Definition field_values (data : json) : list json :=
  ((match prop "name" data with Some v => [v] | None => [] end)
   ++ (match prop "description" data with Some v => [v] | None => [] end)
   ++ (match prop "price" data with
       | Some v => [JNum (parseFloat (Some v))]
       | None => []
       end)
   ++ (match prop "category" data with Some v => [v] | None => [] end)
   ++ (match prop "stock" data with
       | Some v => [JNum (parseInt (Some v))]
       | None => []
       end))%list.

(** A number written with at most 8 integer digits and 7 decimals.  It
    has at most 15 significant digits, so the double nearest to it
    renders back as the same decimal: on such a number the exact
    arithmetic of the model and the doubles of the code agree. *)
Definition short_decimal (q : Q) : bool :=
  Qeq_bool (inject_Z (Qfloor (q * inject_Z (10 ^ 7)))) (q * inject_Z (10 ^ 7))
  && negb (Qle_bool (inject_Z (10 ^ 8)) (Qabs q)).

(** The same for a text: digits with at most one decimal point, no
    sign and no exponent, and at most 15 digits in all. *)
Definition plain_decimal (s : string) : bool :=
  let cs := list_ascii_of_string s in
  forallb (fun c => is_digit c || Ascii.eqb c ".") cs
  && (List.length (filter (fun c => Ascii.eqb c ".") cs) <=? 1)%nat
  && (1 <=? List.length (filter is_digit cs))%nat
  && (List.length (filter is_digit cs) <=? 15)%nat.

(** A stock that is absent, or an integer of magnitude at most 2^53:
    [parseInt] reads such a number back as it is. *)
Definition plain_stock (v : value) : bool :=
  match v with
  | None => true
  | Some (JNum (Fin z)) =>
      Qeq_bool (inject_Z (Qfloor z)) z && Qle_bool (Qabs z) (inject_Z (2 ^ 53))
  | Some _ => false
  end.

(** A text of ASCII characters only: on such a text the case folding of
    the model is the one of [toLowerCase] and of SQL [LOWER]. *)
Fixpoint ascii_text (s : string) : bool :=
  match s with
  | EmptyString => true
  | String c s' => (nat_of_ascii c <? 128)%nat && ascii_text s'
  end.

(** * Properties *)

(** ** Validation on create *)

(** C1 (in-memory server): a POST whose price is -5 and whose stock is
    -3 is answered 201 and the record is appended to the array with that
    price and that stock; nothing checks the sign of either. *)
Theorem memory_create_stores_negative_price : forall now boot,
  exists p,
    Memory.server now
      (json_request "POST" "/api/products"
         (JObj [("name", JStr "Mouse"); ("price", JNum (of_Z (-5)));
                ("category", JStr "Accessories"); ("stock", JNum (of_Z (-3)))]))
      (Memory.sample_products boot)
    = (reply 201 [("success", FBool true); ("data", FOne p)],
       (Memory.sample_products boot ++ [p])%list)
    /\ Memory.price p = of_Z (-5)
    /\ Memory.stock p = of_Z (-3).
Proof.
  intros now boot. eexists. split; [reflexivity | split; reflexivity].
Qed.

(** C3: a POST whose price is the number 0 is answered 400 by both
    servers and nothing is stored, but the error is the one of the
    required-fields test, which 0 fails as a falsy value; the test
    [price <= 0] of the PostgreSQL server is never reached. *)
Theorem create_price_zero_reports_missing_fields :
  forall (D : Driver) env now products d,
    Memory.server now (json_request "POST" "/api/products" (mouse zero)) products
    = (reply 400 (failure "Name, price, and category are required"), products)
    /\ Persisted.server env now (json_request "POST" "/api/products" (mouse zero)) d
       = (reply 400 (failure "Name, price, and category are required"), d).
Proof.
  intros. split; reflexivity.
Qed.

(** ** Price test on update *)

(** C7: a PUT whose price is the number 0 passes the handler's price
    test (0 is falsy) and the UPDATE is sent.  For an id that is not
    stored the answer is 404; for a stored id the CHECK constraint of
    the table refuses the row, the answer is 400 with the storage error
    message, and the table is unchanged. *)
Theorem update_price_zero_reaches_storage :
  forall (D : Driver) env now boot,
    let zero_price := JObj [("price", JNum zero)] in
    let sent (i : Z) :=
      [(sql_text (UpdateSet [(c_price, 1%nat)] 2), [JNum zero; JNum (of_Z i)])] in
    (let '(out, d') :=
       Persisted.server env now
         (json_request "PUT" "/api/products/999999" zero_price) (sample_db boot) in
     out = reply 404 (failure "Product not found")
     /\ log d' = sent 999999 /\ products d' = sample_rows boot)
    /\
    (let '(out, d') :=
       Persisted.server env now
         (json_request "PUT" "/api/products/1" zero_price) (sample_db boot) in
     out = reply 400 (failure "Failed to update product")
     /\ log d' = sent 1 /\ products d' = sample_rows boot).
Proof.
  intros. split; vm_compute; repeat split.
Qed.

(** ** Envelope of the fallback response *)

(** C9: the response to a request no route matches (here PATCH
    /api/unknown) is a 404 whose body has the keys [error], [path] and
    [method] and no [success] key, in both servers; it names the path
    and the method. *)
Theorem fallback_has_no_success_flag :
  forall (D : Driver) env now products d,
    let req := empty_request "PATCH" "/api/unknown" in
    let e : forall P, envelope P := fun P =>
      [("error", FStr "Route not found"); ("path", FStr "/api/unknown");
       ("method", FStr "PATCH")] in
    Memory.server now req products = (reply 404 (e _), products)
    /\ Persisted.server env now req d = (reply 404 (e _), d)
    /\ assoc "success" (e Persisted.item) = None
    /\ is_error_envelope (e Persisted.item) = false
    /\ is_error_envelope (e Memory.product) = false.
Proof.
  intros. repeat split.
Qed.

(** ** Empty updates and empty bodies *)

Lemma no_updatable_field_sets : forall data,
  no_updatable_field data = true ->
  Persisted.updateProduct_sets data = ([], [], 1%nat).
Proof.
  intros data H. unfold no_updatable_field, updatable in H. simpl in H.
  unfold Persisted.updateProduct_sets.
  destruct (prop "name" data); [discriminate|].
  destruct (prop "description" data); [discriminate|].
  destruct (prop "price" data); [discriminate|].
  destruct (prop "category" data); [discriminate|].
  destruct (prop "stock" data); [discriminate|].
  reflexivity.
Qed.

Lemma no_updatable_field_throws : forall data,
  no_updatable_field data = true ->
  throws (prop "price" data) || throws (prop "stock" data) = false.
Proof.
  intros data H. unfold no_updatable_field, updatable in H. simpl in H.
  destruct (prop "name" data); [discriminate|].
  destruct (prop "description" data); [discriminate|].
  destruct (prop "price" data); [discriminate|].
  destruct (prop "category" data); [discriminate|].
  destruct (prop "stock" data); [discriminate|].
  reflexivity.
Qed.

(** C2 (as amended): an update whose partial input is not [null] and
    has none of the five updatable fields throws an error whose message
    is "No fields to update" before any statement is sent: the database
    is unchanged, and the PUT handler answers 400 with that message. *)
Theorem empty_update_rejected :
  forall (D : Driver) now i data d,
    destructurable data = true ->
    no_updatable_field data = true ->
    Persisted.updateProduct now i data d
    = (Persisted.Throw "No fields to update", d)
    /\ Persisted.updateHandler now i (Some data) d
       = (reply 400 (failure "No fields to update"), d).
Proof.
  intros D now i data d Hd Hn.
  assert (Hu : Persisted.updateProduct now i data d
               = (Persisted.Throw "No fields to update", d)).
  { unfold Persisted.updateProduct.
    rewrite Hd, (no_updatable_field_throws data Hn),
      (no_updatable_field_sets data Hn). reflexivity. }
  split; [exact Hu|].
  unfold Persisted.updateHandler. rewrite Hd, Hu.
  unfold no_updatable_field, updatable in Hn. simpl in Hn.
  destruct (prop "name" data); [discriminate|].
  destruct (prop "description" data); [discriminate|].
  destruct (prop "price" data); [discriminate|].
  reflexivity.
Qed.

Lemma empty_update_rejected_witness :
  Persisted.updateProduct (D := example_driver) 5 1
    (JObj [("colour", JStr "red")]) (sample_db 0)
  = (Persisted.Throw "No fields to update", sample_db 0)
  /\ Persisted.updateHandler (D := example_driver) 5 1
       (Some (JObj [("colour", JStr "red")])) (sample_db 0)
     = (reply 400 (failure "No fields to update"), sample_db 0).
Proof.
  apply (empty_update_rejected example_driver 5 1
           (JObj [("colour", JStr "red")]) (sample_db 0));
    reflexivity.
Defined.

(** C2 as stated fails on the text of the message: for the empty object
    the error thrown is not "no fields to update". *)
Lemma empty_update_message_differs :
  ~ (fst (Persisted.updateProduct (D := example_driver) 5 1 (JObj []) (sample_db 0))
     = Persisted.Throw "no fields to update"
     /\ products (snd (Persisted.updateProduct (D := example_driver) 5 1 (JObj [])
                         (sample_db 0)))
        = products (sample_db 0)).
Proof.
  intros [H _]. vm_compute in H. discriminate H.
Qed.

Lemma id_path_is_no_fixed_route : forall path i,
  productIdMatch path = Some i ->
  String.eqb path "/health" = false
  /\ String.eqb path "/api/products" = false
  /\ String.eqb path "/api/products/stats" = false.
Proof.
  intros path i H.
  repeat split;
    match goal with
    | |- String.eqb _ ?s = false =>
        destruct (String.eqb_spec path s) as [E|]; [|reflexivity];
        rewrite E in H; vm_compute in H; discriminate H
    end.
Qed.




(** ** Command text and bound parameters *)

Lemma list_command_by_shape : forall q,
  fst (Persisted.getAllProducts_command q)
  = SelectWhere (conds_by_shape (qtruthy (assoc "category" q))
                                (qtruthy (assoc "minPrice" q))
                                (qtruthy (assoc "maxPrice" q))).
Proof.
  intro q. unfold Persisted.getAllProducts_command, supplied.
  destruct (assoc "category" q) as [c|];
    [destruct (qtruthy (Some c)) eqn:Hc; try rewrite Hc|];
    (destruct (assoc "minPrice" q) as [lo|];
     [destruct (qtruthy (Some lo)) eqn:Hlo; try rewrite Hlo|]);
    (destruct (assoc "maxPrice" q) as [hi|];
     [destruct (qtruthy (Some hi)) eqn:Hhi; try rewrite Hhi|]);
    reflexivity.
Qed.

(** The values of the list command all sit in the parameter list, in
    the order of the filters. *)
Lemma list_command_params : forall q,
  snd (Persisted.getAllProducts_command q)
  = ((match supplied "category" q with
      | Some c => [JStr ("%" ++ qstring c ++ "%")]
      | None => []
      end)
     ++ (match supplied "minPrice" q with
         | Some m => [JNum (parseFloat_string (qstring m))]
         | None => []
         end)
     ++ (match supplied "maxPrice" q with
         | Some m => [JNum (parseFloat_string (qstring m))]
         | None => []
         end))%list.
Proof.
  intro q. unfold Persisted.getAllProducts_command.
  destruct (supplied "category" q);
    destruct (supplied "minPrice" q);
    destruct (supplied "maxPrice" q); reflexivity.
Qed.

Lemma update_sets_by_shape : forall data,
  let '(updates, _, paramCount) := Persisted.updateProduct_sets data in
  (updates, paramCount)
  = sets_by_shape (defined (prop "name" data)) (defined (prop "description" data))
                  (defined (prop "price" data)) (defined (prop "category" data))
                  (defined (prop "stock" data)).
Proof.
  intro data. unfold Persisted.updateProduct_sets.
  destruct (prop "name" data); destruct (prop "description" data);
    destruct (prop "price" data); destruct (prop "category" data);
    destruct (prop "stock" data); reflexivity.
Qed.

Lemma update_text_by_shape : forall data,
  Persisted.updateProduct_text data
  = let '(updates, paramCount) :=
      sets_by_shape (defined (prop "name" data)) (defined (prop "description" data))
                    (defined (prop "price" data)) (defined (prop "category" data))
                    (defined (prop "stock" data)) in
    sql_text (UpdateSet updates paramCount).
Proof.
  intro data. unfold Persisted.updateProduct_text.
  pose proof (update_sets_by_shape data) as H.
  destruct (Persisted.updateProduct_sets data) as [[updates params] paramCount].
  rewrite <- H. reflexivity.
Qed.

Lemma defined_iff : forall a b : value,
  (a = None <-> b = None) -> defined a = defined b.
Proof.
  intros [x|] [y|] [H1 H2]; simpl; try reflexivity.
  - discriminate (H2 eq_refl).
  - discriminate (H1 eq_refl).
Qed.

(** The text of the list command for a category and a maximum price. *)
Example list_command_text :
  sql_text (fst (Persisted.getAllProducts_command
                   [("category", QStr "audio"); ("maxPrice", QStr "100")]))
  = nl ++ "      SELECT id, name, description, price, category, stock, "
    ++ nl ++ "             created_at, updated_at "
    ++ nl ++ "      FROM products "
    ++ nl ++ "      WHERE 1=1"
    ++ nl ++ "     AND LOWER(category) LIKE LOWER($1) AND price <= $2 ORDER BY created_at DESC".
Proof. reflexivity. Qed.

(** The text of the update command for a price and a stock. *)
Example update_command_text :
  Persisted.updateProduct_text (JObj [("stock", JNum (of_Z 3)); ("price", JNum (of_Z 10))])
  = nl ++ "      UPDATE products "
    ++ nl ++ "      SET price = $1, stock = $2, updated_at = CURRENT_TIMESTAMP"
    ++ nl ++ "      WHERE id = $3"
    ++ nl ++ "      RETURNING id, name, description, price, category, stock, created_at, updated_at"
    ++ nl ++ "    ".
Proof. reflexivity. Qed.

(** The values of the update command all sit in the parameter list, in
    the order of the fields. *)
Lemma update_command_params : forall data,
  snd (fst (Persisted.updateProduct_sets data)) = field_values data.
Proof.
  intro data. unfold Persisted.updateProduct_sets, field_values.
  destruct (prop "name" data); destruct (prop "description" data);
    destruct (prop "price" data); destruct (prop "category" data);
    destruct (prop "stock" data); reflexivity.
Qed.

Lemma update_sets_nonempty : forall data,
  no_updatable_field data = false ->
  fst (fst (Persisted.updateProduct_sets data)) <> [].
Proof.
  intros data H. unfold no_updatable_field, updatable in H. simpl in H.
  unfold Persisted.updateProduct_sets.
  destruct (prop "name" data); destruct (prop "description" data);
    destruct (prop "price" data); destruct (prop "category" data);
    destruct (prop "stock" data); try discriminate H; cbn; discriminate.
Qed.

(** Executing a statement writes nothing to the log of statements. *)
Lemma exec_log : forall (D : Driver) now st params d,
  log (snd (exec now st params d)) = log d.
Proof.
  intros D now st params d. destruct st; cbn [exec];
    repeat match goal with
           | |- context [match ?x with _ => _ end] => destruct x eqn:?
           | |- context [if ?x then _ else _] => destruct x eqn:?
           end; reflexivity.
Qed.

(** What [pool.query] adds to the log when the storage is reachable:
    the text and the parameter list it was given. *)
Lemma pool_query_log : forall (D : Driver) now st params d,
  outage d = None ->
  log (snd (pool_query now st params d)) = (log d ++ [(sql_text st, params)])%list.
Proof.
  intros D now st params d Hout. unfold pool_query. rewrite Hout.
  pose proof (exec_log D now st params d) as H.
  destruct (exec now st params d) as [res d1]. cbn [snd log with_log] in *.
  rewrite H. reflexivity.
Qed.

(** C8 (as amended): the command text of the list operation is a
    function of which of the three filters are truthy (a filter that is
    present with the empty string as value counts as not supplied), and
    the command text of the update operation is a function of which of
    the five fields are present; two inputs that agree on that produce
    the same text, whatever the values.  Every value is passed in the
    bound-parameter list: the parameters of the list command are the
    supplied filter values, those of the update command are the values
    of the present fields followed by the id, and what reaches the
    storage is that text with that parameter list. *)
Theorem command_text_ignores_values :
  forall q1 q2 data1 data2,
    (forall f, In f filter_names -> qtruthy (assoc f q1) = qtruthy (assoc f q2)) ->
    (forall f, In f updatable -> (prop f data1 = None <-> prop f data2 = None)) ->
    sql_text (fst (Persisted.getAllProducts_command q1))
    = sql_text (fst (Persisted.getAllProducts_command q2))
    /\ Persisted.updateProduct_text data1 = Persisted.updateProduct_text data2
    /\ (forall q, snd (Persisted.getAllProducts_command q) = filter_values q)
    /\ (forall data,
          snd (fst (Persisted.updateProduct_sets data)) = field_values data)
    /\ (forall (D : Driver) now q d,
          outage d = None ->
          log (snd (Persisted.getAllProducts now q d))
          = (log d ++ [(sql_text (fst (Persisted.getAllProducts_command q)),
                        filter_values q)])%list)
    /\ (forall (D : Driver) now i data d,
          outage d = None ->
          destructurable data = true ->
          throws (prop "price" data) || throws (prop "stock" data) = false ->
          no_updatable_field data = false ->
          log (snd (Persisted.updateProduct now i data d))
          = (log d ++ [(Persisted.updateProduct_text data,
                        field_values data ++ [JNum (of_Z i)])])%list).
Proof.
  intros q1 q2 data1 data2 Hq Hd. split; [|split; [|split; [|split; [|split]]]].
  - rewrite !list_command_by_shape.
    rewrite (Hq "category"), (Hq "minPrice"), (Hq "maxPrice");
      unfold filter_names; simpl; auto.
  - rewrite !update_text_by_shape.
    rewrite (defined_iff _ _ (Hd "name" ltac:(unfold updatable; simpl; auto 10))).
    rewrite (defined_iff _ _ (Hd "description" ltac:(unfold updatable; simpl; auto 10))).
    rewrite (defined_iff _ _ (Hd "price" ltac:(unfold updatable; simpl; auto 10))).
    rewrite (defined_iff _ _ (Hd "category" ltac:(unfold updatable; simpl; auto 10))).
    rewrite (defined_iff _ _ (Hd "stock" ltac:(unfold updatable; simpl; auto 10))).
    reflexivity.
  - intro q. apply list_command_params.
  - intro data. apply update_command_params.
  - intros D now q d Hout. unfold Persisted.getAllProducts.
    rewrite <- (list_command_params q : snd _ = filter_values q).
    destruct (Persisted.getAllProducts_command q) as [st params]. cbn [fst snd].
    pose proof (pool_query_log D now st params d Hout) as Hl.
    destruct (pool_query now st params d) as [[rs| | |code msg] d1]; exact Hl.
  - intros D now i data d Hout Hdes Hthrow Hsome.
    unfold Persisted.updateProduct, Persisted.updateProduct_text.
    rewrite Hdes, Hthrow. cbn [negb].
    pose proof (update_command_params data) as Hp.
    pose proof (update_sets_nonempty data Hsome) as Hne.
    destruct (Persisted.updateProduct_sets data) as [[updates params] n].
    cbn [fst snd] in Hp, Hne. subst params.
    destruct updates as [|u us]; [contradiction Hne; reflexivity|].
    pose proof (pool_query_log D now (UpdateSet (u :: us) n)
                  (field_values data ++ [JNum (of_Z i)])%list d Hout) as Hl.
    destruct (pool_query now (UpdateSet (u :: us) n)
                (field_values data ++ [JNum (of_Z i)])%list d)
      as [[rs| | |code msg] d1]; exact Hl.
Qed.

Lemma same_keys_decide : forall (A : Type) (k : string) (x y : A) (f : string),
  assoc f [(k, x)] = None <-> assoc f [(k, y)] = None.
Proof.
  intros A k x y f. simpl. destruct (String.eqb f k); split; intro E;
    try discriminate E; reflexivity.
Qed.

Lemma command_text_ignores_values_witness :
  let q1 := [("category", QStr "audio"); ("minPrice", QStr "50")] in
  let q2 := [("category", QStr "x' OR 1=1 --"); ("minPrice", QStr "7")] in
  let data1 := JObj [("price", JNum (of_Z 3))] in
  let data2 := JObj [("price", JStr "0; DROP TABLE products")] in
  (sql_text (fst (Persisted.getAllProducts_command q1))
   = sql_text (fst (Persisted.getAllProducts_command q2))
   /\ Persisted.updateProduct_text data1 = Persisted.updateProduct_text data2)
  /\ snd (Persisted.getAllProducts_command q2)
     = [JStr "%x' OR 1=1 --%"; JNum (of_Z 7)]
  /\ snd (fst (Persisted.updateProduct_sets data2)) = [JNum (Fin 0)]
  /\ log (snd (Persisted.getAllProducts (D := example_driver) 5 q2 (sample_db 0)))
     = [(sql_text (fst (Persisted.getAllProducts_command q1)),
         [JStr "%x' OR 1=1 --%"; JNum (of_Z 7)])]
  /\ log (snd (Persisted.updateProduct (D := example_driver) 5 2 data2 (sample_db 0)))
     = [(Persisted.updateProduct_text data1, [JNum (Fin 0); JNum (of_Z 2)])].
Proof.
  intros q1 q2 data1 data2.
  assert (Hq : forall f, In f filter_names ->
                         qtruthy (assoc f q1) = qtruthy (assoc f q2)).
  { intros f Hf. unfold filter_names in Hf. simpl in Hf.
    destruct Hf as [E|[E|[E|[]]]]; subst f; reflexivity. }
  assert (Hd : forall f, In f updatable ->
                         (prop f data1 = None <-> prop f data2 = None)).
  { intros f Hf. unfold prop. apply same_keys_decide. }
  destruct (command_text_ignores_values q1 q2 data1 data2 Hq Hd)
    as (T1 & T2 & P1 & P2 & L1 & L2).
  split; [split; [exact T1 | exact T2]|].
  split; [rewrite P1; reflexivity|].
  split; [rewrite P2; reflexivity|].
  split.
  - rewrite (L1 example_driver 5 q2 (sample_db 0) eq_refl), <- T1. reflexivity.
  - rewrite (L2 example_driver 5 2 data2 (sample_db 0) eq_refl eq_refl eq_refl eq_refl),
      <- T2.
    reflexivity.
Defined.

(** C8 as stated fails for the list operation: a category filter that
    is present with the empty string as value and one that is present
    with a non-empty value give the same set of present fields and
    different command texts. *)
Lemma empty_filter_changes_text :
  (forall f, assoc f [("category", QStr "")] = None
             <-> assoc f [("category", QStr "audio")] = None)
  /\ sql_text (fst (Persisted.getAllProducts_command [("category", QStr "")]))
     <> sql_text (fst (Persisted.getAllProducts_command [("category", QStr "audio")])).
Proof.
  split.
  - intro f. apply same_keys_decide.
  - vm_compute. discriminate.
Qed.

(** ** Filtering *)

Lemma filter_throwing_In : forall (A : Type) (f : A -> option bool) xs ys x,
  Memory.filter_throwing f xs = Some ys -> In x ys -> In x xs /\ f x = Some true.
Proof.
  intros A f xs. induction xs as [|a xs IH]; intros ys x Hf Hin; simpl in Hf.
  - injection Hf as <-. destruct Hin.
  - destruct (f a) as [keep|] eqn:Ha; [|discriminate].
    destruct (Memory.filter_throwing f xs) as [zs|]; [|discriminate].
    injection Hf as <-. destruct keep.
    + destruct Hin as [<-|Hin].
      * split; [left; reflexivity | exact Ha].
      * destruct (IH zs x eq_refl Hin). split; [right|]; assumption.
    + destruct (IH zs x eq_refl Hin). split; [right|]; assumption.
Qed.

(** The in-memory list operation is conjunctive: a returned product is
    one of the stored ones, its category contains the supplied category
    (letter case ignored), and its price lies within the supplied
    bounds; a filter that is not supplied constrains nothing. *)
Lemma memory_filter_is_conjunctive : forall q products out p,
  Memory.filterProducts q products = Some out ->
  In p out ->
  In p products
  /\ (forall w, supplied "category" q = Some w ->
        exists c s, Memory.category p = Some (JStr c) /\ w = QStr s
                    /\ includes (toLowerCase c) (toLowerCase s) = true)
  /\ (forall w, supplied "minPrice" q = Some w ->
        num_ge (Memory.price p) (parseFloat_string (qstring w)) = true)
  /\ (forall w, supplied "maxPrice" q = Some w ->
        num_le (Memory.price p) (parseFloat_string (qstring w)) = true).
Proof.
  intros q products out p Hf Hin. unfold Memory.filterProducts in Hf.
  set (s1 := match supplied "category" q with
             | Some w => Memory.filter_throwing (Memory.category_matches w) products
             | None => Some products
             end) in *.
  assert (H1 : forall ps, s1 = Some ps -> forall x, In x ps ->
            In x products
            /\ forall w, supplied "category" q = Some w ->
                 Memory.category_matches w x = Some true).
  { subst s1. intros ps Hs x Hx. destruct (supplied "category" q) as [w|].
    - destruct (filter_throwing_In _ _ _ _ _ Hs Hx) as [Ha Hb].
      split; [exact Ha|]. intros w' E. injection E as <-. exact Hb.
    - injection Hs as <-. split; [exact Hx|]. intros w' E. discriminate E. }
  destruct s1 as [ps1|] eqn:E1.
  2:{ destruct (supplied "minPrice" q); destruct (supplied "maxPrice" q);
      discriminate Hf. }
  assert (Hin3 : In p ps1
                 /\ (forall w, supplied "minPrice" q = Some w ->
                       Memory.price_at_least w p = true)
                 /\ (forall w, supplied "maxPrice" q = Some w ->
                       Memory.price_at_most w p = true)).
  { destruct (supplied "minPrice" q) as [lo|];
      destruct (supplied "maxPrice" q) as [hi|];
      injection Hf as <-;
      repeat match goal with
             | H : In _ (filter _ _) |- _ => apply filter_In in H; destruct H
             end;
      repeat split; try assumption; intros w E;
        try discriminate E; injection E as <-; assumption. }
  destruct Hin3 as (Hp & Hlo & Hhi).
  destruct (H1 ps1 eq_refl p Hp) as [Hprod Hcat].
  repeat split; try assumption.
  intros w Hw. specialize (Hcat w Hw). unfold Memory.category_matches in Hcat.
  destruct (Memory.category p) as [[| | |c| |]|]; try discriminate Hcat.
  destruct w as [s|]; try discriminate Hcat.
  exists c, s. injection Hcat as Hcat. auto.
Qed.

(** C6 (PostgreSQL server): the category filter is sent as a LIKE
    pattern, so the characters [_] and [%] of the filter act as wild
    cards.  On the sample rows the filter "a_dio" returns the products
    of category "Audio", whose lower-cased category does not contain
    "a_dio"; the in-memory server returns nothing for it. *)
Theorem like_filter_matches_beyond_substring : forall (D : Driver) now,
  let q := [("category", QStr "a_dio")] in
  exists rs d' r,
    Persisted.getAllProducts now q (sample_db 0) = (Persisted.Ok rs, d')
    /\ In r rs
    /\ category r = "Audio"
    /\ includes (toLowerCase (category r)) (toLowerCase "a_dio") = false
    /\ Memory.filterProducts q (Memory.sample_products 0) = Some [].
Proof.
  intros D now q. eexists. eexists. eexists.
  split; [vm_compute; reflexivity|].
  split; [left; reflexivity|]. repeat split.
Qed.

(** ** Create, then fetch *)

Lemma fold_max_finite : forall xs a,
  forallb is_finite xs = true ->
  exists m, fold_left num_max xs (Fin a) = Fin m
            /\ (a <= m)%Q
            /\ forall q, In (Fin q) xs -> (q <= m)%Q.
Proof.
  induction xs as [|x xs IH]; intros a Hfin; simpl in *.
  - exists a. split; [reflexivity|]. split; [lra|]. intros q [].
  - apply andb_prop in Hfin. destruct Hfin as [Hx Hxs].
    destruct x as [q| | |]; try discriminate Hx. simpl.
    destruct (Qle_bool a q) eqn:Hle.
    + apply Qle_bool_iff in Hle.
      destruct (IH q Hxs) as (m & Hm & Hqm & Hall).
      exists m. split; [exact Hm|]. split; [lra|].
      intros q' [E|Hin]; [injection E as <-; exact Hqm | apply Hall; exact Hin].
    + assert (Hlt : (q < a)%Q).
      { apply Qnot_le_lt. intro Hc. apply Qle_bool_iff in Hc.
        rewrite Hc in Hle. discriminate Hle. }
      destruct (IH a Hxs) as (m & Hm & Ham & Hall).
      exists m. split; [exact Hm|]. split; [exact Ham|].
      intros q' [E|Hin]; [injection E as <-; lra | apply Hall; exact Hin].
Qed.

(** [Math.max] over finite numbers: minus infinity on the empty list, a
    finite upper bound otherwise. *)
Lemma Math_max_finite : forall xs,
  forallb is_finite xs = true ->
  (xs = [] /\ Math_max xs = NInf)
  \/ exists m, Math_max xs = Fin m /\ forall q, In (Fin q) xs -> (q <= m)%Q.
Proof.
  intros [|x xs] Hfin; [left; split; reflexivity|right].
  simpl in Hfin. apply andb_prop in Hfin. destruct Hfin as [Hx Hxs].
  destruct x as [q| | |]; try discriminate Hx.
  destruct (fold_max_finite xs q Hxs) as (m & Hm & Hqm & Hall).
  exists m. split; [exact Hm|].
  intros q' [E|Hin]; [injection E as <-; exact Hqm | apply Hall; exact Hin].
Qed.

Lemma find_last : forall (A : Type) (f : A -> bool) (l : list A) (x : A),
  (forall y, In y l -> f y = false) -> f x = true ->
  find f (l ++ [x])%list = Some x.
Proof.
  intros A f l x. induction l as [|a l IH]; intros Hl Hx; simpl.
  - rewrite Hx. reflexivity.
  - rewrite (Hl a (or_introl eq_refl)). apply IH; [|exact Hx].
    intros y Hy. apply Hl. right. exact Hy.
Qed.

Lemma forallb_map : forall (A B : Type) (f : A -> B) (g : B -> bool) (l : list A),
  forallb g (map f l) = forallb (fun a => g (f a)) l.
Proof.
  intros A B f g l. induction l as [|a l IH]; simpl; [reflexivity|].
  rewrite IH. reflexivity.
Qed.

(** The identifier of a new in-memory product is found in no stored
    product, and is equal to itself. *)
Lemma memory_fresh_id : forall products,
  finite_ids products = true ->
  let i := num_succ (Math_max (map Memory.id products)) in
  (forall p, In p products -> num_eq (Memory.id p) i = false)
  /\ num_eq i i = true
  /\ (products <> [] -> is_finite i = true).
Proof.
  intros products Hfin i.
  assert (Hmap : forallb is_finite (map Memory.id products) = true).
  { rewrite forallb_map. exact Hfin. }
  destruct (Math_max_finite _ Hmap) as [[Hnil Hmax]|(m & Hmax & Hall)];
    subst i; rewrite Hmax; unfold num_succ.
  - destruct products; [|discriminate Hnil].
    split; [intros p []|]. split; [reflexivity|]. intro H. contradiction H. reflexivity.
  - split; [|split; [apply Qeq_bool_iff; reflexivity | reflexivity]].
    intros p Hp.
    unfold finite_ids in Hfin. rewrite forallb_forall in Hfin.
    specialize (Hfin p Hp). destruct (Memory.id p) as [q| | |] eqn:Hid;
      try discriminate Hfin. unfold num_eq.
    assert (Hq : (q <= m)%Q).
    { apply Hall. rewrite <- Hid. apply in_map. exact Hp. }
    destruct (Qeq_bool q (Qred (m + 1))) eqn:E; [|reflexivity].
    apply Qeq_bool_iff in E. rewrite Qred_correct in E. lra.
Qed.

Lemma pool_query_rows : forall (D : Driver) now st params d rs d',
  pool_query now st params d = (Rows rs, d') ->
  outage d = None
  /\ exists d1, exec now st params d = (Rows rs, d1)
                /\ d' = with_log d1 (log d1 ++ [(sql_text st, params)])%list.
Proof.
  intros D now st params d rs d' H. unfold pool_query in H.
  destruct (outage d); [discriminate H|]. split; [reflexivity|].
  destruct (exec now st params d) as [r d1]. injection H as -> <-.
  exists d1. split; reflexivity.
Qed.

Lemma inserted_row_facts : forall (D : Driver) now params i r,
  inserted_row now params i = inr r ->
  id r = i /\ created_at r = Some now /\ updated_at r = Some now
  /\ checks_pass r = true.
Proof.
  intros D now params i r H. unfold inserted_row in H.
  destruct (as_int4 (param 5 params)); [|discriminate H].
  destruct (as_numeric (param 3 params)); [|discriminate H].
  destruct (as_text (param 1 params)); [|discriminate H].
  destruct (as_text (param 4 params)); [|discriminate H].
  destruct (to_varchar 255 s); [|destruct (to_varchar 100 s0);
    destruct (to_decimal_10_2 n); discriminate H].
  destruct (to_varchar 100 s0); [|destruct (to_decimal_10_2 n); discriminate H].
  destruct (to_decimal_10_2 n); [|discriminate H].
  match type of H with
  | (if checks_pass ?x then _ else _) = _ =>
      destruct (checks_pass x) eqn:Hc; [|discriminate H]
  end.
  injection H as <-. repeat split. exact Hc.
Qed.

Lemma exec_insert_rows : forall (D : Driver) now params d rs d',
  exec now InsertProduct params d = (Rows rs, d') ->
  exists r,
    rs = [r]
    /\ inserted_row now params (products_id_seq d) = inr r
    /\ (- 2147483648 <=? products_id_seq d) && (products_id_seq d <=? 2147483647) = true
    /\ existsb (fun x => id x =? products_id_seq d) (products d) = false
    /\ d' = with_products d (products d ++ [r])%list (products_id_seq d + 1).
Proof.
  intros D now params d rs d' H. unfold exec in H.
  destruct (inserted_row now params (products_id_seq d)) as [code|r] eqn:Hr.
  - destruct (String.eqb code invalid_text_representation); discriminate H.
  - destruct ((- 2147483648 <=? products_id_seq d)
              && (products_id_seq d <=? 2147483647)) eqn:Hrange;
      [|discriminate H]. simpl in H.
    destruct (existsb (fun x => id x =? products_id_seq d) (products d)) eqn:He;
      [discriminate H|].
    injection H as <- <-. exists r. repeat split.
Qed.

Lemma as_int4_of_Z : forall i,
  (- 2147483648 <=? i) && (i <=? 2147483647) = true ->
  as_int4 (JNum (of_Z i)) = Some i.
Proof.
  intros i H. unfold as_int4, of_Z. rewrite Qfloor_Z.
  assert (E : Qeq_bool (inject_Z i) (inject_Z i) = true)
    by (apply Qeq_bool_iff; reflexivity).
  rewrite E. simpl. rewrite H. reflexivity.
Qed.

Lemma as_int4_of_Z_inv : forall i j,
  as_int4 (JNum (of_Z i)) = Some j ->
  j = i /\ (- 2147483648 <=? i) && (i <=? 2147483647) = true.
Proof.
  intros i j H. unfold as_int4, of_Z in H. rewrite Qfloor_Z in H.
  destruct (Qeq_bool (inject_Z i) (inject_Z i)); [|discriminate H]. simpl in H.
  destruct ((- 2147483648 <=? i) && (i <=? 2147483647)); [|discriminate H].
  injection H as <-. split; reflexivity.
Qed.

Lemma filter_none : forall (A : Type) (f : A -> bool) (l : list A),
  existsb f l = false -> filter f l = [].
Proof.
  intros A f l. induction l as [|a l IH]; simpl; intro H; [reflexivity|].
  apply orb_false_elim in H. destruct H as [Ha Hl]. rewrite Ha. apply IH, Hl.
Qed.

(** A product [createProduct] returned is the one a later
    [getProductById] on its id returns. *)
Lemma persisted_create_then_fetch : forall (D : Driver) now later data d d' r,
  Persisted.createProduct now data d = (Persisted.Ok (Some r), d') ->
  fst (Persisted.getProductById later (id r) d') = Persisted.Ok (Some r)
  /\ created_at r = Some now /\ updated_at r = Some now
  /\ checks_pass r = true.
Proof.
  intros D now later data d d' r H. unfold Persisted.createProduct in H.
  destruct (negb (destructurable data)); [discriminate H|].
  destruct (throws (prop "price" data) || throws (prop "stock" data));
    [discriminate H|].
  match type of H with
  | match pool_query now InsertProduct ?ps d with _ => _ end = _ =>
      destruct (pool_query now InsertProduct ps d) as [res d1] eqn:Hq
  end.
  destruct res as [rs| | |code msg]; try discriminate H.
  2:{ destruct (String.eqb code unique_violation); discriminate H. }
  injection H as Hhd <-.
  apply pool_query_rows in Hq. destruct Hq as (Hout & d2 & Hex & ->).
  apply exec_insert_rows in Hex.
  destruct Hex as (r' & -> & Hrow & Hrange & Hfresh & ->).
  simpl in Hhd. injection Hhd as ->.
  destruct (inserted_row_facts _ _ _ _ _ Hrow) as (Hid & Hc & Hu & Hchk).
  repeat split; try assumption.
  unfold Persisted.getProductById, pool_query. cbn [outage with_log with_products].
  rewrite Hout. unfold exec. cbn [param Nat.sub nth].
  rewrite Hid, (as_int4_of_Z _ Hrange).
  cbn [products with_log with_products].
  rewrite filter_app, (filter_none _ _ _ Hfresh). cbn [filter app].
  rewrite Hid, Z.eqb_refl. reflexivity.
Qed.

(** C4 (as amended): a product the create operation returned is the
    record a fetch by its id returns, in both servers (for the in-memory
    server, on an array whose identifiers are finite numbers).  A row of
    the PostgreSQL server carries both timestamps and they are equal;
    an object of the in-memory server carries its creation timestamp
    and no update timestamp. *)
Theorem create_then_fetch :
  (forall now data products products' p,
      finite_ids products = true ->
      Memory.createHandler now (Some data) products
      = (reply 201 [("success", FBool true); ("data", FOne p)], products') ->
      Memory.findProduct (Memory.id p) products' = Some p
      /\ creation p = Some now /\ last_update p = None)
  /\
  (forall (D : Driver) now later data d d' r,
      Persisted.createProduct now data d = (Persisted.Ok (Some r), d') ->
      fst (Persisted.getProductById later (id r) d') = Persisted.Ok (Some r)
      /\ creation r = Some now /\ last_update r = Some now).
Proof.
  split.
  - intros now data products products' p Hfin H.
    unfold Memory.createHandler in H.
    destruct (negb (destructurable data)); [discriminate H|].
    destruct (negb (truthy (prop "name" data)) || negb (truthy (prop "price" data))
              || negb (truthy (prop "category" data))); [discriminate H|].
    destruct (throws (prop "price" data) || throws (prop "stock" data));
      [discriminate H|].
    injection H as <- <-.
    destruct (memory_fresh_id products Hfin) as (Hother & Hself & _).
    split; [|split; reflexivity].
    unfold Memory.findProduct. apply find_last.
    + intros y Hy. apply Hother. exact Hy.
    + exact Hself.
  - intros D now later data d d' r H.
    destruct (persisted_create_then_fetch D now later data d d' r H)
      as (Hf & Hc & Hu & _).
    repeat split; assumption.
Qed.

Lemma create_then_fetch_witness :
  (let p := Memory.newProduct 7 (mouse (Fin 19.99)) (Memory.sample_products 0) in
   Memory.findProduct (Memory.id p) (Memory.sample_products 0 ++ [p])%list = Some p
   /\ creation p = Some 7 /\ last_update p = None)
  /\
  (exists r d',
     Persisted.createProduct (D := example_driver) 7 (mouse (Fin 19.99)) (sample_db 0)
     = (Persisted.Ok (Some r), d')
     /\ fst (Persisted.getProductById (D := example_driver) 8 (id r) d')
        = Persisted.Ok (Some r)
     /\ creation r = Some 7 /\ last_update r = Some 7).
Proof.
  split.
  - apply (proj1 create_then_fetch 7 (mouse (Fin 19.99)) (Memory.sample_products 0));
      reflexivity.
  - eexists. eexists. split; [vm_compute; reflexivity|].
    apply (proj2 create_then_fetch example_driver 7 8 (mouse (Fin 19.99)) (sample_db 0)).
    vm_compute. reflexivity.
Defined.

(** C4 as stated fails on the in-memory server: the record it creates
    has no update timestamp. *)
Lemma memory_record_has_no_update_timestamp :
  let p := Memory.newProduct 7 (mouse (Fin 19.99)) (Memory.sample_products 0) in
  fst (Memory.createHandler 7 (Some (mouse (Fin 19.99))) (Memory.sample_products 0))
  = reply 201 [("success", FBool true); ("data", FOne p)]
  /\ ~ (exists t, creation p = Some t /\ last_update p = Some t).
Proof.
  split; [reflexivity|]. intros [t [_ H]]. discriminate H.
Qed.

(** ** Partial update *)

Lemma assign_frame : forall (D : Driver) params s r r',
  assign params s r = inr r' ->
  id r' = id r /\ created_at r' = created_at r /\ updated_at r' = updated_at r
  /\ (column_eqb (fst s) c_name = false -> name r' = name r)
  /\ (column_eqb (fst s) c_description = false -> description r' = description r)
  /\ (column_eqb (fst s) c_price = false -> price r' = price r)
  /\ (column_eqb (fst s) c_category = false -> category r' = category r)
  /\ (column_eqb (fst s) c_stock = false -> stock r' = stock r).
Proof.
  intros D params [c k] r r' H. unfold assign in H. cbn [fst snd] in *.
  destruct c;
    repeat match type of H with
           | match ?x with _ => _ end = _ => destruct x; try discriminate H
           end;
    injection H as <-; cbn; repeat split; intro E; try reflexivity; discriminate E.
Qed.

Lemma assign_all_frame : forall (D : Driver) params sets r r',
  assign_all params sets r = inr r' ->
  id r' = id r /\ created_at r' = created_at r /\ updated_at r' = updated_at r
  /\ (assigns c_name sets = false -> name r' = name r)
  /\ (assigns c_description sets = false -> description r' = description r)
  /\ (assigns c_price sets = false -> price r' = price r)
  /\ (assigns c_category sets = false -> category r' = category r)
  /\ (assigns c_stock sets = false -> stock r' = stock r).
Proof.
  intros D params sets. induction sets as [|s sets IH]; intros r r' H; simpl in H.
  - injection H as <-. repeat split.
  - destruct (assign params s r) as [code|r1] eqn:Hs; [discriminate H|].
    destruct (assign_frame _ _ _ _ _ Hs) as (A1 & A2 & A3 & A4 & A5 & A6 & A7 & A8).
    destruct (IH _ _ H) as (B1 & B2 & B3 & B4 & B5 & B6 & B7 & B8).
    unfold assigns. cbn [existsb].
    repeat split; try congruence;
      intro E; apply orb_false_elim in E; destruct E as [E1 E2].
    + rewrite (B4 E2). apply A4, E1.
    + rewrite (B5 E2). apply A5, E1.
    + rewrite (B6 E2). apply A6, E1.
    + rewrite (B7 E2). apply A7, E1.
    + rewrite (B8 E2). apply A8, E1.
Qed.

Lemma update_row_facts : forall (D : Driver) now params sets r r',
  update_row now params sets r = inr r' ->
  exists r1, assign_all params sets r = inr r1 /\ r' = touch now r1
             /\ checks_pass r' = true.
Proof.
  intros D now params sets r r' H. unfold update_row in H.
  destruct (assign_all params sets r) as [code|r1]; [discriminate H|].
  destruct (checks_pass r1) eqn:Hc; [|discriminate H].
  injection H as <-. exists r1. repeat split. exact Hc.
Qed.

Lemma update_row_id : forall (D : Driver) now params sets r r',
  update_row now params sets r = inr r' -> id r' = id r.
Proof.
  intros D now params sets r r' H.
  destruct (update_row_facts _ _ _ _ _ _ H) as (r1 & Ha & -> & _).
  destruct (assign_all_frame _ _ _ _ _ Ha) as (E & _). exact E.
Qed.

(** What UPDATE returns are the new versions of the rows with the
    given id, in table order; they are also what the table then holds
    under that id. *)
Lemma update_rows_out : forall (D : Driver) now params sets i rs table out,
  update_rows now params sets i rs = inr (table, out) ->
  filter (fun r => id r =? i) table = out
  /\ forall r0 r,
       hd_error (filter (fun r => id r =? i) rs) = Some r0 ->
       hd_error out = Some r ->
       update_row now params sets r0 = inr r.
Proof.
  intros D now params sets i rs. induction rs as [|a rs IH]; intros table out H;
    simpl in H.
  - injection H as <- <-. split; [reflexivity|]. intros r0 r E. discriminate E.
  - destruct (id a =? i) eqn:Ha.
    + destruct (update_row now params sets a) as [code|a'] eqn:Hrow; [discriminate H|].
      destruct (update_rows now params sets i rs) as [code|[t o]]; [discriminate H|].
      injection H as <- <-. destruct (IH t o eq_refl) as [Hf _]. split.
      * simpl. rewrite (update_row_id _ _ _ _ _ _ Hrow), Ha, Hf. reflexivity.
      * intros r0 r E1 E2. simpl in E1. rewrite Ha in E1. simpl in E1, E2.
        injection E1 as <-. injection E2 as <-. exact Hrow.
    + destruct (update_rows now params sets i rs) as [code|[t o]]; [discriminate H|].
      injection H as <- <-. destruct (IH t o eq_refl) as [Hf Hh]. split.
      * simpl. rewrite Ha. exact Hf.
      * intros r0 r E1 E2. simpl in E1. rewrite Ha in E1. exact (Hh r0 r E1 E2).
Qed.

Lemma update_sets_count : forall data,
  let '(_, params, paramCount) := Persisted.updateProduct_sets data in
  paramCount = S (List.length params).
Proof.
  intro data. unfold Persisted.updateProduct_sets.
  destruct (prop "name" data); destruct (prop "description" data);
    destruct (prop "price" data); destruct (prop "category" data);
    destruct (prop "stock" data); reflexivity.
Qed.

Lemma param_last : forall params x,
  param (S (List.length params)) (params ++ [x])%list = x.
Proof.
  intros params x. unfold param. simpl. rewrite Nat.sub_0_r. apply nth_middle.
Qed.

Lemma absent_field_not_assigned : forall n de p c s,
  let sets := fst (sets_by_shape n de p c s) in
  (n = false -> assigns c_name sets = false)
  /\ (de = false -> assigns c_description sets = false)
  /\ (p = false -> assigns c_price sets = false)
  /\ (c = false -> assigns c_category sets = false)
  /\ (s = false -> assigns c_stock sets = false).
Proof.
  intros [] [] [] [] []; cbn; repeat split; intro E; try reflexivity; discriminate E.
Qed.

Lemma fetch_facts : forall (D : Driver) now i d x,
  fst (Persisted.getProductById now i d) = Persisted.Ok x ->
  outage d = None
  /\ (- 2147483648 <=? i) && (i <=? 2147483647) = true
  /\ x = hd_error (filter (fun r => id r =? i) (products d)).
Proof.
  intros D now i d x H. unfold Persisted.getProductById, pool_query in H.
  destruct (outage d); [discriminate H|]. unfold exec in H.
  cbn [param Nat.sub nth] in H.
  destruct (as_int4 (JNum (of_Z i))) as [j|] eqn:Hj; [|discriminate H].
  apply as_int4_of_Z_inv in Hj. destruct Hj as [-> Hrange].
  cbn in H. injection H as <-. repeat split. exact Hrange.
Qed.

(** C5: when an update returns a product, the product has the id and
    the creation timestamp of the stored one, its update timestamp is
    the time of the update, and every field absent from the partial
    input has the value it had before; the returned product is also what
    a later fetch by that id returns. *)
Theorem update_changes_only_supplied_fields :
  forall (D : Driver) before now later i data d d' r0 r,
    fst (Persisted.getProductById before i d) = Persisted.Ok (Some r0) ->
    Persisted.updateProduct now i data d = (Persisted.Ok (Some r), d') ->
    id r = id r0 /\ created_at r = created_at r0 /\ updated_at r = Some now
    /\ (prop "name" data = None -> name r = name r0)
    /\ (prop "description" data = None -> description r = description r0)
    /\ (prop "price" data = None -> price r = price r0)
    /\ (prop "category" data = None -> category r = category r0)
    /\ (prop "stock" data = None -> stock r = stock r0)
    /\ fst (Persisted.getProductById later i d') = Persisted.Ok (Some r).
Proof.
  intros D before now later i data d d' r0 r H0 H.
  destruct (fetch_facts _ _ _ _ _ H0) as (Hout & Hrange & Hr0).
  unfold Persisted.updateProduct in H.
  destruct (negb (destructurable data)); [discriminate H|].
  destruct (throws (prop "price" data) || throws (prop "stock" data));
    [discriminate H|].
  pose proof (update_sets_by_shape data) as Hshape.
  pose proof (update_sets_count data) as Hcount.
  destruct (Persisted.updateProduct_sets data) as [[updates params] n].
  destruct updates as [|u us]; [discriminate H|].
  destruct (pool_query now (UpdateSet (u :: us) n) (params ++ [JNum (of_Z i)])%list d)
    as [res d1] eqn:Hq.
  destruct res as [rs| | |]; try discriminate H.
  injection H as Hhd <-.
  apply pool_query_rows in Hq. destruct Hq as (_ & d2 & Hex & ->).
  unfold exec in Hex. subst n. rewrite param_last, (as_int4_of_Z _ Hrange) in Hex.
  destruct (binds (params ++ [JNum (of_Z i)])%list (u :: us)); [|discriminate Hex].
  destruct (update_rows now (params ++ [JNum (of_Z i)])%list (u :: us) i (products d))
    as [code|[table out]] eqn:Hup; [discriminate Hex|].
  injection Hex as <- <-.
  destruct (update_rows_out _ _ _ _ _ _ _ _ Hup) as [Hf Hhead].
  specialize (Hhead r0 r (eq_sym Hr0) Hhd).
  destruct (update_row_facts _ _ _ _ _ _ Hhead) as (r1 & Ha & -> & _).
  destruct (assign_all_frame _ _ _ _ _ Ha) as (A1 & A2 & _ & A4 & A5 & A6 & A7 & A8).
  pose proof (absent_field_not_assigned
                (defined (prop "name" data)) (defined (prop "description" data))
                (defined (prop "price" data)) (defined (prop "category" data))
                (defined (prop "stock" data))) as Habs.
  rewrite <- Hshape in Habs. cbn [fst] in Habs.
  destruct Habs as (N1 & N2 & N3 & N4 & N5).
  cbn [touch id created_at updated_at name description price category stock].
  repeat split; try assumption.
  - intro E. apply A4, N1. rewrite E. reflexivity.
  - intro E. apply A5, N2. rewrite E. reflexivity.
  - intro E. apply A6, N3. rewrite E. reflexivity.
  - intro E. apply A7, N4. rewrite E. reflexivity.
  - intro E. apply A8, N5. rewrite E. reflexivity.
  - unfold Persisted.getProductById, pool_query.
    cbn [outage with_log with_products]. rewrite Hout. unfold exec.
    cbn [param Nat.sub nth]. rewrite (as_int4_of_Z _ Hrange).
    cbn [products with_log with_products fst]. rewrite Hf, Hhd. reflexivity.
Qed.

Lemma update_changes_only_supplied_fields_witness :
  let data := JObj [("price", JNum (of_Z 10)); ("stock", JStr "12")] in
  let r0 := seed 2 "Wireless Headphones"
                 "Premium noise-cancelling wireless headphones with 30h battery"
                 249.99 "Audio" 30 0 in
  let r := {| id := 2; name := "Wireless Headphones";
              description :=
                Some "Premium noise-cancelling wireless headphones with 30h battery";
              price := of_Z 10; category := "Audio"; stock := Some 12;
              created_at := Some 0; updated_at := Some 9 |} in
  let d' := snd (Persisted.updateProduct (D := example_driver) 9 2 data (sample_db 0)) in
  id r = id r0 /\ created_at r = created_at r0 /\ updated_at r = Some 9
  /\ (prop "name" data = None -> name r = name r0)
  /\ (prop "description" data = None -> description r = description r0)
  /\ (prop "price" data = None -> price r = price r0)
  /\ (prop "category" data = None -> category r = category r0)
  /\ (prop "stock" data = None -> stock r = stock r0)
  /\ fst (Persisted.getProductById (D := example_driver) 11 2 d')
     = Persisted.Ok (Some r).
Proof.
  intros data r0 r d'.
  apply (update_changes_only_supplied_fields example_driver 5 9 11 2 data
           (sample_db 0) d' r0 r); vm_compute; reflexivity.
Defined.

(** ** Supporting facts *)

(** The identifiers of the in-memory array stay finite numbers, from the
    sample data on, whatever requests are served. *)
Lemma memory_ids_stay_finite : forall now req products out products',
  Memory.server now req products = (out, products') ->
  products <> [] -> finite_ids products = true ->
  products' <> [] /\ finite_ids products' = true.
Proof.
  intros now req products out products' H Hne Hfin.
  assert (Hcreate : forall parsed,
             Memory.createHandler now parsed products = (out, products') ->
             products' <> [] /\ finite_ids products' = true).
  { intros parsed Hc. unfold Memory.createHandler in Hc.
    destruct parsed as [b|]; [|injection Hc as _ <-; split; assumption].
    destruct (negb (destructurable b)); [injection Hc as _ <-; split; assumption|].
    destruct (negb (truthy (prop "name" b)) || negb (truthy (prop "price" b))
              || negb (truthy (prop "category" b)));
      [injection Hc as _ <-; split; assumption|].
    destruct (throws (prop "price" b) || throws (prop "stock" b));
      injection Hc as _ <-; [split; assumption|].
    split; [intro E; apply app_eq_nil in E; destruct E as [_ E]; discriminate E|].
    unfold finite_ids. rewrite forallb_app. cbn [forallb Memory.newProduct Memory.id].
    destruct (memory_fresh_id products Hfin) as (_ & _ & Hnew).
    fold (finite_ids products). rewrite Hfin, (Hnew Hne). reflexivity. }
  unfold Memory.server in H.
  destruct (String.eqb (method req) "OPTIONS");
    [injection H as _ <-; split; assumption|].
  destruct (String.eqb (pathname req) "/health");
    [injection H as _ <-; split; assumption|].
  destruct (String.eqb (pathname req) "/api/products" && String.eqb (method req) "GET").
  { destruct (Memory.filterProducts (query req) products);
      injection H as _ <-; split; assumption. }
  destruct (productIdMatch (pathname req)) as [i|];
    destruct (String.eqb (method req) "GET");
    try (destruct (Memory.findProduct (of_Z i) products);
         injection H as _ <-; split; assumption);
    (destruct (String.eqb (pathname req) "/api/products"
               && String.eqb (method req) "POST");
     [exact (Hcreate _ H) | injection H as _ <-; split; assumption]).
Qed.

Lemma memory_samples_finite : forall boot,
  Memory.sample_products boot <> [] /\ finite_ids (Memory.sample_products boot) = true.
Proof.
  intro boot. split; [discriminate | reflexivity].
Qed.

(** The CHECK constraints in numbers: a finite price is positive and a
    stock that is not NULL is not negative. *)
Lemma checks_pass_bounds : forall r,
  checks_pass r = true ->
  (forall q, price r = Fin q -> (0 < q)%Q)
  /\ (forall s, stock r = Some s -> 0 <= s).
Proof.
  intros r H. unfold checks_pass in H. apply andb_prop in H. destruct H as [Hp Hs].
  split.
  - intros q E. rewrite E in Hp. unfold pg_lt, pg_le, zero, num_le in Hp.
    apply negb_true_iff in Hp. apply Qnot_le_lt. intro Hc.
    apply Qle_bool_iff in Hc. rewrite Hc in Hp. discriminate Hp.
  - intros s E. rewrite E in Hs. apply Z.leb_le. exact Hs.
Qed.

Lemma update_rows_returned : forall (D : Driver) now params sets i rs table out r,
  update_rows now params sets i rs = inr (table, out) ->
  In r out ->
  exists r0, In r0 rs /\ update_row now params sets r0 = inr r.
Proof.
  intros D now params sets i rs. induction rs as [|a rs IH];
    intros table out r H Hin; simpl in H.
  - injection H as <- <-. destruct Hin.
  - destruct (id a =? i).
    + destruct (update_row now params sets a) as [code|a'] eqn:Hrow; [discriminate H|].
      destruct (update_rows now params sets i rs) as [code|[t o]]; [discriminate H|].
      injection H as <- <-. destruct Hin as [<-|Hin].
      * exists a. split; [left; reflexivity | exact Hrow].
      * destruct (IH t o r eq_refl Hin) as (r0 & H0 & H1).
        exists r0. split; [right; exact H0 | exact H1].
    + destruct (update_rows now params sets i rs) as [code|[t o]]; [discriminate H|].
      injection H as <- <-.
      destruct (IH t o r eq_refl Hin) as (r0 & H0 & H1).
      exists r0. split; [right; exact H0 | exact H1].
Qed.

(** The PostgreSQL server keeps the bounds through the table: a product
    returned by a create or by an update passes the CHECK constraints. *)
Lemma persisted_results_pass_checks : forall (D : Driver) now i data d d' r,
  Persisted.createProduct now data d = (Persisted.Ok (Some r), d')
  \/ Persisted.updateProduct now i data d = (Persisted.Ok (Some r), d') ->
  checks_pass r = true.
Proof.
  intros D now i data d d' r [H|H].
  - destruct (persisted_create_then_fetch D now now data d d' r H) as (_ & _ & _ & Hc).
    exact Hc.
  - unfold Persisted.updateProduct in H.
    destruct (negb (destructurable data)); [discriminate H|].
    destruct (throws (prop "price" data) || throws (prop "stock" data));
      [discriminate H|].
    destruct (Persisted.updateProduct_sets data) as [[updates params] n].
    destruct updates as [|u us]; [discriminate H|].
    destruct (pool_query now (UpdateSet (u :: us) n) (params ++ [JNum (of_Z i)])%list d)
      as [res d1] eqn:Hq.
    destruct res as [rs| | |]; try discriminate H.
    injection H as Hhd <-.
    apply pool_query_rows in Hq. destruct Hq as (_ & d2 & Hex & ->).
    unfold exec in Hex.
    destruct (as_int4 (param n (params ++ [JNum (of_Z i)])%list)) as [j|];
      [|discriminate Hex].
    destruct (binds (params ++ [JNum (of_Z i)])%list (u :: us)); [|discriminate Hex].
    destruct (update_rows now (params ++ [JNum (of_Z i)])%list (u :: us) j (products d))
      as [code|[table out]] eqn:Hup; [discriminate Hex|].
    injection Hex as <- <-.
    destruct out as [|x out]; [discriminate Hhd|]. injection Hhd as ->.
    destruct (update_rows_returned _ _ _ _ _ _ _ _ r Hup (or_introl eq_refl))
      as (r0 & _ & Hrow).
    destruct (update_row_facts _ _ _ _ _ _ Hrow) as (_ & _ & _ & Hc). exact Hc.
Qed.

(** Apart from the fallback, every response of the PostgreSQL server
    whose status is 400 or more has the error envelope. *)
Lemma persisted_errors_are_enveloped : forall (D : Driver) env now req d r,
  fst (Persisted.server env now req d) = Responded r ->
  (400 <= status r)%nat ->
  (exists e, payload r = Some e /\ is_error_envelope e = true)
  \/ payload r = Some (route_not_found req).
Proof.
  intros D env now req d r H Hs.
  unfold Persisted.server, Persisted.healthHandler, Persisted.createHandler,
    Persisted.updateHandler, Persisted.deleteHandler, Persisted.internal_error,
    Persisted.with_data, route_not_found, reply in *.
  split_cases H; cbn [fst] in H; try discriminate H; close_response H.
Qed.

(** The same for the in-memory server. *)
Lemma memory_errors_are_enveloped : forall now req products r,
  fst (Memory.server now req products) = Responded r ->
  (400 <= status r)%nat ->
  (exists e, payload r = Some e /\ is_error_envelope e = true)
  \/ payload r = Some (route_not_found req).
Proof.
  intros now req products r H Hs.
  unfold Memory.server, Memory.createHandler, route_not_found, reply in *.
  split_cases H; cbn [fst] in H; try discriminate H; close_response H.
Qed.

(** A value without a primitive value is never at most a number: where
    [x <= 0] holds, it was evaluated without throwing. *)
Lemma unprintable_not_a_number : forall j,
  unprintable j = true -> ToNumber_json j = NaN.
Proof.
  fix IH 1. intros j H. destruct j as [| | | |l|o]; try discriminate H.
  - destruct l as [|x [|y l']]; [discriminate H| |reflexivity].
    cbn [unprintable existsb] in H. rewrite orb_false_r in H.
    pose proof (IH x) as Hx.
    destruct x as [| | | |l2|o2]; try discriminate H.
    + change (ToNumber_json (JArr [JArr l2])) with (ToNumber_json (JArr l2)).
      apply Hx. exact H.
    + reflexivity.
  - reflexivity.
Qed.

Lemma le_num_throws : forall v n, le_num v n = true -> throws v = false.
Proof.
  intros [j|] n H; [|reflexivity]. cbn [throws].
  destruct (unprintable j) eqn:E; [|reflexivity].
  unfold le_num in H. cbn [ToNumber] in H.
  rewrite (unprintable_not_a_number j E) in H. discriminate H.
Qed.

(** The price tests of the PostgreSQL handlers, where they fire: a
    create whose required fields are truthy and whose price is at most 0,
    and an update whose price is truthy and at most 0, are answered 400
    with "Price must be greater than 0" and no statement is sent. *)
Lemma persisted_price_tests : forall (D : Driver) now i data d,
  destructurable data = true ->
  truthy (prop "price" data) = true ->
  le_num (prop "price" data) zero = true ->
  (truthy (prop "name" data) = true -> truthy (prop "category" data) = true ->
   Persisted.createHandler now (Some data) d
   = (reply 400 (failure "Price must be greater than 0"), d))
  /\ Persisted.updateHandler now i (Some data) d
     = (reply 400 (failure "Price must be greater than 0"), d).
Proof.
  intros D now i data d Hd Hp Hle. split.
  - intros Hn Hc. unfold Persisted.createHandler.
    rewrite Hd, Hn, Hp, Hc, (le_num_throws _ _ Hle), Hle. reflexivity.
  - unfold Persisted.updateHandler.
    rewrite Hd, Hp, (le_num_throws _ _ Hle), Hle. reflexivity.
Qed.

(** A number that is truthy and at most 0 is negative: 0 itself never
    reaches the price tests. *)
Lemma truthy_nonpositive_is_negative : forall q,
  truthy (Some (JNum (Fin q))) = true ->
  le_num (Some (JNum (Fin q))) zero = true ->
  (q < 0)%Q.
Proof.
  intros q Ht Hle. cbn in Ht, Hle.
  apply negb_true_iff in Ht. apply Qle_bool_iff in Hle.
  destruct (Qlt_le_dec q 0) as [Hlt|Hge]; [exact Hlt|].
  assert (E : (q == 0)%Q) by lra.
  apply Qeq_bool_iff in E. rewrite E in Ht. discriminate Ht.
Qed.

(** * Further properties of the two servers *)

(** ** The in-memory array *)

(** What a 201 of the in-memory POST handler says about the body and
    the array. *)
Lemma memory_created : forall now data products p products',
  Memory.createHandler now (Some data) products
  = (reply 201 [("success", FBool true); ("data", FOne p)], products') ->
  p = Memory.newProduct now data products
  /\ products' = (products ++ [p])%list
  /\ throws (prop "price" data) || throws (prop "stock" data) = false.
Proof.
  intros now data products p products' H. unfold Memory.createHandler in H.
  destruct (negb (destructurable data)); [discriminate H|].
  destruct (negb (truthy (prop "name" data)) || negb (truthy (prop "price" data))
            || negb (truthy (prop "category" data))); [discriminate H|].
  destruct (throws (prop "price" data) || throws (prop "stock" data));
    [discriminate H|].
  injection H as <- <-. repeat split.
Qed.

(** X1: the in-memory server never modifies or removes a stored
    product: after any request the array is the same, or it is the old
    array followed by one new record, and that only for a POST to
    /api/products answered 201 with that record. *)
Theorem memory_server_only_appends : forall now req products,
  let '(out, products') := Memory.server now req products in
  products' = products
  \/ exists p, products' = (products ++ [p])%list
               /\ out = reply 201 [("success", FBool true); ("data", FOne p)]
               /\ method req = "POST" /\ pathname req = "/api/products".
Proof.
  intros now req products.
  destruct (Memory.server now req products) as [out products'] eqn:H.
  unfold Memory.server in H.
  destruct (String.eqb (method req) "OPTIONS");
    [injection H as _ <-; left; reflexivity|].
  destruct (String.eqb (pathname req) "/health");
    [injection H as _ <-; left; reflexivity|].
  destruct (String.eqb (pathname req) "/api/products" && String.eqb (method req) "GET").
  { destruct (Memory.filterProducts (query req) products);
      injection H as _ <-; left; reflexivity. }
  assert (Hpost :
    (if String.eqb (pathname req) "/api/products" && String.eqb (method req) "POST"
     then Memory.createHandler now (parseBody (body req)) products
     else (reply 404 [("error", FStr "Route not found");
                      ("path", FStr (pathname req));
                      ("method", FStr (method req))], products))
    = (out, products') ->
    products' = products
    \/ exists p, products' = (products ++ [p])%list
                 /\ out = reply 201 [("success", FBool true); ("data", FOne p)]
                 /\ method req = "POST" /\ pathname req = "/api/products").
  { intro Hp.
    destruct (String.eqb (pathname req) "/api/products") eqn:Epath;
      [|injection Hp as _ <-; left; reflexivity].
    destruct (String.eqb (method req) "POST") eqn:Emeth;
      [|injection Hp as _ <-; left; reflexivity].
    cbn [andb] in Hp. unfold Memory.createHandler in Hp.
    destruct (parseBody (body req)) as [b|];
      [|injection Hp as _ <-; left; reflexivity].
    destruct (negb (destructurable b)); [injection Hp as _ <-; left; reflexivity|].
    destruct (negb (truthy (prop "name" b)) || negb (truthy (prop "price" b))
              || negb (truthy (prop "category" b)));
      [injection Hp as _ <-; left; reflexivity|].
    destruct (throws (prop "price" b) || throws (prop "stock" b));
      [injection Hp as _ <-; left; reflexivity|].
    injection Hp as <- <-. right. eexists. repeat split.
    - apply String.eqb_eq. exact Emeth.
    - apply String.eqb_eq. exact Epath. }
  destruct (productIdMatch (pathname req)) as [i|];
    destruct (String.eqb (method req) "GET");
    try (destruct (Memory.findProduct (of_Z i) products);
         injection H as _ <-; left; reflexivity);
    exact (Hpost H).
Qed.

(** X2: on an array whose identifiers are finite numbers, the
    identifier given to a new product is a finite number strictly greater
    than the identifier of every stored product. *)
Theorem memory_new_id_exceeds_all : forall now data products p q,
  finite_ids products = true ->
  In p products ->
  Memory.id p = Fin q ->
  exists m, Memory.id (Memory.newProduct now data products) = Fin m /\ (q < m)%Q.
Proof.
  intros now data products p q Hfin Hin Hid.
  assert (Hmap : forallb is_finite (map Memory.id products) = true).
  { rewrite forallb_map. exact Hfin. }
  destruct (Math_max_finite _ Hmap) as [[Hnil _]|(m & Hmax & Hall)].
  - destruct products; [destruct Hin | discriminate Hnil].
  - exists (Qred (m + 1)). cbn [Memory.newProduct Memory.id]. rewrite Hmax.
    split; [reflexivity|].
    assert (Hq : (q <= m)%Q).
    { apply Hall. rewrite <- Hid. apply in_map. exact Hin. }
    rewrite Qred_correct. lra.
Qed.

Lemma memory_new_id_exceeds_all_witness :
  exists m,
    Memory.id (Memory.newProduct 7 (mouse (Fin 19.99)) (Memory.sample_products 0))
    = Fin m /\ (3 < m)%Q.
Proof.
  apply (memory_new_id_exceeds_all 7 (mouse (Fin 19.99)) (Memory.sample_products 0)
           {| Memory.id := of_Z 3;
              Memory.name := Some (JStr "Smart Watch");
              Memory.description :=
                JStr "Fitness tracking smartwatch with heart rate monitor";
              Memory.price := Fin 199.99;
              Memory.category := Some (JStr "Wearables");
              Memory.stock := of_Z 25;
              Memory.createdAt := 0 |} 3).
  - reflexivity.
  - right. right. left. reflexivity.
  - reflexivity.
Defined.

Lemma filter_throwing_some : forall (A : Type) (f : A -> option bool) xs ys,
  Memory.filter_throwing f xs = Some ys ->
  ys = filter (fun x => match f x with Some true => true | _ => false end) xs.
Proof.
  intros A f xs. induction xs as [|a xs IH]; intros ys H; simpl in H.
  - injection H as <-. reflexivity.
  - simpl. destruct (f a) as [keep|]; [|discriminate H].
    destruct (Memory.filter_throwing f xs) as [zs|]; [|discriminate H].
    injection H as <-. rewrite (IH zs eq_refl). destruct keep; reflexivity.
Qed.

Lemma filter_throwing_none : forall (A : Type) (f : A -> option bool) xs,
  Memory.filter_throwing f xs = None <-> exists x, In x xs /\ f x = None.
Proof.
  intros A f xs. induction xs as [|a xs IH]; simpl.
  - split; [discriminate | intros (x & [] & _)].
  - destruct (f a) as [keep|] eqn:Ha.
    + destruct (Memory.filter_throwing f xs) as [zs|].
      * split; [discriminate|]. intros (x & [<-|Hin] & Hx).
        -- rewrite Ha in Hx. discriminate Hx.
        -- assert (E : Some zs = None) by (apply IH; exists x; split; assumption).
           discriminate E.
      * split; [|reflexivity]. intros _.
        destruct (proj1 IH eq_refl) as (x & Hin & Hx).
        exists x. split; [right|]; assumption.
    + split; [|reflexivity]. intros _. exists a. split; [left; reflexivity | exact Ha].
Qed.

Lemma filter_filter : forall (A : Type) (f g : A -> bool) (l : list A),
  filter g (filter f l) = filter (fun x => f x && g x) l.
Proof.
  intros A f g l. induction l as [|a l IH]; simpl; [reflexivity|].
  destruct (f a); simpl; [destruct (g a)|]; rewrite IH; reflexivity.
Qed.

Lemma filter_all : forall (A : Type) (l : list A), filter (fun _ => true) l = l.
Proof.
  intros A l. induction l as [|a l IH]; simpl; [|rewrite IH]; reflexivity.
Qed.

(** X3: when the in-memory list operation returns, its result is the
    stored products that pass all supplied filters at once, in the order
    of the array: applying the filters one after the other loses and
    reorders nothing. *)
Theorem memory_filter_is_one_pass : forall q products out,
  Memory.filterProducts q products = Some out ->
  out = filter (memory_keeps q) products.
Proof.
  intros q products out H. unfold Memory.filterProducts in H.
  unfold memory_keeps.
  destruct (supplied "category" q) as [w|].
  - destruct (Memory.filter_throwing (Memory.category_matches w) products)
      as [ps|] eqn:Hc.
    2:{ destruct (supplied "minPrice" q); destruct (supplied "maxPrice" q);
        discriminate H. }
    apply filter_throwing_some in Hc. subst ps.
    destruct (supplied "minPrice" q); destruct (supplied "maxPrice" q);
      injection H as <-; rewrite ?filter_filter; apply filter_ext; intro a;
      destruct (Memory.category_matches w a) as [[|]|]; cbn;
      rewrite ?andb_true_r; reflexivity.
  - destruct (supplied "minPrice" q); destruct (supplied "maxPrice" q);
      injection H as <-; rewrite ?filter_filter; cbn;
      try (apply filter_ext; intro a; rewrite ?andb_true_r; reflexivity).
    symmetry. apply filter_all.
Qed.

Lemma memory_filter_is_one_pass_witness :
  filter (fun p => num_eq (Memory.id p) (of_Z 2)) (Memory.sample_products 0)
  = filter (memory_keeps [("category", QStr "AUD"); ("minPrice", QStr "50")])
           (Memory.sample_products 0).
Proof.
  apply (memory_filter_is_one_pass
           [("category", QStr "AUD"); ("minPrice", QStr "50")]
           (Memory.sample_products 0)).
  reflexivity.
Defined.

(** X4: the in-memory POST stores a category of any truthy JSON type,
    and the category filter calls [toLowerCase] on it: once a product
    whose category is not a string has been created, every list request
    with a non-empty category filter ends in an uncaught exception
    instead of a response. *)
Theorem memory_nonstring_category_breaks_filter :
  forall now later data products p products' s rest,
    Memory.createHandler now (Some data) products
    = (reply 201 [("success", FBool true); ("data", FOne p)], products') ->
    (forall c, prop "category" data <> Some (JStr c)) ->
    s <> "" ->
    fst (Memory.server later (list_request (("category", QStr s) :: rest)) products')
    = Uncaught "TypeError: toLowerCase is not a function".
Proof.
  intros now later data products p products' s rest H Hcat Hs.
  destruct (memory_created _ _ _ _ _ H) as (-> & -> & _).
  assert (Hsup : supplied "category" (("category", QStr s) :: rest) = Some (QStr s)).
  { unfold supplied. cbn. destruct (String.eqb_spec s ""); [contradiction|reflexivity]. }
  assert (Hnone : Memory.filterProducts (("category", QStr s) :: rest)
                    (products ++ [Memory.newProduct now data products])%list = None).
  { unfold Memory.filterProducts. rewrite Hsup.
    assert (Hthrow : Memory.filter_throwing (Memory.category_matches (QStr s))
                       (products ++ [Memory.newProduct now data products])%list = None).
    { apply filter_throwing_none. exists (Memory.newProduct now data products).
      split; [apply in_or_app; right; left; reflexivity|].
      unfold Memory.category_matches. cbn [Memory.newProduct Memory.category].
      destruct (prop "category" data) as [[| | |c| |]|] eqn:E; try reflexivity.
      exfalso. exact (Hcat c eq_refl). }
    rewrite Hthrow.
    destruct (supplied "minPrice" (("category", QStr s) :: rest));
      destruct (supplied "maxPrice" (("category", QStr s) :: rest)); reflexivity. }
  unfold Memory.server, list_request. cbn [method pathname query].
  cbn [String.eqb Ascii.eqb Bool.eqb andb]. rewrite Hnone. reflexivity.
Qed.

Lemma memory_nonstring_category_breaks_filter_witness :
  fst (Memory.server 9 (list_request [("category", QStr "audio")])
         (Memory.sample_products 0
          ++ [Memory.newProduct 7
                (JObj [("name", JStr "Cable"); ("price", JNum (of_Z 3));
                       ("category", JNum (of_Z 5))])
                (Memory.sample_products 0)])%list)
  = Uncaught "TypeError: toLowerCase is not a function".
Proof.
  apply (memory_nonstring_category_breaks_filter 7 9
           (JObj [("name", JStr "Cable"); ("price", JNum (of_Z 3));
                  ("category", JNum (of_Z 5))])
           (Memory.sample_products 0)
           (Memory.newProduct 7
              (JObj [("name", JStr "Cable"); ("price", JNum (of_Z 3));
                     ("category", JNum (of_Z 5))])
              (Memory.sample_products 0))).
  - reflexivity.
  - intros c E. discriminate E.
  - intro E. discriminate E.
Defined.

(** ** The products table across requests *)

Lemma update_rows_empty_out : forall (D : Driver) now params sets i rs table,
  update_rows now params sets i rs = inr (table, []) -> table = rs.
Proof.
  intros D now params sets i rs. induction rs as [|a rs IH]; intros table H;
    simpl in H.
  - injection H as <-. reflexivity.
  - destruct (id a =? i).
    + destruct (update_row now params sets a); [discriminate H|].
      destruct (update_rows now params sets i rs) as [code|[t o]]; discriminate H.
    + destruct (update_rows now params sets i rs) as [code|[t o]]; [discriminate H|].
      injection H as <- ->. rewrite (IH t eq_refl). reflexivity.
Qed.

Lemma update_rows_no_match : forall (D : Driver) now params sets i rs,
  (forall r, In r rs -> id r <> i) ->
  update_rows now params sets i rs = inr (rs, []).
Proof.
  intros D now params sets i rs. induction rs as [|a rs IH]; intro H; simpl.
  - reflexivity.
  - destruct (Z.eqb_spec (id a) i) as [E|_].
    + exfalso. exact (H a (or_introl eq_refl) E).
    + rewrite IH; [reflexivity|]. intros r Hr. apply H. right. exact Hr.
Qed.

(** A statement changes the table only when it returns at least one
    row, and only an INSERT, an UPDATE or a DELETE does. *)
Lemma exec_table : forall (D : Driver) now st params d,
  let '(res, d') := exec now st params d in
  products d' = products d
  \/ (exists r rs, res = Rows (r :: rs))
     /\ (st = InsertProduct \/ (exists sets k, st = UpdateSet sets k) \/ st = DeleteById).
Proof.
  intros D now st params d. destruct st; cbn [exec].
  - left. reflexivity.
  - destruct (as_int4 (param 1 params)); left; reflexivity.
  - destruct (inserted_row now params (products_id_seq d)) as [code|r].
    + destruct (String.eqb code invalid_text_representation); left; reflexivity.
    + destruct (negb ((- 2147483648 <=? products_id_seq d)
                      && (products_id_seq d <=? 2147483647))); [left; reflexivity|].
      destruct (existsb (fun x => id x =? products_id_seq d) (products d));
        [left; reflexivity|].
      right. split; [exists r, []; reflexivity | left; reflexivity].
  - destruct (as_int4 (param idparam params)) as [i|]; [|left; reflexivity].
    destruct (binds params sets); [|left; reflexivity].
    destruct (update_rows now params sets i (products d)) as [code|[table out]] eqn:Hup;
      [left; reflexivity|].
    destruct out as [|r out].
    + left. cbn. apply (update_rows_empty_out _ _ _ _ _ _ _ Hup).
    + right. split; [exists r, out; reflexivity|].
      right. left. exists sets, idparam. reflexivity.
  - destruct (as_int4 (param 1 params)) as [i|]; [|left; reflexivity].
    destruct (filter (fun r => id r =? i) (products d)) as [|r gone];
      [left; reflexivity|].
    destruct (existsb (Z.eqb i) (order_items d)); [left; reflexivity|].
    right. split; [exists r, gone; reflexivity | right; right; reflexivity].
  - left. reflexivity.
  - left. reflexivity.
Qed.

Lemma pool_query_table : forall (D : Driver) now st params d,
  let '(res, d') := pool_query now st params d in
  products d' = products d
  \/ (exists r rs, res = Rows (r :: rs))
     /\ (st = InsertProduct \/ (exists sets k, st = UpdateSet sets k) \/ st = DeleteById).
Proof.
  intros D now st params d. unfold pool_query.
  destruct (outage d); [left; reflexivity|].
  pose proof (exec_table D now st params d) as H.
  destruct (exec now st params d) as [res d']. exact H.
Qed.

Ltac table_of_query st params :=
  match goal with
  | |- context [pool_query ?now st params ?d] =>
      let H := fresh "Hq" in
      pose proof (pool_query_table _ now st params d) as H;
      destruct (pool_query now st params d) as [[rs| | |code msg] ?];
      destruct H as [H|[(? & ? & H) [H'|[(? & ? & H')|H']]]];
      try discriminate H; try discriminate H'
  end.

Lemma create_table : forall (D : Driver) now data d,
  let '(res, d') := Persisted.createProduct now data d in
  products d' = products d \/ exists x, res = Persisted.Ok x.
Proof.
  intros D now data d. unfold Persisted.createProduct.
  destruct (negb (destructurable data)); [left; reflexivity|].
  destruct (throws (prop "price" data) || throws (prop "stock" data));
    [left; reflexivity|].
  match goal with
  | |- context [pool_query now InsertProduct ?ps d] => table_of_query InsertProduct ps
  end;
    try (destruct (String.eqb code unique_violation));
    first [left; assumption | right; eexists; reflexivity].
Qed.

Lemma update_table : forall (D : Driver) now i data d,
  let '(res, d') := Persisted.updateProduct now i data d in
  products d' = products d \/ exists r, res = Persisted.Ok (Some r).
Proof.
  intros D now i data d. unfold Persisted.updateProduct.
  destruct (negb (destructurable data)); [left; reflexivity|].
  destruct (throws (prop "price" data) || throws (prop "stock" data));
    [left; reflexivity|].
  destruct (Persisted.updateProduct_sets data) as [[updates params] n].
  destruct updates as [|u us]; [left; reflexivity|].
  match goal with
  | |- context [pool_query now ?st ?ps d] => table_of_query st ps
  end;
    first [left; assumption
          | right; match goal with
                   | E : Rows _ = Rows (_ :: _) |- _ => injection E as ->
                   end; eexists; reflexivity].
Qed.

Lemma delete_table : forall (D : Driver) now i d,
  let '(res, d') := Persisted.deleteProduct now i d in
  products d' = products d \/ exists r, res = Persisted.Ok (Some r).
Proof.
  intros D now i d. unfold Persisted.deleteProduct.
  match goal with
  | |- context [pool_query now ?st ?ps d] => table_of_query st ps
  end;
    first [left; assumption
          | right; match goal with
                   | E : Rows _ = Rows (_ :: _) |- _ => injection E as ->
                   end; eexists; reflexivity].
Qed.

Lemma reads_keep_table : forall (D : Driver) now st params d,
  st = SelectById \/ st = CategoryStats \/ st = ServerInfo
  \/ (exists conds, st = SelectWhere conds) ->
  products (snd (pool_query now st params d)) = products d.
Proof.
  intros D now st params d Hst.
  pose proof (pool_query_table D now st params d) as H.
  destruct (pool_query now st params d) as [res d']. cbn [snd].
  destruct H as [H|[_ [H|[(sets & k & H)|H]]]]; [exact H| | |];
    destruct Hst as [E|[E|[E|(c & E)]]]; rewrite E in H; discriminate H.
Qed.

Lemma health_table : forall (D : Driver) env now d,
  products (snd (Persisted.healthHandler env now d)) = products d.
Proof.
  intros D env now d. unfold Persisted.healthHandler.
  pose proof (reads_keep_table D now ServerInfo [] d
                (or_intror (or_intror (or_introl eq_refl)))) as H.
  destruct (pool_query now ServerInfo [] d) as [[rs|ss|t v|code msg] d1];
    cbn in *; exact H.
Qed.

Lemma list_table : forall (D : Driver) now q d,
  products (snd (Persisted.getAllProducts now q d)) = products d.
Proof.
  intros D now q d. unfold Persisted.getAllProducts.
  pose proof (list_command_by_shape q) as Hst.
  destruct (Persisted.getAllProducts_command q) as [st params]. cbn [fst] in Hst.
  pose proof (reads_keep_table D now st params d
                (or_intror (or_intror (or_intror (ex_intro _ _ Hst))))) as H.
  destruct (pool_query now st params d) as [[rs|ss|t v|code msg] d1];
    cbn in *; exact H.
Qed.

Lemma fetch_table : forall (D : Driver) now i d,
  products (snd (Persisted.getProductById now i d)) = products d.
Proof.
  intros D now i d. unfold Persisted.getProductById.
  pose proof (reads_keep_table D now SelectById [JNum (of_Z i)] d
                (or_introl eq_refl)) as H.
  destruct (pool_query now SelectById [JNum (of_Z i)] d)
    as [[rs|ss|t v|code msg] d1]; cbn in *; exact H.
Qed.

Lemma stats_table : forall (D : Driver) now d,
  products (snd (Persisted.getProductStats now d)) = products d.
Proof.
  intros D now d. unfold Persisted.getProductStats.
  pose proof (reads_keep_table D now CategoryStats [] d
                (or_intror (or_introl eq_refl))) as H.
  destruct (pool_query now CategoryStats [] d) as [[rs|ss|t v|code msg] d1];
    cbn in *; exact H.
Qed.

Lemma createHandler_table : forall (D : Driver) now parsed d,
  changed_with_success d (Persisted.createHandler now parsed d).
Proof.
  intros D now parsed d. unfold changed_with_success, Persisted.createHandler.
  destruct parsed as [b|]; [|left; reflexivity].
  destruct (negb (destructurable b)); [left; reflexivity|].
  destruct (negb (truthy (prop "name" b)) || negb (truthy (prop "price" b))
            || negb (truthy (prop "category" b))); [left; reflexivity|].
  destruct (throws (prop "price" b)); [left; reflexivity|].
  destruct (le_num (prop "price" b) zero); [left; reflexivity|].
  pose proof (create_table D now b d) as H.
  destruct (Persisted.createProduct now b d) as [[x|m] d1]; cbn [fst snd].
  - right. eexists. split; [reflexivity|]. right. reflexivity.
  - destruct H as [H|[x H]]; [left; exact H | discriminate H].
Qed.

Lemma updateHandler_table : forall (D : Driver) now i parsed d,
  changed_with_success d (Persisted.updateHandler now i parsed d).
Proof.
  intros D now i parsed d. unfold changed_with_success, Persisted.updateHandler.
  destruct parsed as [b|]; [|left; reflexivity].
  destruct (negb (destructurable b)); [left; reflexivity|].
  destruct (truthy (prop "price" b) && throws (prop "price" b));
    [left; reflexivity|].
  destruct (truthy (prop "price" b) && le_num (prop "price" b) zero);
    [left; reflexivity|].
  pose proof (update_table D now i b d) as H.
  destruct (Persisted.updateProduct now i b d) as [[[r|]|m] d1]; cbn [fst snd].
  - right. eexists. split; [reflexivity|]. left. reflexivity.
  - destruct H as [H|[x H]]; [left; exact H | discriminate H].
  - destruct H as [H|[x H]]; [left; exact H | discriminate H].
Qed.

Lemma deleteHandler_table : forall (D : Driver) now i d,
  changed_with_success d (Persisted.deleteHandler now i d).
Proof.
  intros D now i d. unfold changed_with_success, Persisted.deleteHandler.
  pose proof (delete_table D now i d) as H.
  destruct (Persisted.deleteProduct now i d) as [[[r|]|m] d1]; cbn [fst snd].
  - right. eexists. split; [reflexivity|]. left. reflexivity.
  - destruct H as [H|[x H]]; [left; exact H | discriminate H].
  - destruct H as [H|[x H]]; [left; exact H | discriminate H].
Qed.

(** X5: the PostgreSQL server changes the products table only while
    answering a POST, a PUT or a DELETE, and only when the answer has
    status 200 or 201: a request that is refused, that fails in storage,
    or that only reads leaves every row as it was. *)
Theorem persisted_table_changes_only_on_success :
  forall (D : Driver) env now req d,
    let '(out, d') := Persisted.server env now req d in
    products d' = products d
    \/ (exists r, out = Responded r /\ (status r = 200 \/ status r = 201)%nat)
       /\ (method req = "POST" \/ method req = "PUT" \/ method req = "DELETE").
Proof.
  intros D env now req d.
  destruct (Persisted.server env now req d) as [out d'] eqn:H.
  unfold Persisted.server in H.
  destruct (String.eqb (method req) "OPTIONS");
    [injection H as _ <-; left; reflexivity|].
  destruct (String.eqb (pathname req) "/health").
  { left. rewrite <- (health_table D env now d), H. reflexivity. }
  destruct (String.eqb (pathname req) "/api/products/stats"
            && String.eqb (method req) "GET").
  { left. rewrite <- (stats_table D now d).
    destruct (Persisted.getProductStats now d) as [[ss|m] d1];
      injection H as _ <-; reflexivity. }
  destruct (String.eqb (pathname req) "/api/products" && String.eqb (method req) "GET").
  { left. rewrite <- (list_table D now (query req) d).
    destruct (Persisted.getAllProducts now (query req) d) as [[rs|m] d1];
      injection H as _ <-; reflexivity. }
  assert (Hrest : forall res : outcome Persisted.item * database,
             res = (out, d') -> changed_with_success d res ->
             products d' = products d
             \/ exists r, out = Responded r /\ (status r = 200 \/ status r = 201)%nat).
  { intros res -> Hc. exact Hc. }
  assert (Hwrite :
    (if String.eqb (pathname req) "/api/products" && String.eqb (method req) "POST"
     then Persisted.createHandler now (parseBody (body req)) d
     else match productIdMatch (pathname req), String.eqb (method req) "PUT",
                String.eqb (method req) "DELETE" with
          | Some i, true, _ => Persisted.updateHandler now i (parseBody (body req)) d
          | Some i, false, true => Persisted.deleteHandler now i d
          | _, _, _ =>
              (reply 404 [("error", FStr "Route not found");
                          ("path", FStr (pathname req));
                          ("method", FStr (method req))], d)
          end) = (out, d') ->
    products d' = products d
    \/ (exists r, out = Responded r /\ (status r = 200 \/ status r = 201)%nat)
       /\ (method req = "POST" \/ method req = "PUT" \/ method req = "DELETE")).
  { intro Hw.
    destruct (String.eqb (pathname req) "/api/products") eqn:Epath; cbn [andb] in Hw.
    - destruct (String.eqb_spec (method req) "POST") as [Em|_].
      + destruct (Hrest _ Hw (createHandler_table D now _ d)) as [Hc|Hc];
          [left; exact Hc | right; split; [exact Hc | left; exact Em]].
      + apply String.eqb_eq in Epath. rewrite Epath in Hw. cbn in Hw.
        injection Hw as _ <-. left. reflexivity.
    - destruct (productIdMatch (pathname req)) as [i|];
        [|injection Hw as _ <-; left; reflexivity].
      destruct (String.eqb_spec (method req) "PUT") as [Em|_].
      + destruct (Hrest _ Hw (updateHandler_table D now i _ d)) as [Hc|Hc];
          [left; exact Hc | right; split; [exact Hc | right; left; exact Em]].
      + destruct (String.eqb_spec (method req) "DELETE") as [Em|_].
        * destruct (Hrest _ Hw (deleteHandler_table D now i d)) as [Hc|Hc];
            [left; exact Hc | right; split; [exact Hc | right; right; exact Em]].
        * injection Hw as _ <-. left. reflexivity. }
  destruct (productIdMatch (pathname req)) as [i|] eqn:Hid;
    destruct (String.eqb (method req) "GET") eqn:Eget;
    try exact (Hwrite H).
  left. rewrite <- (fetch_table D now i d).
  destruct (Persisted.getProductById now i d) as [[[r|]|m] d1];
    injection H as _ <-; reflexivity.
Qed.

(** X6: in the commands the service builds, the placeholders are
    numbered 1, 2, ... in the order of the parameter list: the list
    command has one placeholder per parameter, and the update command one
    per field value followed by the placeholder of the id, which is the
    last parameter. *)
Theorem placeholders_match_parameters : forall q data i,
  (let '(st, params) := Persisted.getAllProducts_command q in
   exists conds, st = SelectWhere conds
                 /\ map snd conds = seq 1 (List.length params))
  /\ (let '(updates, params, n) := Persisted.updateProduct_sets data in
      map snd updates = seq 1 (List.length params)
      /\ n = List.length (params ++ [JNum (of_Z i)])%list).
Proof.
  intros q data i. split.
  - unfold Persisted.getAllProducts_command.
    destruct (supplied "category" q); destruct (supplied "minPrice" q);
      destruct (supplied "maxPrice" q); eexists; split; reflexivity.
  - unfold Persisted.updateProduct_sets.
    destruct (prop "name" data); destruct (prop "description" data);
      destruct (prop "price" data); destruct (prop "category" data);
      destruct (prop "stock" data); split; reflexivity.
Qed.

Lemma digit_val_nonneg : forall c, is_digit c = true -> 0 <= digit_val c.
Proof.
  intros c H. unfold is_digit in H. cbv zeta in H.
  apply andb_prop in H. destruct H as [H _].
  apply Nat.leb_le in H. unfold digit_val.
  apply Nat2Z.inj_le in H. change (Z.of_nat 48) with 48 in H. lia.
Qed.

Lemma span_digits_nonneg : forall s acc n v n' rest,
  span_digits acc n s = (v, n', rest) -> 0 <= acc -> 0 <= v.
Proof.
  induction s as [|c s IH]; intros acc n v n' rest H Hacc;
    cbn [span_digits] in H.
  - injection H as <- _ _. exact Hacc.
  - destruct (is_digit c) eqn:Hc.
    + apply (IH _ _ _ _ _ H). pose proof (digit_val_nonneg c Hc). lia.
    + injection H as <- _ _. exact Hacc.
Qed.

Lemma productIdMatch_nonneg : forall path i, productIdMatch path = Some i -> 0 <= i.
Proof.
  intros path i H. unfold productIdMatch in H.
  destruct (String.prefix "/api/products/" path); [|discriminate H].
  destruct (span_digits 0 0%nat
              (substring 14 (String.length path - 14) path)) as [[v n] rest] eqn:Hs.
  destruct n; [discriminate H|]. destruct rest; [|discriminate H].
  injection H as <-. apply (span_digits_nonneg _ _ _ _ _ _ Hs). lia.
Qed.

Lemma int4_range : forall i,
  0 <= i -> i <= 2147483647 ->
  (- 2147483648 <=? i) && (i <=? 2147483647) = true.
Proof.
  intros i H0 H1. apply andb_true_intro. split; apply Z.leb_le; lia.
Qed.

Lemma update_missing : forall (D : Driver) now i data d r,
  outage d = None -> 0 <= i -> i <= 2147483647 ->
  (forall x, In x (products d) -> id x <> i) ->
  fst (Persisted.updateProduct now i data d) <> Persisted.Ok (Some r).
Proof.
  intros D now i data d r Hout H0 H1 Hno. unfold Persisted.updateProduct.
  destruct (negb (destructurable data)); [discriminate|].
  destruct (throws (prop "price" data) || throws (prop "stock" data));
    [discriminate|].
  pose proof (update_sets_count data) as Hcount.
  destruct (Persisted.updateProduct_sets data) as [[updates params] n].
  destruct updates as [|u us]; [discriminate|].
  unfold pool_query. rewrite Hout. unfold exec. subst n.
  rewrite param_last, (as_int4_of_Z _ (int4_range _ H0 H1)).
  destruct (binds (params ++ [JNum (of_Z i)])%list (u :: us)); [|discriminate].
  rewrite (update_rows_no_match _ _ _ _ _ _ Hno). discriminate.
Qed.

(** X7: when the storage is reachable, the id of the path is at most
    2147483647 and no stored product has it, a GET and a DELETE are
    answered 404 "Product not found" and the table is unchanged; a PUT
    leaves the table unchanged too, and is answered 400 or 404 unless
    its handler throws before answering, which it does exactly for the
    body [null] and for a truthy price without a primitive value. *)
Theorem missing_id_is_not_found : forall (D : Driver) env now d path i q b,
  outage d = None ->
  productIdMatch path = Some i ->
  i <= 2147483647 ->
  (forall x, In x (products d) -> id x <> i) ->
  let send m := Persisted.server env now
                  {| method := m; pathname := path; query := q; body := b |} d in
  let put_throws :=
    match parseBody b with
    | Some data => negb (destructurable data)
                   || (truthy (prop "price" data) && throws (prop "price" data))
    | None => false
    end in
  fst (send "GET") = reply 404 (failure "Product not found")
  /\ fst (send "DELETE") = reply 404 (failure "Product not found")
  /\ (forall r, fst (send "PUT") = Responded r -> status r = 400%nat \/ status r = 404%nat)
  /\ products (snd (send "GET")) = products d
  /\ products (snd (send "DELETE")) = products d
  /\ products (snd (send "PUT")) = products d
  /\ (put_throws = false -> exists r, fst (send "PUT") = Responded r)
  /\ (put_throws = true -> exists what, fst (send "PUT") = Uncaught what).
Proof.
  intros D env now d path i q b Hout Hid Hmax Hno send put_throws.
  pose proof (productIdMatch_nonneg _ _ Hid) as H0.
  pose proof (int4_range _ H0 Hmax) as Hrange.
  destruct (id_path_is_no_fixed_route path i Hid) as (P1 & P2 & P3).
  assert (Hnone : filter (fun x => id x =? i) (products d) = []).
  { apply filter_none. apply not_true_is_false. intro He.
    apply existsb_exists in He. destruct He as (x & Hx & Hxi).
    apply Z.eqb_eq in Hxi. exact (Hno x Hx Hxi). }
  assert (Hget : send "GET" = (reply 404 (failure "Product not found"),
                               with_log d (log d ++ [(sql_text SelectById,
                                                      [JNum (of_Z i)])])%list)).
  { unfold send, Persisted.server. cbn [method pathname body].
    rewrite P1, P2, P3, Hid. cbn [String.eqb Ascii.eqb Bool.eqb andb].
    unfold Persisted.getProductById, pool_query. rewrite Hout. unfold exec.
    cbn [param Nat.sub nth]. rewrite (as_int4_of_Z _ Hrange), Hnone. reflexivity. }
  assert (Hdel : send "DELETE" = (reply 404 (failure "Product not found"),
                                  with_log d (log d ++ [(sql_text DeleteById,
                                                         [JNum (of_Z i)])])%list)).
  { unfold send, Persisted.server. cbn [method pathname body].
    rewrite P1, P2, P3, Hid. cbn [String.eqb Ascii.eqb Bool.eqb andb].
    unfold Persisted.deleteHandler, Persisted.deleteProduct, pool_query.
    rewrite Hout. unfold exec.
    cbn [param Nat.sub nth]. rewrite (as_int4_of_Z _ Hrange), Hnone. reflexivity. }
  assert (Hput : send "PUT" = Persisted.updateHandler now i (parseBody b) d).
  { unfold send, Persisted.server. cbn [method pathname body].
    rewrite P1, P2, P3, Hid. reflexivity. }
  assert (Hstatus : forall r, fst (send "PUT") = Responded r ->
                              status r = 400%nat \/ status r = 404%nat).
  { intros r Hr. rewrite Hput in Hr. unfold Persisted.updateHandler in Hr.
    destruct (parseBody b) as [data|]; [|injection Hr as <-; left; reflexivity].
    destruct (negb (destructurable data)); [discriminate Hr|].
    destruct (truthy (prop "price" data) && throws (prop "price" data));
      [discriminate Hr|].
    destruct (truthy (prop "price" data) && le_num (prop "price" data) zero);
      [injection Hr as <-; left; reflexivity|].
    pose proof (update_missing D now i data d) as Hm.
    destruct (Persisted.updateProduct now i data d) as [[[x|]|m] d1];
      cbn [fst] in *.
    - exfalso. exact (Hm x Hout H0 Hmax Hno eq_refl).
    - injection Hr as <-. right. reflexivity.
    - injection Hr as <-. left. reflexivity. }
  rewrite Hget, Hdel. repeat split; try assumption.
  - pose proof (updateHandler_table D now i (parseBody b) d) as Ht.
    rewrite <- Hput in Ht. destruct Ht as [Ht|(r & Hr & Hs)]; [exact Ht|].
    destruct (Hstatus r Hr) as [E|E]; rewrite E in Hs; destruct Hs; discriminate.
  - intro Hp. rewrite Hput. unfold Persisted.updateHandler. subst put_throws.
    destruct (parseBody b) as [data|]; [|eexists; reflexivity].
    apply orb_false_elim in Hp. destruct Hp as [Hp1 Hp2]. rewrite Hp1, Hp2.
    destruct (truthy (prop "price" data) && le_num (prop "price" data) zero);
      [eexists; reflexivity|].
    destruct (Persisted.updateProduct now i data d) as [[[x|]|m] d1];
      eexists; reflexivity.
  - intro Hp. rewrite Hput. unfold Persisted.updateHandler. subst put_throws.
    destruct (parseBody b) as [data|]; [|discriminate Hp].
    destruct (negb (destructurable data)); [eexists; reflexivity|].
    cbn [orb] in Hp. rewrite Hp. eexists. reflexivity.
Qed.

Lemma missing_id_is_not_found_witness :
  fst (Persisted.server (D := example_driver) {| Persisted.NODE_ENV := None |} 5
         {| method := "GET"; pathname := "/api/products/999999"; query := [];
            body := EmptyText |} (sample_db 0))
  = reply 404 (failure "Product not found").
Proof.
  apply (missing_id_is_not_found example_driver {| Persisted.NODE_ENV := None |} 5
           (sample_db 0) "/api/products/999999" 999999 [] EmptyText).
  - reflexivity.
  - reflexivity.
  - vm_compute. discriminate.
  - intros x Hx E. cbn in Hx.
    repeat (destruct Hx as [<-|Hx]; [discriminate E|]). destruct Hx.
Defined.

Lemma filter_complement : forall (A : Type) (f : A -> bool) (l : list A),
  filter f (filter (fun x => negb (f x)) l) = [].
Proof.
  intros A f l. induction l as [|a l IH]; simpl; [reflexivity|].
  destruct (f a) eqn:E; simpl; [exact IH | rewrite E; exact IH].
Qed.

(** X8: when a delete returns a product, that product is the one a
    fetch by the id returned before; afterwards a fetch by the id finds
    nothing and a second delete returns nothing (the 404 of the handler),
    while the stored products of every other id are the same as
    before. *)
Theorem delete_then_fetch : forall (D : Driver) before now later i d d' r,
  Persisted.deleteProduct now i d = (Persisted.Ok (Some r), d') ->
  fst (Persisted.getProductById before i d) = Persisted.Ok (Some r)
  /\ fst (Persisted.getProductById later i d') = Persisted.Ok None
  /\ fst (Persisted.deleteProduct later i d') = Persisted.Ok None
  /\ (forall x, id x <> i -> (In x (products d') <-> In x (products d))).
Proof.
  intros D before now later i d d' r H. unfold Persisted.deleteProduct in H.
  destruct (pool_query now DeleteById [JNum (of_Z i)] d) as [res d1] eqn:Hq.
  destruct res as [rs| | |]; try discriminate H. injection H as Hhd <-.
  apply pool_query_rows in Hq. destruct Hq as (Hout & d2 & Hex & ->).
  unfold exec in Hex. cbn [param Nat.sub nth] in Hex.
  destruct (as_int4 (JNum (of_Z i))) as [j|] eqn:Hj; [|discriminate Hex].
  destruct (as_int4_of_Z_inv _ _ Hj) as [-> Hrange].
  destruct (filter (fun x => id x =? i) (products d)) as [|g gone] eqn:Hgone.
  { injection Hex as <- _. discriminate Hhd. }
  destruct (existsb (Z.eqb i) (order_items d)); [discriminate Hex|].
  injection Hex as <- <-. cbn in Hhd. injection Hhd as ->.
  repeat split.
  - unfold Persisted.getProductById, pool_query. rewrite Hout. unfold exec.
    cbn [param Nat.sub nth]. rewrite Hj, Hgone. reflexivity.
  - unfold Persisted.getProductById, pool_query.
    cbn [outage with_log with_products]. rewrite Hout. unfold exec.
    cbn [param Nat.sub nth products with_log with_products]. rewrite Hj.
    rewrite (filter_complement _ (fun x => id x =? i)). reflexivity.
  - unfold Persisted.deleteProduct, pool_query.
    cbn [outage with_log with_products]. rewrite Hout. unfold exec.
    cbn [param Nat.sub nth products with_log with_products]. rewrite Hj.
    rewrite (filter_complement _ (fun x => id x =? i)). reflexivity.
  - cbn [products with_log with_products]. intro Hin.
    apply filter_In in Hin. exact (proj1 Hin).
  - cbn [products with_log with_products]. intro Hin.
    apply filter_In. split; [exact Hin|].
    apply negb_true_iff. apply Z.eqb_neq. assumption.
Qed.

Lemma delete_then_fetch_witness :
  let deleted := Persisted.deleteProduct (D := example_driver) 5 2 (sample_db 0) in
  fst (Persisted.getProductById (D := example_driver) 4 2 (sample_db 0))
  = Persisted.Ok (Some (seed 2 "Wireless Headphones"
       "Premium noise-cancelling wireless headphones with 30h battery"
       249.99 "Audio" 30 0))
  /\ fst (Persisted.getProductById (D := example_driver) 6 2 (snd deleted))
     = Persisted.Ok None
  /\ fst (Persisted.deleteProduct (D := example_driver) 6 2 (snd deleted))
     = Persisted.Ok None
  /\ (forall x, id x <> 2 ->
        (In x (products (snd deleted)) <-> In x (products (sample_db 0)))).
Proof.
  intro deleted.
  apply (delete_then_fetch example_driver 4 5 6 2 (sample_db 0) (snd deleted)).
  vm_compute. reflexivity.
Defined.

(** X9: when no connection to the storage can be made, the list, the
    fetch and the statistics requests are answered by the outermost
    handler with status 500 and "Internal server error" (the message of
    the failure is added as [details] only when NODE_ENV is
    "development"), whereas a DELETE is answered 400 with its own failure
    message; nothing is sent to the storage. *)
Theorem storage_outage_responses : forall (D : Driver) env now d msg q path i b,
  outage d = Some msg ->
  productIdMatch path = Some i ->
  let send m p := Persisted.server env now
                    {| method := m; pathname := p; query := q; body := b |} d in
  let oops (m : string) : outcome Persisted.item :=
    reply 500 ([("success", FBool false); ("error", FStr "Internal server error")]
               ++ (if development env then [("details", FStr m)] else []))%list in
  send "GET" "/api/products" = (oops "Failed to fetch products", d)
  /\ send "GET" path = (oops "Failed to fetch product", d)
  /\ send "GET" "/api/products/stats" = (oops "Failed to fetch product statistics", d)
  /\ send "DELETE" path = (reply 400 (failure "Failed to delete product"), d).
Proof.
  intros D env now d msg q path i b Hout Hid send oops.
  destruct (id_path_is_no_fixed_route path i Hid) as (P1 & P2 & P3).
  assert (Hoops : forall m, Persisted.internal_error env m = oops m).
  { intro m. unfold Persisted.internal_error, oops, development.
    destruct (Persisted.NODE_ENV env) as [e|]; [|reflexivity].
    destruct (String.eqb e "development"); reflexivity. }
  unfold send, Persisted.server. cbn [method pathname query body].
  rewrite P1, P2, P3, Hid. cbn [String.eqb Ascii.eqb Bool.eqb andb].
  unfold Persisted.getAllProducts, Persisted.getProductById,
    Persisted.getProductStats, Persisted.deleteHandler, Persisted.deleteProduct,
    pool_query.
  destruct (Persisted.getAllProducts_command q) as [st params].
  rewrite Hout, <- !Hoops. repeat split.
Qed.

Lemma storage_outage_responses_witness :
  let down := {| products := sample_rows 0; products_id_seq := 9; order_items := [];
                 outage := Some "connect ECONNREFUSED"; server_version := "";
                 pool_total := 0; pool_idle := 0; pool_waiting := 0; log := [] |} in
  Persisted.server (D := example_driver) {| Persisted.NODE_ENV := Some "production" |} 5
    {| method := "DELETE"; pathname := "/api/products/2"; query := [];
       body := EmptyText |} down
  = (reply 400 (failure "Failed to delete product"), down).
Proof.
  intro down.
  apply (storage_outage_responses example_driver
           {| Persisted.NODE_ENV := Some "production" |} 5 down
           "connect ECONNREFUSED" [] "/api/products/2" 2 EmptyText);
    reflexivity.
Defined.

(** X10: every request to /health other than an OPTIONS is answered
    200 with status "OK", whatever its method and whether or not the
    storage can be reached; the [database] part says "connected", or
    "disconnected" together with the message of the failure, and the
    table is not touched. *)
Theorem health_reports_storage_inline : forall (D : Driver) env now req d,
  method req <> "OPTIONS" ->
  pathname req = "/health" ->
  exists e info d',
    Persisted.server env now req d = (reply 200 e, d')
    /\ assoc "status" e = Some (FStr "OK")
    /\ assoc "database" e = Some (FObj info)
    /\ match outage d with
       | None => assoc "status" info = Some (FStr "connected")
                 /\ assoc "error" info = None
       | Some msg => assoc "status" info = Some (FStr "disconnected")
                     /\ assoc "error" info = Some (FStr msg)
       end
    /\ products d' = products d.
Proof.
  intros D env now req d Hm Hp.
  unfold Persisted.server. rewrite Hp.
  destruct (String.eqb_spec (method req) "OPTIONS") as [E|_]; [contradiction|].
  cbn [String.eqb Ascii.eqb Bool.eqb].
  unfold Persisted.healthHandler, pool_query.
  destruct (outage d) as [msg|]; cbn; do 3 eexists; repeat split.
Qed.

Lemma health_reports_storage_inline_witness :
  exists e info d',
    Persisted.server (D := example_driver) {| Persisted.NODE_ENV := None |} 5
      (empty_request "POST" "/health") (sample_db 0) = (reply 200 e, d')
    /\ assoc "status" e = Some (FStr "OK")
    /\ assoc "database" e = Some (FObj info)
    /\ (assoc "status" info = Some (FStr "connected") /\ assoc "error" info = None)
    /\ products d' = products (sample_db 0).
Proof.
  apply (health_reports_storage_inline example_driver {| Persisted.NODE_ENV := None |} 5
           (empty_request "POST" "/health") (sample_db 0)).
  - intro E. discriminate E.
  - reflexivity.
Defined.

(** X11: a body that [JSON.parse] rejects is answered 400 "Invalid
    JSON" before any validation and without any change of state: by the
    POST route of both servers and by the PUT route of the PostgreSQL
    server. *)
Theorem malformed_body_is_bad_request :
  forall (D : Driver) env now products d q path i,
    productIdMatch path = Some i ->
    let post := {| method := "POST"; pathname := "/api/products";
                   query := q; body := Malformed |} in
    let put := {| method := "PUT"; pathname := path;
                  query := q; body := Malformed |} in
    Memory.server now post products = (reply 400 (failure "Invalid JSON"), products)
    /\ Persisted.server env now post d = (reply 400 (failure "Invalid JSON"), d)
    /\ Persisted.server env now put d = (reply 400 (failure "Invalid JSON"), d).
Proof.
  intros D env now products d q path i H post put.
  destruct (id_path_is_no_fixed_route path i H) as (H1 & H2 & H3).
  repeat split.
  unfold Persisted.server, put. cbn [method pathname body].
  rewrite H1, H2, H3, H. reflexivity.
Qed.

Lemma malformed_body_is_bad_request_witness :
  Persisted.server (D := example_driver) {| Persisted.NODE_ENV := None |} 5
    {| method := "PUT"; pathname := "/api/products/3"; query := [];
       body := Malformed |} (sample_db 0)
  = (reply 400 (failure "Invalid JSON"), sample_db 0).
Proof.
  apply (malformed_body_is_bad_request example_driver {| Persisted.NODE_ENV := None |}
           5 [] (sample_db 0) [] "/api/products/3" 3).
  reflexivity.
Defined.

(** ** The list operation of the PostgreSQL server *)

Lemma insert_by_perm : forall (A : Type) (before : A -> A -> bool) (r : A) (rs : list A),
  Permutation (insert_by before r rs) (r :: rs).
Proof.
  intros A before r rs. induction rs as [|x xs IH]; simpl.
  - apply Permutation_refl.
  - destruct (before r x); [apply Permutation_refl|].
    apply perm_trans with (x :: r :: xs); [apply perm_skip, IH | apply perm_swap].
Qed.

Lemma order_by_perm : forall (A : Type) (before : A -> A -> bool) (rs : list A),
  Permutation (order_by before rs) rs.
Proof.
  intros A before rs. induction rs as [|x xs IH]; simpl.
  - apply perm_nil.
  - apply perm_trans with (x :: order_by before xs);
      [apply insert_by_perm | apply perm_skip, IH].
Qed.

Lemma insert_by_sorted : forall (A : Type) (before : A -> A -> bool),
  (forall a b, before a b = false -> before b a = true) ->
  (forall a b c, before a b = true -> before b c = true -> before a c = true) ->
  forall r rs,
    StronglySorted (fun a b => before a b = true) rs ->
    StronglySorted (fun a b => before a b = true) (insert_by before r rs).
Proof.
  intros A before Htot Htrans r rs. induction rs as [|x xs IH]; intro Hs; simpl.
  - constructor; [constructor | constructor].
  - inversion Hs as [|? ? Hxs Hall]; subst.
    destruct (before r x) eqn:E.
    + constructor; [exact Hs|]. constructor; [exact E|].
      rewrite Forall_forall in *. intros y Hy. apply (Htrans r x y E), Hall, Hy.
    + constructor; [apply IH, Hxs|].
      rewrite Forall_forall in *. intros y Hy.
      apply (Permutation_in _ (insert_by_perm A before r xs)) in Hy.
      destruct Hy as [<-|Hy]; [apply Htot, E | apply Hall, Hy].
Qed.

Lemma order_by_sorted : forall (A : Type) (before : A -> A -> bool),
  (forall a b, before a b = false -> before b a = true) ->
  (forall a b c, before a b = true -> before b c = true -> before a c = true) ->
  forall rs, StronglySorted (fun a b => before a b = true) (order_by before rs).
Proof.
  intros A before Htot Htrans rs. induction rs as [|x xs IH]; simpl.
  - constructor.
  - apply insert_by_sorted; assumption.
Qed.

Lemma not_older_total : forall a b, not_older a b = false -> not_older b a = true.
Proof.
  intros a b. unfold not_older.
  destruct (created_at a), (created_at b); intro H; try reflexivity;
    try discriminate H.
  apply Z.leb_le. apply Z.leb_gt in H. lia.
Qed.

Lemma not_older_trans : forall a b c,
  not_older a b = true -> not_older b c = true -> not_older a c = true.
Proof.
  intros a b c. unfold not_older.
  destruct (created_at a), (created_at b), (created_at c); intros H1 H2;
    try reflexivity; try discriminate H1; try discriminate H2.
  apply Z.leb_le. apply Z.leb_le in H1, H2. lia.
Qed.

(** The rows the list operation returns, as a set and as a sequence. *)
Lemma list_rows : forall (D : Driver) now q d rs d',
  Persisted.getAllProducts now q d = (Persisted.Ok rs, d') ->
  exists conds params,
    Persisted.getAllProducts_command q = (SelectWhere conds, params)
    /\ rs = order_by not_older
              (filter (fun r => forallb (fun c => holds params c r) conds)
                      (products d)).
Proof.
  intros D now q d rs d' H. unfold Persisted.getAllProducts in H.
  pose proof (list_command_by_shape q) as Hst.
  destruct (Persisted.getAllProducts_command q) as [st params]. cbn [fst] in Hst.
  subst st.
  match type of H with
  | context [pool_query now ?st params d] =>
      destruct (pool_query now st params d) as [res d1] eqn:Hq
  end.
  destruct res as [rs'| | |]; try discriminate H. injection H as -> <-.
  apply pool_query_rows in Hq. destruct Hq as (_ & d2 & Hex & _).
  cbn [exec] in Hex. injection Hex as <- _.
  do 2 eexists. split; reflexivity.
Qed.

(** X13: the rows the list operation of the PostgreSQL server returns
    are ordered by creation time, newest first (rows without a creation
    time first of all), and without a supplied filter they are all the
    stored rows, each as often as it is stored. *)
Theorem persisted_list_is_newest_first : forall (D : Driver) now q d rs d',
  Persisted.getAllProducts now q d = (Persisted.Ok rs, d') ->
  StronglySorted (fun a b => not_older a b = true) rs
  /\ (supplied "category" q = None -> supplied "minPrice" q = None ->
      supplied "maxPrice" q = None -> Permutation rs (products d)).
Proof.
  intros D now q d rs d' H.
  destruct (list_rows D now q d rs d' H) as (conds & params & Hcmd & ->).
  split.
  - apply order_by_sorted; [exact not_older_total | exact not_older_trans].
  - intros Hc Hlo Hhi. unfold Persisted.getAllProducts_command in Hcmd.
    rewrite Hc, Hlo, Hhi in Hcmd. injection Hcmd as <- <-. cbn [forallb].
    rewrite filter_all. apply order_by_perm.
Qed.

Lemma persisted_list_is_newest_first_witness :
  let rs := [ seed 3 "Backpack" "Water-resistant backpack, 25 litres" 59 "Travel" 8 30;
              seed 2 "Notebook" "Ruled notebook, 200 pages" 3.2 "Office" 300 20;
              seed 1 "Desk Lamp" "LED desk lamp with dimmer" 24.5 "Home" 12 10 ] in
  fst (Persisted.getAllProducts (D := example_driver) 40 [] staggered_db)
  = Persisted.Ok rs
  /\ StronglySorted (fun a b => not_older a b = true) rs
  /\ (supplied "category" [] = None -> supplied "minPrice" [] = None ->
      supplied "maxPrice" [] = None -> Permutation rs (products staggered_db)).
Proof.
  intro rs. split; [vm_compute; reflexivity|].
  apply (persisted_list_is_newest_first example_driver 40 [] staggered_db rs
           (snd (Persisted.getAllProducts (D := example_driver) 40 [] staggered_db))).
  vm_compute. reflexivity.
Defined.

Lemma like_percent : forall p t,
  like (String "%" p) t
  = like p t || match t with
                | String _ t' => like (String "%" p) t'
                | EmptyString => false
                end.
Proof.
  intros p t. destruct t; reflexivity.
Qed.

Lemma like_any : forall t, like "%" t = true.
Proof.
  induction t as [|c t IH]; [reflexivity|].
  rewrite like_percent. rewrite IH. apply orb_true_r.
Qed.

Lemma like_plain_char : forall c p t,
  is_wildcard c = false ->
  like (String c p) t
  = match t with
    | String x t' => Ascii.eqb c x && like p t'
    | EmptyString => false
    end.
Proof.
  intros c p t H. unfold is_wildcard in H.
  apply orb_false_elim in H. destruct H as [H H3].
  apply orb_false_elim in H. destruct H as [H1 H2].
  cbn [like]. rewrite H1, H2, H3. reflexivity.
Qed.

Lemma like_literal_prefix : forall s t,
  literal s = true -> like (s ++ "%") t = String.prefix s t.
Proof.
  induction s as [|c s IH]; intros t H.
  - cbn [append]. rewrite like_any. destruct t; reflexivity.
  - cbn [literal] in H. apply andb_prop in H. destruct H as [Hc Hs].
    apply negb_true_iff in Hc. cbn [append].
    rewrite (like_plain_char _ _ _ Hc). destruct t as [|x t]; [reflexivity|].
    cbn [String.prefix]. rewrite (IH t Hs).
    destruct (Ascii.eqb_spec c x) as [->|Hne].
    + destruct (ascii_dec x x) as [_|n]; [reflexivity | contradiction n; reflexivity].
    + destruct (ascii_dec c x) as [e|_]; [contradiction | reflexivity].
Qed.

(** A pattern [%s%] whose [s] has no wild card matches exactly the
    texts that contain [s]. *)
Lemma like_literal_contains : forall s t,
  literal s = true -> like ("%" ++ s ++ "%") t = includes t s.
Proof.
  intros s t H. induction t as [|x t IH].
  - change ("%" ++ s ++ "%") with (String "%" (s ++ "%")).
    rewrite like_percent, (like_literal_prefix s "" H).
    cbn [includes]. reflexivity.
  - change ("%" ++ s ++ "%") with (String "%" (s ++ "%")) in *.
    rewrite like_percent, (like_literal_prefix s _ H), IH.
    cbn [includes]. reflexivity.
Qed.

Lemma toLowerCase_app : forall a b,
  toLowerCase (a ++ b) = toLowerCase a ++ toLowerCase b.
Proof.
  induction a as [|c a IH]; intro b; cbn; [|rewrite IH]; reflexivity.
Qed.

Lemma lower_char_plain : forall c,
  is_wildcard c = false -> is_wildcard (lower_char c) = false.
Proof.
  intros [[] [] [] [] [] [] [] []] H; try reflexivity; discriminate H.
Qed.

Lemma toLowerCase_literal : forall s,
  literal s = true -> literal (toLowerCase s) = true.
Proof.
  induction s as [|c s IH]; intro H; [reflexivity|].
  cbn [literal toLowerCase] in *. apply andb_prop in H. destruct H as [Hc Hs].
  apply negb_true_iff in Hc. rewrite (lower_char_plain c Hc), (IH Hs). reflexivity.
Qed.

Lemma order_by_In : forall (A : Type) (before : A -> A -> bool) (rs : list A) (x : A),
  In x (order_by before rs) <-> In x rs.
Proof.
  intros A before rs x. split; apply Permutation_in;
    [|apply Permutation_sym]; apply order_by_perm.
Qed.

(** X12: a row the list operation of the PostgreSQL server returns is
    a stored row.  When the supplied category contains none of the
    characters percent, underscore and backslash, and it and the row's
    category are ASCII texts, the row's category contains it as a
    substring, letter case ignored.  When a supplied price bound is
    written as plain digits with at most one decimal point and at most
    15 digits, the row's price is within it. *)
Theorem persisted_filter_without_wildcards :
  forall (D : Driver) now q d rs d' r,
    Persisted.getAllProducts now q d = (Persisted.Ok rs, d') ->
    In r rs ->
    In r (products d)
    /\ (forall w, supplied "category" q = Some w ->
          literal (qstring w) = true ->
          ascii_text (qstring w) = true -> ascii_text (category r) = true ->
          includes (toLowerCase (category r)) (toLowerCase (qstring w)) = true)
    /\ (forall w lo p, supplied "minPrice" q = Some w ->
          plain_decimal (qstring w) = true ->
          parseFloat_string (qstring w) = Fin lo -> price r = Fin p -> (lo <= p)%Q)
    /\ (forall w hi p, supplied "maxPrice" q = Some w ->
          plain_decimal (qstring w) = true ->
          parseFloat_string (qstring w) = Fin hi -> price r = Fin p -> (p <= hi)%Q).
Proof.
  intros D now q d rs d' r H Hin.
  destruct (list_rows D now q d rs d' H) as (conds & params & Hcmd & ->).
  apply order_by_In in Hin. apply filter_In in Hin. destruct Hin as [Hst Hall].
  split; [exact Hst|].
  assert (Hcat : forall w, literal (qstring w) = true ->
            holds [JStr ("%" ++ qstring w ++ "%")] (CategoryLike, 1%nat) r = true ->
            includes (toLowerCase (category r)) (toLowerCase (qstring w)) = true).
  { intros w Hl Hh. cbn in Hh.
    change (String "%" (qstring w ++ "%")) with ("%" ++ qstring w ++ "%") in Hh.
    rewrite !toLowerCase_app in Hh.
    change (toLowerCase "%") with "%" in Hh.
    rewrite (like_literal_contains _ _ (toLowerCase_literal _ Hl)) in Hh. exact Hh. }
  assert (Hle : forall a b, pg_le (Fin a) (Fin b) = true -> (a <= b)%Q).
  { intros a b E. apply Qle_bool_iff. exact E. }
  unfold Persisted.getAllProducts_command in Hcmd.
  destruct (supplied "category" q) as [c|];
    destruct (supplied "minPrice" q) as [lo|];
    destruct (supplied "maxPrice" q) as [hi|];
    injection Hcmd as <- <-; cbn [forallb] in Hall;
    repeat match goal with
           | E : _ && _ = true |- _ => apply andb_prop in E; destruct E
           end;
    repeat split; intros;
    repeat match goal with
           | E : Some _ = Some _ |- _ => injection E as <-
           | E : None = Some _ |- _ => discriminate E
           end;
    try (apply Hcat; assumption);
    match goal with
    | E : holds _ _ r = true, Eb : parseFloat_string _ = Fin _, Ep : price r = Fin _
      |- (_ <= _)%Q =>
        cbn in E; rewrite Eb, Ep in E; apply Hle; exact E
    end.
Qed.

Lemma persisted_filter_without_wildcards_witness :
  let q := [("category", QStr "AUD"); ("minPrice", QStr "100")] in
  let r := seed 2 "Wireless Headphones"
                "Premium noise-cancelling wireless headphones with 30h battery"
                249.99 "Audio" 30 0 in
  In r (products (sample_db 0))
  /\ (forall w, supplied "category" q = Some w ->
        literal (qstring w) = true ->
        ascii_text (qstring w) = true -> ascii_text (category r) = true ->
        includes (toLowerCase (category r)) (toLowerCase (qstring w)) = true)
  /\ (forall w lo p, supplied "minPrice" q = Some w ->
        plain_decimal (qstring w) = true ->
        parseFloat_string (qstring w) = Fin lo -> price r = Fin p -> (lo <= p)%Q)
  /\ (forall w hi p, supplied "maxPrice" q = Some w ->
        plain_decimal (qstring w) = true ->
        parseFloat_string (qstring w) = Fin hi -> price r = Fin p -> (p <= hi)%Q).
Proof.
  intros q r.
  apply (persisted_filter_without_wildcards example_driver 5 q (sample_db 0) [r]
           (snd (Persisted.getAllProducts (D := example_driver) 5 q (sample_db 0))) r).
  - vm_compute. reflexivity.
  - left. reflexivity.
Defined.

(** ** Routes *)

Lemma span_decimal : forall d acc len,
  span_digits (Z.of_nat acc) len (NilEmpty.string_of_uint d)
  = (Z.of_nat (Nat.of_uint_acc d acc),
     (len + String.length (NilEmpty.string_of_uint d))%nat, EmptyString).
Proof.
  induction d as [|d IH|d IH|d IH|d IH|d IH|d IH|d IH|d IH|d IH|d IH];
    intros acc len;
    [cbn; rewrite Nat.add_0_r; reflexivity|..];
    cbn [NilEmpty.string_of_uint span_digits Nat.of_uint_acc String.length];
    match goal with
    | |- context [is_digit ?c] => change (is_digit c) with true
    end; cbv iota;
    match goal with
    | |- span_digits ?z _ _ = (Z.of_nat (Nat.of_uint_acc d ?a), _, _) =>
        replace z with (Z.of_nat a);
        [rewrite IH, Nat.add_succ_r; reflexivity|]
    end;
    rewrite Nat.tail_mul_spec;
    match goal with
    | |- context [digit_val ?c] =>
        let v := eval vm_compute in (digit_val c) in change (digit_val c) with v
    end; lia.
Qed.

Lemma to_uint_not_nil : forall n, Nat.to_uint n <> Decimal.Nil.
Proof.
  intros n E. pose proof (Unsigned.to_of (Nat.to_uint n)) as H.
  rewrite Unsigned.of_to, E in H. discriminate H.
Qed.

Lemma span_show_nat : forall n,
  exists len, span_digits 0 0%nat (show_nat n) = (Z.of_nat n, S len, EmptyString).
Proof.
  intro n. unfold show_nat, NilZero.string_of_uint.
  pose proof (to_uint_not_nil n) as Hn. pose proof (Unsigned.of_to n) as Hof.
  unfold Nat.of_uint in Hof.
  pose proof (span_decimal (Nat.to_uint n) 0 0) as Hs. rewrite Hof in Hs.
  destruct (Nat.to_uint n) as [|d|d|d|d|d|d|d|d|d|d]; [contradiction Hn; reflexivity|..];
    change (Z.of_nat 0) with 0 in Hs; rewrite Hs; eexists; reflexivity.
Qed.

Lemma substring_all : forall s, substring 0 (String.length s) s = s.
Proof.
  induction s as [|c s IH]; cbn; [|rewrite IH]; reflexivity.
Qed.

(** X14: the route of a single product reads back the id a decimal
    rendering was made from: for [n] up to 2^53, the path /api/products/
    followed by the decimal digits of [n] selects id [n]; and an id the
    route selects is never negative. *)
Theorem id_route_round_trip : forall n path i,
  (Z.of_nat n <= 2 ^ 53 ->
   productIdMatch ("/api/products/" ++ show_nat n) = Some (Z.of_nat n))
  /\ (productIdMatch path = Some i -> 0 <= i).
Proof.
  intros n path i. split; [intros _|apply productIdMatch_nonneg].
  unfold productIdMatch.
  change (String.prefix "/api/products/" ("/api/products/" ++ show_nat n))
    with (String.prefix "" (show_nat n)).
  replace (String.prefix "" (show_nat n)) with true by (destruct (show_nat n); reflexivity).
  replace (String.length ("/api/products/" ++ show_nat n) - 14)%nat
    with (String.length (show_nat n)) by (cbn [append String.length]; lia).
  cbn [append substring]. rewrite substring_all.
  destruct (span_show_nat n) as [len ->]. reflexivity.
Qed.

Lemma id_route_round_trip_witness :
  productIdMatch ("/api/products/" ++ show_nat 42) = Some (Z.of_nat 42).
Proof.
  apply (proj1 (id_route_round_trip 42 "/api/products/42" 42)).
  vm_compute. discriminate.
Defined.

(** X15: over HTTP, a product the PostgreSQL server has just created
    (status 201) is what a GET on /api/products/ followed by the decimal
    digits of its id returns, with status 200. *)
Theorem http_create_then_get : forall (D : Driver) env now later q b d d' r,
  Persisted.server env now
    {| method := "POST"; pathname := "/api/products"; query := q; body := b |} d
  = (reply 201 [("success", FBool true); ("data", FOne (Persisted.Product r))], d') ->
  0 <= id r ->
  fst (Persisted.server env later (fetch_request (id r)) d')
  = reply 200 [("success", FBool true); ("data", FOne (Persisted.Product r))].
Proof.
  intros D env now later q b d d' r H Hpos.
  unfold Persisted.server in H. cbn [method pathname body] in H.
  cbn [String.eqb Ascii.eqb Bool.eqb andb productIdMatch String.prefix] in H.
  change (productIdMatch "/api/products") with (@None Z) in H. cbv iota in H.
  unfold Persisted.createHandler in H.
  destruct (parseBody b) as [data|]; [|discriminate H].
  destruct (negb (destructurable data)); [discriminate H|].
  destruct (negb (truthy (prop "name" data)) || negb (truthy (prop "price" data))
            || negb (truthy (prop "category" data))); [discriminate H|].
  destruct (throws (prop "price" data)); [discriminate H|].
  destruct (le_num (prop "price" data) zero); [discriminate H|].
  destruct (Persisted.createProduct now data d) as [[x|m] d1] eqn:Hc;
    [|discriminate H].
  destruct x as [r'|]; [|discriminate H]. cbn in H. injection H as -> ->.
  destruct (persisted_create_then_fetch D now later data d d' r Hc) as (Hf & _).
  assert (Hroute : productIdMatch (pathname (fetch_request (id r))) = Some (id r)).
  { unfold fetch_request. cbn [pathname].
    destruct (span_show_nat (Z.to_nat (id r))) as [len Hs].
    unfold productIdMatch.
    change (String.prefix "/api/products/" ("/api/products/" ++ show_nat (Z.to_nat (id r))))
      with (String.prefix "" (show_nat (Z.to_nat (id r)))).
    replace (String.prefix "" (show_nat (Z.to_nat (id r)))) with true
      by (destruct (show_nat (Z.to_nat (id r))); reflexivity).
    replace (String.length ("/api/products/" ++ show_nat (Z.to_nat (id r))) - 14)%nat
      with (String.length (show_nat (Z.to_nat (id r))))
      by (cbn [append String.length]; lia).
    cbn [append substring]. rewrite substring_all, Hs, Z2Nat.id by exact Hpos.
    reflexivity. }
  destruct (id_path_is_no_fixed_route _ _ Hroute) as (P1 & P2 & P3).
  unfold Persisted.server. rewrite P1, P2, P3, Hroute.
  change (method (fetch_request (id r))) with "GET".
  cbn [String.eqb Ascii.eqb Bool.eqb andb].
  destruct (Persisted.getProductById later (id r) d') as [res d2].
  cbn [fst] in Hf. rewrite Hf. reflexivity.
Qed.

Lemma http_create_then_get_witness :
  let created :=
    Persisted.server (D := example_driver) {| Persisted.NODE_ENV := None |} 7
      (json_request "POST" "/api/products" (mouse (Fin 19.99))) (sample_db 0) in
  let r := {| id := 9; name := "Mouse"; description := Some "";
              price := Fin 19.99; category := "Accessories"; stock := Some 0;
              created_at := Some 7; updated_at := Some 7 |} in
  fst (Persisted.server (D := example_driver) {| Persisted.NODE_ENV := None |} 8
         (fetch_request (id r)) (snd created))
  = reply 200 [("success", FBool true); ("data", FOne (Persisted.Product r))].
Proof.
  intros created r.
  apply (http_create_then_get example_driver {| Persisted.NODE_ENV := None |} 7 8 []
           (JsonText (mouse (Fin 19.99))) (sample_db 0) (snd created) r).
  - vm_compute. reflexivity.
  - vm_compute. discriminate.
Defined.

(** ** Statements per request, and identifiers *)

Ltac by_one_query :=
  unfold one_query;
  match goal with
  | |- context [pool_query ?n ?st ?ps ?x] =>
      let E := fresh "E" in
      destruct (pool_query n st ps x) as [[?|?|? ?|? ?] ?] eqn:E;
      repeat match goal with
             | |- context [match ?y with _ => _ end] => destruct y
             | |- context [if ?y then _ else _] => destruct y
             end;
      cbn [snd]; right; exists st, ps; rewrite E; reflexivity
  end.

Lemma service_db : forall (D : Driver) env now q i data d,
  one_query now d (snd (Persisted.healthHandler env now d))
  /\ one_query now d (snd (Persisted.getAllProducts now q d))
  /\ one_query now d (snd (Persisted.getProductById now i d))
  /\ one_query now d (snd (Persisted.getProductStats now d))
  /\ one_query now d (snd (Persisted.createProduct now data d))
  /\ one_query now d (snd (Persisted.updateProduct now i data d))
  /\ one_query now d (snd (Persisted.deleteProduct now i d)).
Proof.
  intros D env now q i data d. repeat split.
  - unfold Persisted.healthHandler. by_one_query.
  - unfold Persisted.getAllProducts.
    destruct (Persisted.getAllProducts_command q) as [st params]. by_one_query.
  - unfold Persisted.getProductById. by_one_query.
  - unfold Persisted.getProductStats. by_one_query.
  - unfold Persisted.createProduct.
    destruct (negb (destructurable data)); [left; reflexivity|].
    destruct (throws (prop "price" data) || throws (prop "stock" data));
      [left; reflexivity|]. by_one_query.
  - unfold Persisted.updateProduct.
    destruct (negb (destructurable data)); [left; reflexivity|].
    destruct (throws (prop "price" data) || throws (prop "stock" data));
      [left; reflexivity|].
    destruct (Persisted.updateProduct_sets data) as [[updates params] n].
    destruct updates; [left; reflexivity|]. by_one_query.
  - unfold Persisted.deleteProduct. by_one_query.
Qed.

(** The database after a request is the one before it, or the one a
    single [pool.query] leaves. *)
Lemma server_db : forall (D : Driver) env now req d,
  one_query now d (snd (Persisted.server env now req d)).
Proof.
  intros D env now req d.
  assert (Hsame : one_query now d d) by (left; reflexivity).
  unfold Persisted.server.
  destruct (String.eqb (method req) "OPTIONS"); [exact Hsame|].
  destruct (String.eqb (pathname req) "/health").
  { apply (service_db D env now [] 0 JNull d). }
  destruct (String.eqb (pathname req) "/api/products/stats"
            && String.eqb (method req) "GET").
  { pose proof (proj1 (proj2 (proj2 (proj2 (service_db D env now [] 0 JNull d))))) as H.
    destruct (Persisted.getProductStats now d) as [[ss|m] d1]; exact H. }
  destruct (String.eqb (pathname req) "/api/products" && String.eqb (method req) "GET").
  { pose proof (proj1 (proj2 (service_db D env now (query req) 0 JNull d))) as H.
    destruct (Persisted.getAllProducts now (query req) d) as [[rs|m] d1]; exact H. }
  assert (Hcreate : forall parsed,
             one_query now d (snd (Persisted.createHandler now parsed d))).
  { intro parsed. unfold Persisted.createHandler.
    destruct parsed as [data|]; [|exact Hsame].
    destruct (negb (destructurable data)); [exact Hsame|].
    destruct (negb (truthy (prop "name" data)) || negb (truthy (prop "price" data))
              || negb (truthy (prop "category" data))); [exact Hsame|].
    destruct (throws (prop "price" data)); [exact Hsame|].
    destruct (le_num (prop "price" data) zero); [exact Hsame|].
    pose proof (proj1 (proj2 (proj2 (proj2 (proj2
                  (service_db D env now [] 0 data d)))))) as H.
    destruct (Persisted.createProduct now data d) as [[x|m] d1]; exact H. }
  assert (Hupdate : forall i parsed,
             one_query now d (snd (Persisted.updateHandler now i parsed d))).
  { intros i parsed. unfold Persisted.updateHandler.
    destruct parsed as [data|]; [|exact Hsame].
    destruct (negb (destructurable data)); [exact Hsame|].
    destruct (truthy (prop "price" data) && throws (prop "price" data));
      [exact Hsame|].
    destruct (truthy (prop "price" data) && le_num (prop "price" data) zero);
      [exact Hsame|].
    pose proof (proj1 (proj2 (proj2 (proj2 (proj2 (proj2
                  (service_db D env now [] i data d))))))) as H.
    destruct (Persisted.updateProduct now i data d) as [[[x|]|m] d1]; exact H. }
  assert (Hdelete : forall i, one_query now d (snd (Persisted.deleteHandler now i d))).
  { intro i. unfold Persisted.deleteHandler.
    pose proof (proj2 (proj2 (proj2 (proj2 (proj2 (proj2
                  (service_db D env now [] i JNull d))))))) as H.
    destruct (Persisted.deleteProduct now i d) as [[[x|]|m] d1]; exact H. }
  destruct (productIdMatch (pathname req)) as [i|];
    destruct (String.eqb (method req) "GET");
    try (pose proof (proj1 (proj2 (proj2 (service_db D env now [] i JNull d)))) as H;
         destruct (Persisted.getProductById now i d) as [[[x|]|m] d1]; exact H);
    (destruct (String.eqb (pathname req) "/api/products"
               && String.eqb (method req) "POST"); [apply Hcreate|]);
    try exact Hsame;
    destruct (String.eqb (method req) "PUT"); [apply Hupdate|];
    destruct (String.eqb (method req) "DELETE"); [apply Hdelete | exact Hsame].
Qed.

(** X16: serving one request sends at most one statement to the
    storage: afterwards the log of statements is the old one, or the old
    one followed by a single entry. *)
Theorem one_statement_per_request : forall (D : Driver) env now req d,
  log (snd (Persisted.server env now req d)) = log d
  \/ exists entry,
       log (snd (Persisted.server env now req d)) = (log d ++ [entry])%list.
Proof.
  intros D env now req d.
  destruct (server_db D env now req d) as [->|(st & params & ->)];
    [left; reflexivity|].
  unfold pool_query. destruct (outage d); [left; reflexivity|].
  pose proof (exec_log D now st params d) as Hl.
  destruct (exec now st params d) as [res d1]. cbn [snd] in *.
  right. eexists. cbn [log with_log]. rewrite Hl. reflexivity.
Qed.

Lemma update_rows_ids : forall (D : Driver) now params sets i rs table out,
  update_rows now params sets i rs = inr (table, out) ->
  map id table = map id rs.
Proof.
  intros D now params sets i rs. induction rs as [|a rs IH]; intros table out H;
    simpl in H.
  - injection H as <- _. reflexivity.
  - destruct (id a =? i).
    + destruct (update_row now params sets a) as [code|a'] eqn:Hrow; [discriminate H|].
      destruct (update_rows now params sets i rs) as [code|[t o]]; [discriminate H|].
      injection H as <- _. cbn [map].
      rewrite (update_row_id _ _ _ _ _ _ Hrow), (IH t o eq_refl). reflexivity.
    + destruct (update_rows now params sets i rs) as [code|[t o]]; [discriminate H|].
      injection H as <- _. cbn [map]. rewrite (IH t o eq_refl). reflexivity.
Qed.

Lemma ids_below_by_map : forall rs seq,
  forallb (fun r => id r <? seq) rs = forallb (fun i => i <? seq) (map id rs).
Proof.
  intros rs seq. symmetry. apply forallb_map.
Qed.

Lemma ids_below_grow : forall rs seq,
  forallb (fun r => id r <? seq) rs = true ->
  forallb (fun r => id r <? seq + 1) rs = true.
Proof.
  intros rs seq H. rewrite forallb_forall in *. intros x Hx.
  specialize (H x Hx). apply Z.ltb_lt. apply Z.ltb_lt in H. lia.
Qed.

Lemma exec_ids : forall (D : Driver) now st params d,
  ids_below_sequence d = true ->
  ids_below_sequence (snd (exec now st params d)) = true.
Proof.
  intros D now st params d H. unfold ids_below_sequence in *.
  destruct st; cbn [exec].
  - exact H.
  - destruct (as_int4 (param 1 params)); exact H.
  - destruct (inserted_row now params (products_id_seq d)) as [code|r] eqn:Hr.
    + destruct (String.eqb code invalid_text_representation); cbn;
        [exact H | apply ids_below_grow, H].
    + destruct (negb ((- 2147483648 <=? products_id_seq d)
                      && (products_id_seq d <=? 2147483647)));
        [cbn; apply ids_below_grow, H|].
      destruct (existsb (fun x => id x =? products_id_seq d) (products d));
        cbn; [apply ids_below_grow, H|].
      rewrite forallb_app, (ids_below_grow _ _ H). cbn.
      destruct (inserted_row_facts _ _ _ _ _ Hr) as (-> & _).
      rewrite andb_true_r. apply Z.ltb_lt. lia.
  - destruct (as_int4 (param idparam params)) as [i|]; [|exact H].
    destruct (binds params sets); [|exact H].
    destruct (update_rows now params sets i (products d)) as [code|[table out]] eqn:Hup;
      [exact H|].
    cbn. rewrite ids_below_by_map, (update_rows_ids _ _ _ _ _ _ _ _ Hup),
      <- ids_below_by_map. exact H.
  - destruct (as_int4 (param 1 params)) as [i|]; [|exact H].
    destruct (filter (fun r => id r =? i) (products d)); [exact H|].
    destruct (existsb (Z.eqb i) (order_items d)); [exact H|].
    cbn. rewrite forallb_forall in *. intros x Hx.
    apply filter_In in Hx. apply H, Hx.
  - exact H.
  - exact H.
Qed.

(** X17: if every stored id is below the next value of the id
    sequence, this is still so after the PostgreSQL server has served
    any request. *)
Theorem persisted_ids_stay_below_sequence : forall (D : Driver) env now req d,
  ids_below_sequence d = true ->
  ids_below_sequence (snd (Persisted.server env now req d)) = true.
Proof.
  intros D env now req d H.
  destruct (server_db D env now req d) as [->|(st & params & ->)]; [exact H|].
  unfold pool_query. destruct (outage d); [exact H|].
  pose proof (exec_ids D now st params d H) as He.
  destruct (exec now st params d) as [res d1]. exact He.
Qed.

Lemma persisted_ids_stay_below_sequence_witness :
  ids_below_sequence
    (snd (Persisted.server (D := example_driver) {| Persisted.NODE_ENV := None |} 7
            (json_request "POST" "/api/products" (mouse (Fin 19.99))) (sample_db 0)))
  = true.
Proof.
  apply (persisted_ids_stay_below_sequence example_driver
           {| Persisted.NODE_ENV := None |} 7
           (json_request "POST" "/api/products" (mouse (Fin 19.99))) (sample_db 0)).
  reflexivity.
Defined.

(** X18: under the same condition, the id of a product the create
    operation returns is greater than the id of every product stored
    before, and the existing rows are kept as they were, the new row
    coming last. *)
Theorem persisted_new_id_exceeds_all : forall (D : Driver) now data d d' r,
  ids_below_sequence d = true ->
  Persisted.createProduct now data d = (Persisted.Ok (Some r), d') ->
  (forall x, In x (products d) -> id x < id r)
  /\ products d' = (products d ++ [r])%list.
Proof.
  intros D now data d d' r Hinv H. unfold Persisted.createProduct in H.
  destruct (negb (destructurable data)); [discriminate H|].
  destruct (throws (prop "price" data) || throws (prop "stock" data));
    [discriminate H|].
  match type of H with
  | match pool_query now InsertProduct ?ps d with _ => _ end = _ =>
      destruct (pool_query now InsertProduct ps d) as [res d1] eqn:Hq
  end.
  destruct res as [rs| | |code msg]; try discriminate H.
  2:{ destruct (String.eqb code unique_violation); discriminate H. }
  injection H as Hhd <-.
  apply pool_query_rows in Hq. destruct Hq as (_ & d2 & Hex & ->).
  apply exec_insert_rows in Hex.
  destruct Hex as (r' & -> & Hrow & _ & _ & ->).
  injection Hhd as ->.
  destruct (inserted_row_facts _ _ _ _ _ Hrow) as (Hid & _).
  split; [|reflexivity].
  intros x Hx. unfold ids_below_sequence in Hinv. rewrite forallb_forall in Hinv.
  rewrite Hid. apply Z.ltb_lt, Hinv, Hx.
Qed.

Lemma persisted_new_id_exceeds_all_witness :
  let r := {| id := 9; name := "Mouse"; description := Some "";
              price := Fin 19.99; category := "Accessories"; stock := Some 0;
              created_at := Some 7; updated_at := Some 7 |} in
  let d' := snd (Persisted.createProduct (D := example_driver) 7 (mouse (Fin 19.99))
                   (sample_db 0)) in
  (forall x, In x (products (sample_db 0)) -> id x < id r)
  /\ products d' = (products (sample_db 0) ++ [r])%list.
Proof.
  intros r d'.
  apply (persisted_new_id_exceeds_all example_driver 7 (mouse (Fin 19.99))
           (sample_db 0) d' r).
  - reflexivity.
  - vm_compute. reflexivity.
Defined.

(** ** What a created product carries *)




(** ** Statistics *)

Lemma list_sum_perm : forall l l', Permutation l l' -> list_sum l = list_sum l'.
Proof.
  intros l l' H. induction H; unfold list_sum in *; cbn [fold_right] in *; lia.
Qed.

Lemma list_sum_cons : forall x l, list_sum (x :: l) = (x + list_sum l)%nat.
Proof.
  reflexivity.
Qed.

Lemma indicator_sum : forall (k : string) cats,
  NoDup cats -> In k cats ->
  list_sum (map (fun c => if String.eqb k c then 1%nat else 0%nat) cats) = 1%nat.
Proof.
  intros k cats Hnd. induction Hnd as [|c cats Hnot Hnd IH]; intro Hin; [destruct Hin|].
  cbn [map]. rewrite list_sum_cons. destruct (String.eqb_spec k c) as [->|Hne].
  - assert (Hz : list_sum (map (fun c0 => if String.eqb c c0 then 1%nat else 0%nat) cats)
                 = 0%nat).
    { clear IH Hin Hnd. induction cats as [|x xs IHx]; [reflexivity|].
      cbn [map]. rewrite list_sum_cons. destruct (String.eqb_spec c x) as [->|_].
      - exfalso. apply Hnot. left. reflexivity.
      - rewrite IHx; [reflexivity|]. intro Hx. apply Hnot. right. exact Hx. }
    rewrite Hz. reflexivity.
  - destruct Hin as [E|Hin]; [congruence|]. rewrite (IH Hin). reflexivity.
Qed.

(** Grouping loses no row: the sizes of the groups of a list of
    distinct categories that covers the table add up to its size. *)
Lemma group_sizes : forall rs cats,
  NoDup cats ->
  (forall r, In r rs -> In (category r) cats) ->
  list_sum (map (fun c => List.length (filter (fun r => String.eqb (category r) c) rs))
                cats)
  = List.length rs.
Proof.
  intros rs cats Hnd. induction rs as [|a rs IH]; intro Hcov.
  - cbn [filter List.length]. clear Hnd Hcov.
    induction cats as [|c cats IHc]; [reflexivity|].
    cbn [map]. rewrite list_sum_cons, IHc. reflexivity.
  - assert (Hsplit : forall l,
      list_sum (map (fun c => List.length
                                (filter (fun r => String.eqb (category r) c) (a :: rs))) l)
      = (list_sum (map (fun c => if String.eqb (category a) c then 1%nat else 0%nat) l)
         + list_sum (map (fun c => List.length
                                     (filter (fun r => String.eqb (category r) c) rs)) l))%nat).
    { induction l as [|c l IHl]; [reflexivity|].
      cbn [map]. rewrite !list_sum_cons, IHl. cbn [filter].
      destruct (String.eqb (category a) c); cbn [List.length]; lia. }
    rewrite Hsplit, IH, (indicator_sum _ _ Hnd (Hcov a (or_introl eq_refl))).
    + reflexivity.
    + intros r Hr. apply Hcov. right. exact Hr.
Qed.

Lemma sorted_weaken : forall (A : Type) (R R' : A -> A -> Prop),
  (forall a b, R a b -> R' a b) ->
  forall l, StronglySorted R l -> StronglySorted R' l.
Proof.
  intros A R R' Himp l Hs. induction Hs as [|a l Hl IH Hall]; constructor;
    [exact IH|].
  rewrite Forall_forall in *. intros x Hx. apply Himp, Hall, Hx.
Qed.

Lemma more_products_total : forall a b : stat_row,
  (total_products b <=? total_products a)%nat = false ->
  (total_products a <=? total_products b)%nat = true.
Proof.
  intros a b H. apply Nat.leb_le. apply Nat.leb_gt in H. lia.
Qed.

Lemma more_products_trans : forall a b c : stat_row,
  (total_products b <=? total_products a)%nat = true ->
  (total_products c <=? total_products b)%nat = true ->
  (total_products c <=? total_products a)%nat = true.
Proof.
  intros a b c H1 H2. apply Nat.leb_le. apply Nat.leb_le in H1, H2. lia.
Qed.

(** X19: the statistics have one row for each category that occurs in
    the table and no two rows for the same category; the count of a row
    is the number of stored products of its category, so the counts add
    up to the size of the table; and the rows come in the order of
    decreasing count. *)
Theorem stats_cover_the_table : forall (D : Driver) now d ss d',
  Persisted.getProductStats now d = (Persisted.Ok ss, d') ->
  NoDup (map stat_category ss)
  /\ (forall c, In c (map stat_category ss) <-> In c (map category (products d)))
  /\ (forall s, In s ss ->
        total_products s
        = List.length (filter (fun r => String.eqb (category r) (stat_category s))
                              (products d)))
  /\ list_sum (map total_products ss) = List.length (products d)
  /\ StronglySorted (fun a b => (total_products b <= total_products a)%nat) ss.
Proof.
  intros D now d ss d' H. unfold Persisted.getProductStats in H.
  destruct (pool_query now CategoryStats [] d) as [res d1] eqn:Hq.
  destruct res as [|ss'| |]; try discriminate H. injection H as -> <-.
  unfold pool_query in Hq. destruct (outage d); [discriminate Hq|].
  cbn [exec] in Hq. injection Hq as <- _.
  set (rs := products d).
  set (cats := nodup string_dec (map category rs)).
  assert (Hperm : Permutation (category_stats rs) (map (stats_of rs) cats)).
  { apply order_by_perm. }
  assert (Hcat : map stat_category (map (stats_of rs) cats) = cats).
  { rewrite map_map. cbn [stats_of stat_category]. apply map_id. }
  assert (Hcount : map total_products (map (stats_of rs) cats)
                   = map (fun c => List.length
                                     (filter (fun r => String.eqb (category r) c) rs))
                         cats).
  { rewrite map_map. reflexivity. }
  assert (Hnd : NoDup cats) by apply NoDup_nodup.
  repeat split.
  - apply (Permutation_NoDup (l := cats)); [|exact Hnd].
    rewrite <- Hcat. apply Permutation_sym, Permutation_map, Hperm.
  - intro Hin. apply (Permutation_in _ (Permutation_map stat_category Hperm)) in Hin.
    rewrite Hcat in Hin. apply nodup_In in Hin. exact Hin.
  - intro Hin. apply (Permutation_in _ (Permutation_sym
                                          (Permutation_map stat_category Hperm))).
    rewrite Hcat. apply nodup_In. exact Hin.
  - intros s Hs. apply (Permutation_in _ Hperm) in Hs.
    apply in_map_iff in Hs. destruct Hs as (c & <- & _). reflexivity.
  - rewrite (list_sum_perm _ _ (Permutation_map total_products Hperm)), Hcount.
    apply group_sizes; [exact Hnd|].
    intros r Hr. apply nodup_In. apply in_map. exact Hr.
  - assert (Hs : StronglySorted
                   (fun a b => (total_products b <=? total_products a)%nat = true)
                   (category_stats rs)).
    { apply order_by_sorted; [exact more_products_total | exact more_products_trans]. }
    apply (sorted_weaken _ _ _ (fun a b => proj1 (Nat.leb_le _ _)) _ Hs).
Qed.

Lemma stats_cover_the_table_witness :
  let ss := category_stats (sample_rows 0) in
  NoDup (map stat_category ss)
  /\ (forall c, In c (map stat_category ss)
                <-> In c (map category (products (sample_db 0))))
  /\ (forall s, In s ss ->
        total_products s
        = List.length (filter (fun r => String.eqb (category r) (stat_category s))
                              (products (sample_db 0))))
  /\ list_sum (map total_products ss) = List.length (products (sample_db 0))
  /\ StronglySorted (fun a b => (total_products b <= total_products a)%nat) ss.
Proof.
  intro ss.
  apply (stats_cover_the_table example_driver 5 (sample_db 0) ss
           (snd (Persisted.getProductStats (D := example_driver) 5 (sample_db 0)))).
  vm_compute. reflexivity.
Defined.

(** ** Validation of a create, by the sign of the price *)

(** X21: for a body whose name and category are truthy, whose price
    is a finite number of at most 8 integer digits and 7 decimals, and
    whose stock is absent or an integer of magnitude at most 2^53, the
    sign of the price decides.  Price 0: both servers answer 400 with
    the required-fields message.  A negative price: the PostgreSQL
    server answers 400 "Price must be greater than 0" without touching
    the storage, the in-memory server creates the product.  A positive
    price: the PostgreSQL server hands the body to [createProduct] and
    answers by its result, the in-memory server creates the product. *)
Theorem create_by_sign_of_price : forall (D : Driver) now data d products q,
  destructurable data = true ->
  truthy (prop "name" data) = true ->
  truthy (prop "category" data) = true ->
  prop "price" data = Some (JNum (Fin q)) ->
  short_decimal q = true ->
  plain_stock (prop "stock" data) = true ->
  let required : forall P, outcome P :=
    fun P => reply 400 (failure "Name, price, and category are required") in
  let created :=
    (reply 201 [("success", FBool true);
                ("data", FOne (Memory.newProduct now data products))],
     (products ++ [Memory.newProduct now data products])%list) in
  ((q == 0)%Q ->
     Persisted.createHandler now (Some data) d = (required _, d)
     /\ Memory.createHandler now (Some data) products = (required _, products))
  /\ ((q < 0)%Q ->
        Persisted.createHandler now (Some data) d
        = (reply 400 (failure "Price must be greater than 0"), d)
        /\ Memory.createHandler now (Some data) products = created)
  /\ ((0 < q)%Q ->
        Persisted.createHandler now (Some data) d
        = (match Persisted.createProduct now data d with
           | (Persisted.Ok x, d') =>
               (reply 201 (Persisted.with_data [("success", FBool true)] x), d')
           | (Persisted.Throw message, d') => (reply 400 (failure message), d')
           end)
        /\ Memory.createHandler now (Some data) products = created).
Proof.
  intros D now data d products q Hd Hn Hc Hp _ Hs required created.
  assert (Ht : throws (prop "stock" data) = false).
  { destruct (prop "stock" data) as [[| |[]| | |]|]; try discriminate Hs; reflexivity. }
  unfold Persisted.createHandler, Memory.createHandler, required, created.
  rewrite Hd, Hn, Hc, Ht, Hp.
  cbn [negb orb truthy num_truthy le_num ToNumber ToNumber_json num_le zero
       throws unprintable].
  split; [|split]; intro Hq.
  - apply Qeq_bool_iff in Hq. rewrite Hq. split; reflexivity.
  - assert (E0 : Qeq_bool q 0 = false).
    { apply not_true_is_false. intro E. apply Qeq_bool_iff in E. lra. }
    assert (E1 : Qle_bool q 0 = true) by (apply Qle_bool_iff; lra).
    rewrite E0, E1. split; reflexivity.
  - assert (E0 : Qeq_bool q 0 = false).
    { apply not_true_is_false. intro E. apply Qeq_bool_iff in E. lra. }
    assert (E1 : Qle_bool q 0 = false).
    { apply not_true_is_false. intro E. apply Qle_bool_iff in E. lra. }
    rewrite E0, E1. split; reflexivity.
Qed.

Lemma create_by_sign_of_price_witness :
  Persisted.createHandler (D := example_driver) 7 (Some (mouse (of_Z (-5)))) (sample_db 0)
  = (reply 400 (failure "Price must be greater than 0"), sample_db 0)
  /\ Memory.createHandler 7 (Some (mouse (of_Z (-5)))) (Memory.sample_products 0)
     = (reply 201 [("success", FBool true);
                   ("data", FOne (Memory.newProduct 7 (mouse (of_Z (-5)))
                                    (Memory.sample_products 0)))],
        (Memory.sample_products 0
         ++ [Memory.newProduct 7 (mouse (of_Z (-5))) (Memory.sample_products 0)])%list).
Proof.
  apply (create_by_sign_of_price example_driver 7 (mouse (of_Z (-5))) (sample_db 0)
           (Memory.sample_products 0) (-5)); try reflexivity.
Defined.

(** ** Keys of the body that are not fields *)

(** X22: the handlers read the five fields of the body and nothing
    else: two bodies (neither of them [null]) that agree on name,
    description, price, category and stock are answered alike and leave
    the same state, so no other key of a body, such as [id] or
    [created_at], has any effect. *)
Theorem other_keys_are_ignored :
  forall (D : Driver) now i data data' d products,
    destructurable data = true ->
    destructurable data' = true ->
    (forall f, In f updatable -> prop f data = prop f data') ->
    Persisted.createHandler now (Some data) d = Persisted.createHandler now (Some data') d
    /\ Persisted.updateHandler now i (Some data) d
       = Persisted.updateHandler now i (Some data') d
    /\ Memory.createHandler now (Some data) products
       = Memory.createHandler now (Some data') products.
Proof.
  intros D now i data data' d products Hd Hd' H.
  assert (Hn : prop "name" data = prop "name" data')
    by (apply H; unfold updatable; simpl; auto 10).
  assert (Hde : prop "description" data = prop "description" data')
    by (apply H; unfold updatable; simpl; auto 10).
  assert (Hp : prop "price" data = prop "price" data')
    by (apply H; unfold updatable; simpl; auto 10).
  assert (Hc : prop "category" data = prop "category" data')
    by (apply H; unfold updatable; simpl; auto 10).
  assert (Hs : prop "stock" data = prop "stock" data')
    by (apply H; unfold updatable; simpl; auto 10).
  unfold Persisted.createHandler, Persisted.updateHandler, Memory.createHandler,
    Persisted.createProduct, Persisted.updateProduct, Persisted.updateProduct_sets,
    Memory.newProduct.
  rewrite Hd, Hd', Hn, Hde, Hp, Hc, Hs. repeat split.
Qed.

Lemma other_keys_are_ignored_witness :
  Persisted.updateHandler (D := example_driver) 7 2
    (Some (JObj [("id", JNum (of_Z 99)); ("price", JNum (of_Z 10))])) (sample_db 0)
  = Persisted.updateHandler (D := example_driver) 7 2
      (Some (JObj [("price", JNum (of_Z 10))])) (sample_db 0).
Proof.
  apply (other_keys_are_ignored example_driver 7 2
           (JObj [("id", JNum (of_Z 99)); ("price", JNum (of_Z 10))])
           (JObj [("price", JNum (of_Z 10))]) (sample_db 0) []).
  - reflexivity.
  - reflexivity.
  - intros f Hf. unfold updatable in Hf. cbn in Hf.
    destruct Hf as [<-|[<-|[<-|[<-|[<-|[]]]]]]; reflexivity.
Defined.
